(** * Task manager: sharing, visibility and deadline reminders

    A shallow embedding of the Django application under [src/apps]:

    - [apps/tasks/models.py]       the [Task] and [TaskShare] rows, [is_overdue], [is_due_soon];
    - [apps/users/models.py]       the [User] row;
    - [apps/tasks/permissions.py]  the three object permissions;
    - [apps/tasks/api/serializers.py] and [apps/tasks/api/views.py]
                                   the validation of a task and of a share, and the
                                   [TaskViewSet] actions;
    - [apps/tasks/tasks.py]        the periodic deadline scan and the point notification;
    - [shared/cache/redis_client.py], [shared/email/fake_client.py]
                                   the cache wrapper and the e-mail client at hand.

    Tables are lists of rows in insertion order.  Instants are integers,
    microseconds since the epoch (the resolution of a Python [datetime]);
    a [timedelta] is an integer number of microseconds.  A [str] is kept
    as its UTF-8 bytes.  What the frameworks do around the repository's
    code (routing, the field classes other than the one of the title,
    rendering, token checks) is kept at the boundary of the model and said
    so where it is met. *)

From Stdlib Require Import ZArith List String Ascii Bool Lia Sorted.
From Stdlib Require Import QArith Qround Qpower Lqa.
From Stdlib Require Import SpecFloat.
Import ListNotations.

#[local] Open Scope string_scope.
#[local] Open Scope Z_scope.

(* ------------------------------------------------------------------ *)
(** ** Python strings *)

Module Str.

Definition eqb (a b : string) : bool := String.eqb a b.

(** Truthiness of a [str]: non-empty. *)
Definition truthy (s : string) : bool :=
  match s with EmptyString => false | _ => true end.

(** *** Code points

    A [str] is a sequence of code points.  A [string] of the model holds
    its UTF-8 bytes, which is also how a literal of this file is read.
    [decode] gives the code points; a byte that is part of no character is
    kept, as a negative number, so that [encode] puts it back. *)

Definition byte (c : ascii) : Z := Z.of_N (N_of_ascii c).

Definition chr (b : Z) : ascii := ascii_of_N (Z.to_N b).

Definition continuation (b : Z) : bool := (128 <=? b) && (b <? 192).

Fixpoint decode (s : string) : list Z :=
  match s with
  | EmptyString => []
  | String c0 s0 =>
      let b0 := byte c0 in
      if b0 <? 128 then b0 :: decode s0
      else
        match s0 with
        | String c1 s1 =>
            let b1 := byte c1 in
            if negb (continuation b1) || (b0 <? 192) then - b0 :: decode s0
            else if b0 <? 224 then
              ((b0 - 192) * 64 + (b1 - 128)) :: decode s1
            else
              match s1 with
              | String c2 s2 =>
                  let b2 := byte c2 in
                  if negb (continuation b2) then - b0 :: decode s0
                  else if b0 <? 240 then
                    (((b0 - 224) * 64 + (b1 - 128)) * 64 + (b2 - 128)) :: decode s2
                  else
                    match s2 with
                    | String c3 s3 =>
                        let b3 := byte c3 in
                        if continuation b3 && (b0 <? 248) then
                          ((((b0 - 240) * 64 + (b1 - 128)) * 64 + (b2 - 128)) * 64
                           + (b3 - 128)) :: decode s3
                        else - b0 :: decode s0
                    | EmptyString => - b0 :: decode s0
                    end
              | EmptyString => - b0 :: decode s0
              end
        | EmptyString => - b0 :: decode s0
        end
  end.

Definition encode_point (c : Z) : list Z :=
  if c <? 0 then [- c]
  else if c <? 128 then [c]
  else if c <? 2048 then [192 + c / 64; 128 + c mod 64]
  else if c <? 65536 then [224 + c / 4096; 128 + (c / 64) mod 64; 128 + c mod 64]
  else [240 + c / 262144; 128 + (c / 4096) mod 64; 128 + (c / 64) mod 64;
        128 + c mod 64].

Definition encode (points : list Z) : string :=
  string_of_list_ascii (map chr (flat_map encode_point points)).

(** [len(s)]: the number of code points. *)
Definition len (s : string) : Z := Z.of_nat (List.length (decode s)).

(** [c in s] for one code point [c]. *)
Definition contains (c : Z) (s : string) : bool := existsb (Z.eqb c) (decode s).

(** *** [str.strip]

    The code points [str.isspace] holds of; [strip()] without argument
    removes them at both ends. *)
Definition whitespace : list Z :=
  [9; 10; 11; 12; 13; 28; 29; 30; 31; 32; 133; 160; 5760;
   8192; 8193; 8194; 8195; 8196; 8197; 8198; 8199; 8200; 8201; 8202;
   8232; 8233; 8239; 8287; 12288].

(** The same code points as bytes. *)
Definition spaces : list (list ascii) :=
  map (fun c => map chr (encode_point c)) whitespace.

Section Strip.

Variable patterns : list (list ascii).

Fixpoint drop_prefix (p l : list ascii) : option (list ascii) :=
  match p, l with
  | [], _ => Some l
  | a :: p', b :: l' => if Ascii.eqb a b then drop_prefix p' l' else None
  | _ :: _, [] => None
  end.

Fixpoint drop_one (ps : list (list ascii)) (l : list ascii) : option (list ascii) :=
  match ps with
  | [] => None
  | p :: ps' =>
      match drop_prefix p l with
      | Some r => Some r
      | None => drop_one ps' l
      end
  end.

(** Dropping leading patterns as long as there is one; [fuel] bounds the
    number of turns, and the length of the text is enough. *)
Fixpoint drop_all (fuel : nat) (l : list ascii) : list ascii :=
  match fuel with
  | O => l
  | S fuel' =>
      match drop_one patterns l with
      | Some r => drop_all fuel' r
      | None => l
      end
  end.

End Strip.

Definition lstrip_bytes (l : list ascii) : list ascii :=
  drop_all spaces (List.length l) l.

(** At the end, the same on the reversed text: a character of UTF-8 is
    recognised from its last byte backwards as well. *)
Definition rstrip_bytes (l : list ascii) : list ascii :=
  rev (drop_all (map (@rev ascii) spaces) (List.length l) (rev l)).

Definition strip (s : string) : string :=
  string_of_list_ascii (rstrip_bytes (lstrip_bytes (list_ascii_of_string s))).

(** *** [str.lower]

    The full lower-casing of Unicode 14.0, the tables of CPython 3.11.
    [lower_rules] lists the code points that change, as
    [(first, last, step, delta)]: every [step]-th code point from [first]
    to [last] goes [delta] further.  [case_ignorable_ranges] and
    [cased_ranges] are the two properties the rule for a final sigma
    needs. *)
Definition lower_rules : list (Z * Z * Z * Z) :=
  [
    (65, 90, 1, 32); (192, 214, 1, 32); (216, 222, 1, 32); (256, 302, 2, 1);
    (306, 310, 2, 1); (313, 327, 2, 1); (330, 374, 2, 1); (376, 376, 1, -121);
    (377, 381, 2, 1); (385, 385, 1, 210); (386, 388, 2, 1); (390, 390, 1, 206);
    (391, 391, 1, 1); (393, 394, 1, 205); (395, 395, 1, 1); (398, 398, 1, 79);
    (399, 399, 1, 202); (400, 400, 1, 203); (401, 401, 1, 1); (403, 403, 1, 205);
    (404, 404, 1, 207); (406, 406, 1, 211); (407, 407, 1, 209); (408, 408, 1, 1);
    (412, 412, 1, 211); (413, 413, 1, 213); (415, 415, 1, 214); (416, 420, 2, 1);
    (422, 422, 1, 218); (423, 423, 1, 1); (425, 425, 1, 218); (428, 428, 1, 1);
    (430, 430, 1, 218); (431, 431, 1, 1); (433, 434, 1, 217); (435, 437, 2, 1);
    (439, 439, 1, 219); (440, 440, 1, 1); (444, 444, 1, 1); (452, 452, 1, 2);
    (453, 453, 1, 1); (455, 455, 1, 2); (456, 456, 1, 1); (458, 458, 1, 2);
    (459, 475, 2, 1); (478, 494, 2, 1); (497, 497, 1, 2); (498, 500, 2, 1);
    (502, 502, 1, -97); (503, 503, 1, -56); (504, 542, 2, 1); (544, 544, 1, -130);
    (546, 562, 2, 1); (570, 570, 1, 10795); (571, 571, 1, 1); (573, 573, 1, -163);
    (574, 574, 1, 10792); (577, 577, 1, 1); (579, 579, 1, -195); (580, 580, 1, 69);
    (581, 581, 1, 71); (582, 590, 2, 1); (880, 882, 2, 1); (886, 886, 1, 1);
    (895, 895, 1, 116); (902, 902, 1, 38); (904, 906, 1, 37); (908, 908, 1, 64);
    (910, 911, 1, 63); (913, 929, 1, 32); (932, 939, 1, 32); (975, 975, 1, 8);
    (984, 1006, 2, 1); (1012, 1012, 1, -60); (1015, 1015, 1, 1); (1017, 1017, 1, -7);
    (1018, 1018, 1, 1); (1021, 1023, 1, -130); (1024, 1039, 1, 80); (1040, 1071, 1, 32);
    (1120, 1152, 2, 1); (1162, 1214, 2, 1); (1216, 1216, 1, 15); (1217, 1229, 2, 1);
    (1232, 1326, 2, 1); (1329, 1366, 1, 48); (4256, 4293, 1, 7264); (4295, 4295, 1, 7264);
    (4301, 4301, 1, 7264); (5024, 5103, 1, 38864); (5104, 5109, 1, 8);
    (7312, 7354, 1, -3008); (7357, 7359, 1, -3008); (7680, 7828, 2, 1);
    (7838, 7838, 1, -7615); (7840, 7934, 2, 1); (7944, 7951, 1, -8); (7960, 7965, 1, -8);
    (7976, 7983, 1, -8); (7992, 7999, 1, -8); (8008, 8013, 1, -8); (8025, 8031, 2, -8);
    (8040, 8047, 1, -8); (8072, 8079, 1, -8); (8088, 8095, 1, -8); (8104, 8111, 1, -8);
    (8120, 8121, 1, -8); (8122, 8123, 1, -74); (8124, 8124, 1, -9); (8136, 8139, 1, -86);
    (8140, 8140, 1, -9); (8152, 8153, 1, -8); (8154, 8155, 1, -100); (8168, 8169, 1, -8);
    (8170, 8171, 1, -112); (8172, 8172, 1, -7); (8184, 8185, 1, -128);
    (8186, 8187, 1, -126); (8188, 8188, 1, -9); (8486, 8486, 1, -7517);
    (8490, 8490, 1, -8383); (8491, 8491, 1, -8262); (8498, 8498, 1, 28);
    (8544, 8559, 1, 16); (8579, 8579, 1, 1); (9398, 9423, 1, 26); (11264, 11311, 1, 48);
    (11360, 11360, 1, 1); (11362, 11362, 1, -10743); (11363, 11363, 1, -3814);
    (11364, 11364, 1, -10727); (11367, 11371, 2, 1); (11373, 11373, 1, -10780);
    (11374, 11374, 1, -10749); (11375, 11375, 1, -10783); (11376, 11376, 1, -10782);
    (11378, 11378, 1, 1); (11381, 11381, 1, 1); (11390, 11391, 1, -10815);
    (11392, 11490, 2, 1); (11499, 11501, 2, 1); (11506, 11506, 1, 1); (42560, 42604, 2, 1);
    (42624, 42650, 2, 1); (42786, 42798, 2, 1); (42802, 42862, 2, 1); (42873, 42875, 2, 1);
    (42877, 42877, 1, -35332); (42878, 42886, 2, 1); (42891, 42891, 1, 1);
    (42893, 42893, 1, -42280); (42896, 42898, 2, 1); (42902, 42920, 2, 1);
    (42922, 42922, 1, -42308); (42923, 42923, 1, -42319); (42924, 42924, 1, -42315);
    (42925, 42925, 1, -42305); (42926, 42926, 1, -42308); (42928, 42928, 1, -42258);
    (42929, 42929, 1, -42282); (42930, 42930, 1, -42261); (42931, 42931, 1, 928);
    (42932, 42946, 2, 1); (42948, 42948, 1, -48); (42949, 42949, 1, -42307);
    (42950, 42950, 1, -35384); (42951, 42953, 2, 1); (42960, 42960, 1, 1);
    (42966, 42968, 2, 1); (42997, 42997, 1, 1); (65313, 65338, 1, 32);
    (66560, 66599, 1, 40); (66736, 66771, 1, 40); (66928, 66938, 1, 39);
    (66940, 66954, 1, 39); (66956, 66962, 1, 39); (66964, 66965, 1, 39);
    (68736, 68786, 1, 64); (71840, 71871, 1, 32); (93760, 93791, 1, 32);
    (125184, 125217, 1, 34)
  ].

Definition case_ignorable_ranges : list (Z * Z) :=
  [
    (39, 39); (46, 46); (58, 58); (94, 94); (96, 96); (168, 168); (173, 173); (175, 175);
    (180, 180); (183, 184); (688, 879); (884, 885); (890, 890); (900, 901); (903, 903);
    (1155, 1161); (1369, 1369); (1375, 1375); (1425, 1469); (1471, 1471); (1473, 1474);
    (1476, 1477); (1479, 1479); (1524, 1524); (1536, 1541); (1552, 1562); (1564, 1564);
    (1600, 1600); (1611, 1631); (1648, 1648); (1750, 1757); (1759, 1768); (1770, 1773);
    (1807, 1807); (1809, 1809); (1840, 1866); (1958, 1968); (2027, 2037); (2042, 2042);
    (2045, 2045); (2070, 2093); (2137, 2139); (2184, 2184); (2192, 2193); (2200, 2207);
    (2249, 2306); (2362, 2362); (2364, 2364); (2369, 2376); (2381, 2381); (2385, 2391);
    (2402, 2403); (2417, 2417); (2433, 2433); (2492, 2492); (2497, 2500); (2509, 2509);
    (2530, 2531); (2558, 2558); (2561, 2562); (2620, 2620); (2625, 2626); (2631, 2632);
    (2635, 2637); (2641, 2641); (2672, 2673); (2677, 2677); (2689, 2690); (2748, 2748);
    (2753, 2757); (2759, 2760); (2765, 2765); (2786, 2787); (2810, 2815); (2817, 2817);
    (2876, 2876); (2879, 2879); (2881, 2884); (2893, 2893); (2901, 2902); (2914, 2915);
    (2946, 2946); (3008, 3008); (3021, 3021); (3072, 3072); (3076, 3076); (3132, 3132);
    (3134, 3136); (3142, 3144); (3146, 3149); (3157, 3158); (3170, 3171); (3201, 3201);
    (3260, 3260); (3263, 3263); (3270, 3270); (3276, 3277); (3298, 3299); (3328, 3329);
    (3387, 3388); (3393, 3396); (3405, 3405); (3426, 3427); (3457, 3457); (3530, 3530);
    (3538, 3540); (3542, 3542); (3633, 3633); (3636, 3642); (3654, 3662); (3761, 3761);
    (3764, 3772); (3782, 3782); (3784, 3789); (3864, 3865); (3893, 3893); (3895, 3895);
    (3897, 3897); (3953, 3966); (3968, 3972); (3974, 3975); (3981, 3991); (3993, 4028);
    (4038, 4038); (4141, 4144); (4146, 4151); (4153, 4154); (4157, 4158); (4184, 4185);
    (4190, 4192); (4209, 4212); (4226, 4226); (4229, 4230); (4237, 4237); (4253, 4253);
    (4348, 4348); (4957, 4959); (5906, 5908); (5938, 5939); (5970, 5971); (6002, 6003);
    (6068, 6069); (6071, 6077); (6086, 6086); (6089, 6099); (6103, 6103); (6109, 6109);
    (6155, 6159); (6211, 6211); (6277, 6278); (6313, 6313); (6432, 6434); (6439, 6440);
    (6450, 6450); (6457, 6459); (6679, 6680); (6683, 6683); (6742, 6742); (6744, 6750);
    (6752, 6752); (6754, 6754); (6757, 6764); (6771, 6780); (6783, 6783); (6823, 6823);
    (6832, 6862); (6912, 6915); (6964, 6964); (6966, 6970); (6972, 6972); (6978, 6978);
    (7019, 7027); (7040, 7041); (7074, 7077); (7080, 7081); (7083, 7085); (7142, 7142);
    (7144, 7145); (7149, 7149); (7151, 7153); (7212, 7219); (7222, 7223); (7288, 7293);
    (7376, 7378); (7380, 7392); (7394, 7400); (7405, 7405); (7412, 7412); (7416, 7417);
    (7468, 7530); (7544, 7544); (7579, 7679); (8125, 8125); (8127, 8129); (8141, 8143);
    (8157, 8159); (8173, 8175); (8189, 8190); (8203, 8207); (8216, 8217); (8228, 8228);
    (8231, 8231); (8234, 8238); (8288, 8292); (8294, 8303); (8305, 8305); (8319, 8319);
    (8336, 8348); (8400, 8432); (11388, 11389); (11503, 11505); (11631, 11631);
    (11647, 11647); (11744, 11775); (11823, 11823); (12293, 12293); (12330, 12333);
    (12337, 12341); (12347, 12347); (12441, 12446); (12540, 12542); (40981, 40981);
    (42232, 42237); (42508, 42508); (42607, 42610); (42612, 42621); (42623, 42623);
    (42652, 42655); (42736, 42737); (42752, 42785); (42864, 42864); (42888, 42890);
    (42994, 42996); (43000, 43001); (43010, 43010); (43014, 43014); (43019, 43019);
    (43045, 43046); (43052, 43052); (43204, 43205); (43232, 43249); (43263, 43263);
    (43302, 43309); (43335, 43345); (43392, 43394); (43443, 43443); (43446, 43449);
    (43452, 43453); (43471, 43471); (43493, 43494); (43561, 43566); (43569, 43570);
    (43573, 43574); (43587, 43587); (43596, 43596); (43632, 43632); (43644, 43644);
    (43696, 43696); (43698, 43700); (43703, 43704); (43710, 43711); (43713, 43713);
    (43741, 43741); (43756, 43757); (43763, 43764); (43766, 43766); (43867, 43871);
    (43881, 43883); (44005, 44005); (44008, 44008); (44013, 44013); (64286, 64286);
    (64434, 64450); (65024, 65039); (65043, 65043); (65056, 65071); (65106, 65106);
    (65109, 65109); (65279, 65279); (65287, 65287); (65294, 65294); (65306, 65306);
    (65342, 65342); (65344, 65344); (65392, 65392); (65438, 65439); (65507, 65507);
    (65529, 65531); (66045, 66045); (66272, 66272); (66422, 66426); (67456, 67461);
    (67463, 67504); (67506, 67514); (68097, 68099); (68101, 68102); (68108, 68111);
    (68152, 68154); (68159, 68159); (68325, 68326); (68900, 68903); (69291, 69292);
    (69446, 69456); (69506, 69509); (69633, 69633); (69688, 69702); (69744, 69744);
    (69747, 69748); (69759, 69761); (69811, 69814); (69817, 69818); (69821, 69821);
    (69826, 69826); (69837, 69837); (69888, 69890); (69927, 69931); (69933, 69940);
    (70003, 70003); (70016, 70017); (70070, 70078); (70089, 70092); (70095, 70095);
    (70191, 70193); (70196, 70196); (70198, 70199); (70206, 70206); (70367, 70367);
    (70371, 70378); (70400, 70401); (70459, 70460); (70464, 70464); (70502, 70508);
    (70512, 70516); (70712, 70719); (70722, 70724); (70726, 70726); (70750, 70750);
    (70835, 70840); (70842, 70842); (70847, 70848); (70850, 70851); (71090, 71093);
    (71100, 71101); (71103, 71104); (71132, 71133); (71219, 71226); (71229, 71229);
    (71231, 71232); (71339, 71339); (71341, 71341); (71344, 71349); (71351, 71351);
    (71453, 71455); (71458, 71461); (71463, 71467); (71727, 71735); (71737, 71738);
    (71995, 71996); (71998, 71998); (72003, 72003); (72148, 72151); (72154, 72155);
    (72160, 72160); (72193, 72202); (72243, 72248); (72251, 72254); (72263, 72263);
    (72273, 72278); (72281, 72283); (72330, 72342); (72344, 72345); (72752, 72758);
    (72760, 72765); (72767, 72767); (72850, 72871); (72874, 72880); (72882, 72883);
    (72885, 72886); (73009, 73014); (73018, 73018); (73020, 73021); (73023, 73029);
    (73031, 73031); (73104, 73105); (73109, 73109); (73111, 73111); (73459, 73460);
    (78896, 78904); (92912, 92916); (92976, 92982); (92992, 92995); (94031, 94031);
    (94095, 94111); (94176, 94177); (94179, 94180); (110576, 110579); (110581, 110587);
    (110589, 110590); (113821, 113822); (113824, 113827); (118528, 118573);
    (118576, 118598); (119143, 119145); (119155, 119170); (119173, 119179);
    (119210, 119213); (119362, 119364); (121344, 121398); (121403, 121452);
    (121461, 121461); (121476, 121476); (121499, 121503); (121505, 121519);
    (122880, 122886); (122888, 122904); (122907, 122913); (122915, 122916);
    (122918, 122922); (123184, 123197); (123566, 123566); (123628, 123631);
    (125136, 125142); (125252, 125259); (127995, 127999); (917505, 917505);
    (917536, 917631); (917760, 917999)
  ].

Definition cased_ranges : list (Z * Z) :=
  [
    (65, 90); (97, 122); (170, 170); (181, 181); (186, 186); (192, 214); (216, 246);
    (248, 442); (444, 447); (452, 659); (661, 696); (704, 705); (736, 740); (837, 837);
    (880, 883); (886, 887); (890, 893); (895, 895); (902, 902); (904, 906); (908, 908);
    (910, 929); (931, 1013); (1015, 1153); (1162, 1327); (1329, 1366); (1376, 1416);
    (4256, 4293); (4295, 4295); (4301, 4301); (4304, 4346); (4349, 4351); (5024, 5109);
    (5112, 5117); (7296, 7304); (7312, 7354); (7357, 7359); (7424, 7615); (7680, 7957);
    (7960, 7965); (7968, 8005); (8008, 8013); (8016, 8023); (8025, 8025); (8027, 8027);
    (8029, 8029); (8031, 8061); (8064, 8116); (8118, 8124); (8126, 8126); (8130, 8132);
    (8134, 8140); (8144, 8147); (8150, 8155); (8160, 8172); (8178, 8180); (8182, 8188);
    (8305, 8305); (8319, 8319); (8336, 8348); (8450, 8450); (8455, 8455); (8458, 8467);
    (8469, 8469); (8473, 8477); (8484, 8484); (8486, 8486); (8488, 8488); (8490, 8493);
    (8495, 8500); (8505, 8505); (8508, 8511); (8517, 8521); (8526, 8526); (8544, 8575);
    (8579, 8580); (9398, 9449); (11264, 11492); (11499, 11502); (11506, 11507);
    (11520, 11557); (11559, 11559); (11565, 11565); (42560, 42605); (42624, 42653);
    (42786, 42887); (42891, 42894); (42896, 42954); (42960, 42961); (42963, 42963);
    (42965, 42969); (42997, 42998); (43000, 43002); (43824, 43866); (43868, 43880);
    (43888, 43967); (64256, 64262); (64275, 64279); (65313, 65338); (65345, 65370);
    (66560, 66639); (66736, 66771); (66776, 66811); (66928, 66938); (66940, 66954);
    (66956, 66962); (66964, 66965); (66967, 66977); (66979, 66993); (66995, 67001);
    (67003, 67004); (67456, 67456); (67459, 67461); (67463, 67504); (67506, 67514);
    (68736, 68786); (68800, 68850); (71840, 71903); (93760, 93823); (119808, 119892);
    (119894, 119964); (119966, 119967); (119970, 119970); (119973, 119974);
    (119977, 119980); (119982, 119993); (119995, 119995); (119997, 120003);
    (120005, 120069); (120071, 120074); (120077, 120084); (120086, 120092);
    (120094, 120121); (120123, 120126); (120128, 120132); (120134, 120134);
    (120138, 120144); (120146, 120485); (120488, 120512); (120514, 120538);
    (120540, 120570); (120572, 120596); (120598, 120628); (120630, 120654);
    (120656, 120686); (120688, 120712); (120714, 120744); (120746, 120770);
    (120772, 120779); (122624, 122633); (122635, 122654); (125184, 125251);
    (127280, 127305); (127312, 127337); (127344, 127369)
  ].

Definition in_ranges (ranges : list (Z * Z)) (c : Z) : bool :=
  existsb (fun r => (fst r <=? c) && (c <=? snd r)) ranges.

Definition case_ignorable (c : Z) : bool := in_ranges case_ignorable_ranges c.

Definition cased (c : Z) : bool := in_ranges cased_ranges c.

Definition rule_applies (c : Z) (r : Z * Z * Z * Z) : bool :=
  let '(first, last, step, _) := r in
  (first <=? c) && (c <=? last) && ((c - first) mod step =? 0).

(** [_PyUnicode_ToLowerFull]: one code point, U+0130 gives two. *)
Definition to_lower (c : Z) : list Z :=
  if c =? 304 then [105; 775]
  else
    match find (rule_applies c) lower_rules with
    | Some (_, _, _, delta) => [c + delta]
    | None => [c]
    end.

Fixpoint skip_case_ignorable (points : list Z) : list Z :=
  match points with
  | c :: points' => if case_ignorable c then skip_case_ignorable points' else points
  | [] => []
  end.

(** [handle_capital_sigma]: U+03A3 is final when a cased letter comes
    before it and none after it, case-ignorable code points apart.
    [before] is the text before it, nearest first. *)
Definition final_sigma (before after : list Z) : bool :=
  match skip_case_ignorable before with
  | c :: _ => cased c
  | [] => false
  end
  && match skip_case_ignorable after with
     | c :: _ => negb (cased c)
     | [] => true
     end.

Fixpoint lower_points (before points : list Z) : list Z :=
  match points with
  | [] => []
  | c :: after =>
      (if c =? 931 then [if final_sigma before after then 962 else 963]
       else to_lower c)
      ++ lower_points (c :: before) after
  end.

Definition lower (s : string) : string := encode (lower_points [] (decode s)).

End Str.

(* ------------------------------------------------------------------ *)
(** ** Python floats

    [timedelta.total_seconds()] and the division by [3600] are done in
    binary64.  A finite binary64 value is kept as the rational it denotes;
    an operation is the exact operation followed by rounding to the
    nearest value with a 53-bit significand, ties to even.  The exponent
    range is not part of the model: a [timedelta] lies between one
    microsecond and 10^9 days, far inside it. *)

Module Float.

#[local] Open Scope Q_scope.

Definition pow2 (e : Z) : Q := 2 ^ e.

(** The exponent of the binade of [x > 0]: [2^ilog2 x <= x < 2^(ilog2 x + 1)]. *)
Definition ilog2 (x : Q) : Z :=
  let c := (Z.log2 (Qnum x) - Z.log2 (Zpos (Qden x)))%Z in
  if Qle_bool (pow2 c) x then c else (c - 1)%Z.

Definition round_half_even (y : Q) : Z :=
  let f := Qfloor y in
  match Qcompare (y - inject_Z f) (1 # 2) with
  | Lt => f
  | Gt => (f + 1)%Z
  | Eq => if Z.even f then f else (f + 1)%Z
  end.

Definition round_pos (x : Q) : Q :=
  let e := (ilog2 x - 52)%Z in
  inject_Z (round_half_even (x / pow2 e)) * pow2 e.

Definition round (x : Q) : Q :=
  match Qcompare x 0 with
  | Eq => 0
  | Gt => round_pos x
  | Lt => - round_pos (- x)
  end.

(** [a / b] on two [int]s: the quotient, correctly rounded. *)
Definition truediv (a b : Z) : Q := round (inject_Z a / inject_Z b).

(** [x / y] on two floats. *)
Definition div (x y : Q) : Q := round (x / y).

(** [int(x)]: truncation towards zero. *)
Definition int (x : Q) : Z := Z.quot (Qnum x) (Zpos (Qden x)).

Definition lt_b (x y : Q) : bool := negb (Qle_bool y x).

Definition le_b (x y : Q) : bool := Qle_bool x y.

(** [timedelta.total_seconds()], the [timedelta] given in microseconds:
    [(days * 86400 + seconds) * 10**6 + microseconds) / 10**6]. *)
Definition total_seconds (td : Z) : Q := truediv td 1000000.

(** The same two divisions with the binary64 division of the standard
    library's [SpecFloat] ([prec = 53], [emax = 1024]), to compare with. *)
Definition of_spec_float (x : spec_float) : Q :=
  match x with
  | S754_finite s m e => (if s then -1 else 1) * inject_Z (Zpos m) * pow2 e
  | _ => 0
  end.

Definition to_spec_float (n : Z) : spec_float :=
  match n with
  | Z0 => S754_zero false
  | Zpos p => S754_finite false p 0
  | Zneg p => S754_finite true p 0
  end.

Definition spec_total_seconds (td : Z) : spec_float :=
  SFdiv 53 1024 (to_spec_float td) (to_spec_float 1000000).

Definition spec_hours (td : Z) : spec_float :=
  SFdiv 53 1024 (spec_total_seconds td) (to_spec_float 3600).

(** The instants where a rounding could matter: one microsecond, and one
    microsecond before, at and after each whole hour of a day. *)
Definition hour_marks : list Z :=
  1%Z :: flat_map (fun k => [k * 3600000000 - 1; k * 3600000000; k * 3600000000 + 1]%Z)
           (map Z.of_nat (seq 1 24)).

End Float.

(* ------------------------------------------------------------------ *)
(** ** Exceptions and results *)

Inductive exn : Type :=
| DoesNotExist             (* Model.DoesNotExist *)
| MultipleObjectsReturned  (* Model.MultipleObjectsReturned *)
| Http404                  (* django.http.Http404 *)
| PermissionDenied         (* rest_framework.exceptions.PermissionDenied *)
| NotAuthenticated         (* rest_framework.exceptions.NotAuthenticated *)
| TypeError                (* the built-in TypeError *)
| TransportError.          (* anything the e-mail client raises *)

Inductive result (A : Type) : Type :=
| Ok (a : A)
| Raise (e : exn).
Arguments Ok {A} a.
Arguments Raise {A} e.

Definition bind {A B} (r : result A) (k : A -> result B) : result B :=
  match r with
  | Ok a => k a
  | Raise e => Raise e
  end.

Notation "x <- r ;; k" := (bind r (fun x => k))
  (at level 61, r at next level, right associativity).
Notation "' p <- r ;; k" := (bind r (fun p => k))
  (at level 61, p pattern, r at next level, right associativity).

(* ------------------------------------------------------------------ *)
(** ** The data model: [apps/users/models.py], [apps/tasks/models.py] *)

Module Models.

(** [Task.Status], [Task.Priority], [TaskShare.Permission]: the three
    [TextChoices] enumerations. *)
Inductive Status : Type := NEW | IN_PROGRESS | DONE.
Inductive Priority : Type := LOW | MEDIUM | HIGH.
Inductive Permission : Type := VIEW | EDIT.

Definition Status_eqb (a b : Status) : bool :=
  match a, b with
  | NEW, NEW | IN_PROGRESS, IN_PROGRESS | DONE, DONE => true
  | _, _ => false
  end.

Definition Permission_eqb (a b : Permission) : bool :=
  match a, b with
  | VIEW, VIEW | EDIT, EDIT => true
  | _, _ => false
  end.

(** The stored value of each permission choice. *)
Definition Permission_value (p : Permission) : string :=
  match p with VIEW => "view" | EDIT => "edit" end.

(** [User(AbstractBaseUser, TimestampMixin)]: the primary key and the
    unique e-mail. *)
Record User : Type := {
  user_pk : Z;
  email : string
}.

(** [is_active]: [User] declares no such field, so the attribute is the
    one of the class [AbstractBaseUser], [is_active = True]. *)
Definition is_active (self : User) : bool := true.

(** Modelled from the spec: [TimestampMixin] of [common/mixins.py], which
    is not among the sources; the spec gives a task "created-at/updated-at
    timestamps (system-set)". *)
Record TimestampMixin : Type := {
  created_at : Z;
  updated_at : Z
}.

(** [Task(TimestampMixin, models.Model)].  [owner_id] is the foreign key
    column. *)
Record Task : Type := {
  task_pk : Z;
  title : string;
  description : option string;
  status : Status;
  priority : Priority;
  deadline : option Z;
  owner_id : Z;
  timestamps :> TimestampMixin
}.

(** [TaskShare], with [unique_together = [['task', 'shared_with']]]. *)
Record TaskShare : Type := {
  share_pk : Z;
  task_id : Z;
  shared_with_id : Z;
  permission : Permission;
  shared_at : Z
}.

(** The database: the three tables and the two sequences that hand out
    primary keys. *)
Record DB : Type := {
  users : list User;
  tasks : list Task;
  task_shares : list TaskShare;
  task_seq : Z;
  share_seq : Z
}.

(** Model instances compare by primary key. *)
Definition User_eq (a b : User) : bool := user_pk a =? user_pk b.

(** [obj.owner == request.user] *)
Definition owned_by (t : Task) (u : User) : bool := owner_id t =? user_pk u.

Definition Status_eq_dec (a b : Status) : {a = b} + {a <> b}.
Proof. decide equality. Defined.

Definition Priority_eq_dec (a b : Priority) : {a = b} + {a <> b}.
Proof. decide equality. Defined.

Definition TimestampMixin_eq_dec (a b : TimestampMixin) : {a = b} + {a <> b}.
Proof. decide equality; apply Z.eq_dec. Defined.

Definition Task_eq_dec (a b : Task) : {a = b} + {a <> b}.
Proof.
  decide equality;
    try apply Z.eq_dec; try apply string_dec;
    try apply Priority_eq_dec; try apply Status_eq_dec;
    try apply TimestampMixin_eq_dec;
    decide equality; try apply Z.eq_dec; apply string_dec.
Defined.

(** [QuerySet.get]: the single row matching the lookup, [DoesNotExist]
    when there is none, [MultipleObjectsReturned] when there are several. *)
Definition get {A} (p : A -> bool) (rows : list A) : result A :=
  match filter p rows with
  | [] => Raise DoesNotExist
  | [x] => Ok x
  | _ :: _ :: _ => Raise MultipleObjectsReturned
  end.

(** The lookup [task=obj, shared_with=user] on [TaskShare]. *)
Definition share_of (tpk upk : Z) (s : TaskShare) : bool :=
  (task_id s =? tpk) && (shared_with_id s =? upk).

(** [Task.is_overdue], at the instant [now] that [timezone.now()] returns. *)
Definition is_overdue (now : Z) (self : Task) : bool :=
  match deadline self with
  | Some d =>
      if negb (Status_eqb (status self) DONE) then d <? now else false
  | None => false
  end.

(** [Task.is_due_soon(hours)], [hours] an [int].  The chained comparison
    [0 < total_seconds() <= hours * 3600] is between a float and two
    [int]s, which Python compares exactly. *)
Definition is_due_soon (now : Z) (hours : Z) (self : Task) : bool :=
  match deadline self with
  | Some d =>
      if negb (Status_eqb (status self) DONE) then
        let time_until_deadline := d - now in
        Float.lt_b (inject_Z 0) (Float.total_seconds time_until_deadline)
        && Float.le_b (Float.total_seconds time_until_deadline)
                      (inject_Z (hours * 3600))
      else false
  | None => false
  end.

End Models.
Export Models.

(* ------------------------------------------------------------------ *)
(** ** [apps/tasks/permissions.py] *)

Module Permissions.

Inductive Method : Type := GET | HEAD | OPTIONS | POST | PUT | PATCH | DELETE.

(** [permissions.SAFE_METHODS = ('GET', 'HEAD', 'OPTIONS')] *)
Definition SAFE_METHODS (m : Method) : bool :=
  match m with
  | GET | HEAD | OPTIONS => true
  | _ => false
  end.

Inductive PermissionClass : Type :=
| IsAuthenticated
| IsTaskOwner
| IsTaskOwnerOrSharedWith
| CanShareTask.

(** [has_permission]: only [IsAuthenticated] overrides the default [True]. *)
Definition has_permission (c : PermissionClass) (request_user : option User) : bool :=
  match c, request_user with
  | IsAuthenticated, None => false
  | _, _ => true
  end.

(** [IsTaskOwnerOrSharedWith.has_object_permission].  The share is
    looked up in the table as it is at the call; only [DoesNotExist]
    is caught. *)
Definition shared_has_object_permission
    (db : DB) (m : Method) (u : User) (obj : Task) : result bool :=
  if owned_by obj u then Ok true
  else
    match get (share_of (task_pk obj) (user_pk u)) (task_shares db) with
    | Ok share =>
        if SAFE_METHODS m then Ok true
        else Ok (Permission_eqb (permission share) EDIT)
    | Raise DoesNotExist => Ok false
    | Raise e => Raise e
    end.

Definition has_object_permission
    (c : PermissionClass) (db : DB) (m : Method) (u : User) (obj : Task)
  : result bool :=
  match c with
  | IsAuthenticated => Ok true
  | IsTaskOwner => Ok (owned_by obj u)
  | IsTaskOwnerOrSharedWith => shared_has_object_permission db m u obj
  | CanShareTask => Ok (owned_by obj u)
  end.

End Permissions.
Export Permissions.

(* ------------------------------------------------------------------ *)
(** ** [apps/tasks/api/serializers.py] *)

Module Serializers.

(** A field error: the messages the repository raises itself are kept as
    text; the ones of the framework's field classes are named. *)
Inductive FieldError : Type :=
| Required                 (* the key is missing *)
| Invalid                  (* the field class rejected the value *)
| Blank                    (* 'This field may not be blank.' *)
| MaxLength (limit : Z)    (* 'Ensure this field has no more than {limit} characters.' *)
| NullCharacters           (* 'Null characters are not allowed.' *)
| ValidationError (msg : string).

Definition ErrorDict : Type := list (string * list FieldError).

(** The body of a create / update request; [None] is a missing key.  The
    title is the text as it was sent, and on the way out of [is_valid] the
    text as validated; the other values are the ones their field classes
    hand to the serializer. *)
Record TaskData : Type := {
  title_in : option string;
  description_in : option (option string);
  status_in : option Status;
  priority_in : option Priority;
  deadline_in : option (option Z)
}.

(** [validate_title], the same in [TaskSerializer] and
    [TaskCreateUpdateSerializer]. *)
Definition validate_title (value : string) : string + FieldError :=
  if negb (Str.truthy value) || negb (Str.truthy (Str.strip value))
  then inr (ValidationError "Title cannot be empty.")
  else inl (Str.strip value).

(** [Task.title = models.CharField(max_length=255)] *)
Definition title_max_length : Z := 255.

(** The validators of a [serializers.CharField] with [max_length]: they
    all run and their errors are collected.  (The third one, for
    surrogate code points, has nothing to refuse in UTF-8 text.) *)
Definition run_validators (max_length : Z) (value : string) : list FieldError :=
  ((if max_length <? Str.len value then [MaxLength max_length] else [])
   ++ (if Str.contains 0 value then [NullCharacters] else []))%list.

(** [serializers.CharField(max_length=...).run_validation] on a text, as
    [ModelSerializer] builds the field for [Task.title]: blank is refused
    ([allow_blank=False]), the text is trimmed ([trim_whitespace=True]),
    then the validators run. *)
Definition CharField (max_length : Z) (data : string) : string + list FieldError :=
  if Str.eqb data "" || Str.eqb (Str.strip data) "" then inr [Blank]
  else
    let value := Str.strip data in
    match run_validators max_length value with
    | [] => inl value
    | errors => inr errors
    end.

(** [TaskCreateUpdateSerializer.is_valid]: the title is required unless
    the serializer is partial; it goes through its field class and then
    through [validate_title].  Every other field has a default or is
    nullable.  The validated data keep the keys that were sent. *)
Definition task_is_valid (partial : bool) (d : TaskData) : TaskData + ErrorDict :=
  match title_in d with
  | None =>
      if partial then inl d else inr [("title", [Required])]
  | Some data =>
      match CharField title_max_length data with
      | inl value =>
          match validate_title value with
          | inl v' =>
              inl {| title_in := Some v';
                     description_in := description_in d;
                     status_in := status_in d;
                     priority_in := priority_in d;
                     deadline_in := deadline_in d |}
          | inr e => inr [("title", [e])]
          end
      | inr errors => inr [("title", errors)]
      end
  end.

Definition or_default {A} (o : option A) (d : A) : A :=
  match o with Some a => a | None => d end.

(** [serializer.save(owner=request.user)] on a new instance. *)
Definition task_create (db : DB) (now : Z) (u : User) (v : TaskData) : DB * Task :=
  let t := {| task_pk := task_seq db;
              title := or_default (title_in v) "";
              description := or_default (description_in v) None;
              status := or_default (status_in v) NEW;
              priority := or_default (priority_in v) MEDIUM;
              deadline := or_default (deadline_in v) None;
              owner_id := user_pk u;
              timestamps := {| created_at := now; updated_at := now |} |} in
  ({| users := users db;
      tasks := tasks db ++ [t];
      task_shares := task_shares db;
      task_seq := task_seq db + 1;
      share_seq := share_seq db |}, t).

(** [serializer.save()] on an existing instance: the validated keys are
    set, the row with the instance's key is written back. *)
Definition task_update (db : DB) (now : Z) (instance : Task) (v : TaskData) : DB * Task :=
  let t := {| task_pk := task_pk instance;
              title := or_default (title_in v) (title instance);
              description := or_default (description_in v) (description instance);
              status := or_default (status_in v) (status instance);
              priority := or_default (priority_in v) (priority instance);
              deadline := or_default (deadline_in v) (deadline instance);
              owner_id := owner_id instance;
              timestamps := {| created_at := created_at instance;
                               updated_at := now |} |} in
  ({| users := users db;
      tasks := map (fun r => if task_pk r =? task_pk instance then t else r) (tasks db);
      task_shares := task_shares db;
      task_seq := task_seq db;
      share_seq := share_seq db |}, t).

(** The body of a share request: raw values, [None] for a missing key. *)
Record ShareData : Type := {
  shared_with_email_in : option string;
  permission_in : option string
}.

Record ShareValidated : Type := {
  shared_with_email : string;
  permission_v : Permission
}.

(** [ChoiceField(choices=TaskShare.Permission.choices)] *)
Definition Permission_of_value (s : string) : option Permission :=
  if Str.eqb s (Permission_value VIEW) then Some VIEW
  else if Str.eqb s (Permission_value EDIT) then Some EDIT
  else None.

(** The lookup [email=...] on [User]. *)
Definition email_is (e : string) (u : User) : bool := Str.eqb (email u) e.

(** [TaskShareCreateSerializer.validate_shared_with_email]: the lowered
    address is looked up as it is; no other column is consulted, and only
    [DoesNotExist] is caught. *)
Definition validate_shared_with_email (db : DB) (value : string)
  : result (string + FieldError) :=
  match get (email_is (Str.lower value)) (users db) with
  | Ok _ => Ok (inl (Str.lower value))
  | Raise DoesNotExist =>
      Ok (inr (ValidationError "User with this email does not exist."))
  | Raise e => Raise e
  end.

Section ShareSerializer.

(** [serializers.EmailField]: the framework's own conversion and format
    check of the raw value; [None] when it rejects it. *)
Variable EmailField : string -> option string.

Definition run_shared_with_email (db : DB) (d : ShareData)
  : result (string + FieldError) :=
  match shared_with_email_in d with
  | None => Ok (inr Required)
  | Some raw =>
      match EmailField raw with
      | None => Ok (inr Invalid)
      | Some value => validate_shared_with_email db value
      end
  end.

Definition run_permission (d : ShareData) : Permission + FieldError :=
  match permission_in d with
  | None => inl VIEW
  | Some raw =>
      match Permission_of_value raw with
      | Some p => inl p
      | None => inr Invalid
      end
  end.

(** [TaskShareCreateSerializer.is_valid]: the fields run in declaration
    order and their errors are collected. *)
Definition share_is_valid (db : DB) (d : ShareData)
  : result (ShareValidated + ErrorDict) :=
  e <- run_shared_with_email db d ;;
  Ok match e, run_permission d with
     | inl v, inl p => inl {| shared_with_email := v; permission_v := p |}
     | inl _, inr pe => inr [("permission", [pe])]
     | inr ee, inl _ => inr [("shared_with_email", [ee])]
     | inr ee, inr pe => inr [("shared_with_email", [ee]); ("permission", [pe])]
     end.

End ShareSerializer.

End Serializers.
Export Serializers.

(* ------------------------------------------------------------------ *)
(** ** [apps/tasks/api/views.py]: [TaskViewSet] *)

Module Views.

Inductive Body : Type :=
| NoBody
| Detail (detail : string) (errors : ErrorDict)
| TaskBody (t : Task)
| TaskListBody (ts : list Task)
| ShareBody (s : TaskShare)
| ShareListBody (ss : list TaskShare)
| ExceptionBody (e : exn).

Record Response : Type := {
  status_code : Z;
  data : Body
}.

Definition HTTP_200_OK : Z := 200.
Definition HTTP_201_CREATED : Z := 201.
Definition HTTP_204_NO_CONTENT : Z := 204.
Definition HTTP_400_BAD_REQUEST : Z := 400.
Definition HTTP_401_UNAUTHORIZED : Z := 401.
Definition HTTP_403_FORBIDDEN : Z := 403.
Definition HTTP_404_NOT_FOUND : Z := 404.
Definition HTTP_500_INTERNAL_SERVER_ERROR : Z := 500.

(** Modelled from the spec: the authentication classes are named in the
    settings of the project, which are not among the sources.  The spec
    has an identity provider that validates "opaque bearer credentials"
    and fails with [Unauthenticated]; the user views issue the tokens of
    [rest_framework_simplejwt], and [views.py] documents a 401
    "Authentication required" on every action.  So: one authentication
    class, the one of that package. *)
Inductive AuthenticationClass : Type := JWTAuthentication.

Definition authentication_classes : list AuthenticationClass := [JWTAuthentication].

(** [authenticate_header]: the challenge [Bearer realm="api"]. *)
Definition authenticate_header (c : AuthenticationClass) : string :=
  let quote := String (ascii_of_nat 34) EmptyString in
  "Bearer realm=" ++ quote ++ "api" ++ quote.

(** [APIView.get_authenticate_header]: the challenge of the first
    authentication class. *)
Definition get_authenticate_header : option string :=
  match authentication_classes with
  | c :: _ => Some (authenticate_header c)
  | [] => None
  end.

(** [APIView.handle_exception] and the exception handler: an
    unauthenticated request is answered 401 when there is a challenge to
    send with it, and 403 when there is none. *)
Definition handle_exception (e : exn) : Response :=
  {| status_code :=
       match e with
       | Http404 => HTTP_404_NOT_FOUND
       | PermissionDenied => HTTP_403_FORBIDDEN
       | NotAuthenticated =>
           match get_authenticate_header with
           | Some auth_header =>
               if Str.truthy auth_header then HTTP_401_UNAUTHORIZED
               else HTTP_403_FORBIDDEN
           | None => HTTP_403_FORBIDDEN
           end
       | _ => HTTP_500_INTERNAL_SERVER_ERROR
       end;
     data := ExceptionBody e |}.

Section OrderBy.

Context {A : Type}.
Variable key : A -> Z.

Fixpoint insert_desc (x : A) (sorted : list A) : list A :=
  match sorted with
  | [] => [x]
  | y :: rest => if key y <=? key x then x :: sorted else y :: insert_desc x rest
  end.

(** [order_by('-key')]: the greatest key first.  Rows with the same key
    stay in the order of the table; the database is free there. *)
Definition order_by_desc (rows : list A) : list A := fold_right insert_desc [] rows.

End OrderBy.

(** The join that the lookup [shares__shared_with] adds to the query: a
    task row once per share row of the task, and once with no share when
    it has none. *)
Definition join_shares (db : DB) : list (Task * option TaskShare) :=
  flat_map
    (fun t =>
       match filter (fun s => task_id s =? task_pk t) (task_shares db) with
       | [] => [(t, None)]
       | s :: ss => map (fun x => (t, Some x)) (s :: ss)
       end)
    (tasks db).

(** [Q(owner=user) | Q(shares__shared_with=user)] on a joined row. *)
Definition owned_or_shared (u : User) (row : Task * option TaskShare) : bool :=
  owned_by (fst row) u
  || match snd row with
     | Some s => shared_with_id s =? user_pk u
     | None => false
     end.

(** [.distinct()] over the selected task columns. *)
Definition distinct (rows : list Task) : list Task := nodup Task_eq_dec rows.

(** [TaskViewSet.get_queryset] for an authenticated user.  The rows
    are in the order of the table; where they are listed,
    [filter_queryset] orders them. *)
Definition get_queryset (db : DB) (u : User) : list Task :=
  distinct (map fst (filter (owned_or_shared u) (join_shares db))).

Definition default_permission_classes : list PermissionClass :=
  [IsAuthenticated; IsTaskOwnerOrSharedWith].

Definition share_permission_classes : list PermissionClass :=
  [IsAuthenticated; CanShareTask].

(** [APIView.permission_denied]: [NotAuthenticated] when the request has
    authenticators and none of them succeeded, [PermissionDenied]
    otherwise. *)
Definition permission_denied (request_user : option User) : exn :=
  match authentication_classes, request_user with
  | _ :: _, None => NotAuthenticated
  | _, _ => PermissionDenied
  end.

Fixpoint check_permissions (cs : list PermissionClass) (request_user : option User)
  : result unit :=
  match cs with
  | [] => Ok tt
  | c :: cs' =>
      if has_permission c request_user then check_permissions cs' request_user
      else Raise (permission_denied request_user)
  end.

(** [APIView.initial]: the view-level checks, then [request.user] as
    the actions use it.  Only [IsAuthenticated] stops a request without
    credentials; past the checks its user would be [AnonymousUser], no row
    of [User], on which the lookups of the actions raise. *)
Definition initial (cs : list PermissionClass) (request_user : option User)
  : result User :=
  _ <- check_permissions cs request_user ;;
  match request_user with
  | Some u => Ok u
  | None => Raise TypeError
  end.

Fixpoint check_object_permissions
    (cs : list PermissionClass) (db : DB) (m : Method) (u : User) (obj : Task)
  : result unit :=
  match cs with
  | [] => Ok tt
  | c :: cs' =>
      ok <- has_object_permission c db m u obj ;;
      if ok then check_object_permissions cs' db m u obj
      else Raise PermissionDenied
  end.

Definition get_object_or_404 (queryset : list Task) (pk : Z) : result Task :=
  match get (fun t => task_pk t =? pk) queryset with
  | Raise DoesNotExist => Raise Http404
  | r => r
  end.

(** [GenericAPIView.get_object] (no query parameters, so the filter
    backends keep every row; the order plays no part in a lookup by
    key). *)
Definition get_object
    (cs : list PermissionClass) (db : DB) (m : Method) (u : User) (pk : Z)
  : result Task :=
  obj <- get_object_or_404 (get_queryset db u) pk ;;
  _ <- check_object_permissions cs db m u obj ;;
  Ok obj.

Definition set_task_shares (db : DB) (ss : list TaskShare) (seq : Z) : DB :=
  {| users := users db;
     tasks := tasks db;
     task_shares := ss;
     task_seq := task_seq db;
     share_seq := seq |}.

(** [TaskShare.objects.update_or_create(task=..., shared_with=...,
    defaults={'permission': ...})]: the matching row is fetched with
    [get]; it is updated in place when there is one, a row is inserted
    when there is none. *)
Definition update_or_create
    (db : DB) (now : Z) (task : Task) (shared_with : User) (p : Permission)
  : result (DB * TaskShare * bool) :=
  match get (share_of (task_pk task) (user_pk shared_with)) (task_shares db) with
  | Ok s =>
      let s' := {| share_pk := share_pk s;
                   task_id := task_id s;
                   shared_with_id := shared_with_id s;
                   permission := p;
                   shared_at := shared_at s |} in
      Ok (set_task_shares db
            (map (fun r => if share_pk r =? share_pk s then s' else r) (task_shares db))
            (share_seq db),
          s', false)
  | Raise DoesNotExist =>
      let s := {| share_pk := share_seq db;
                  task_id := task_pk task;
                  shared_with_id := user_pk shared_with;
                  permission := p;
                  shared_at := now |} in
      Ok (set_task_shares db (task_shares db ++ [s]) (share_seq db + 1), s, true)
  | Raise e => Raise e
  end.

(** [share.delete()] *)
Definition delete_share (db : DB) (s : TaskShare) : DB :=
  set_task_shares db
    (filter (fun r => negb (share_pk r =? share_pk s)) (task_shares db))
    (share_seq db).

(** [instance.delete()] on a task; [on_delete=CASCADE] removes its shares. *)
Definition delete_task (db : DB) (t : Task) : DB :=
  {| users := users db;
     tasks := filter (fun r => negb (task_pk r =? task_pk t)) (tasks db);
     task_shares := filter (fun s => negb (task_id s =? task_pk t)) (task_shares db);
     task_seq := task_seq db;
     share_seq := share_seq db |}.

Definition validation_failed (errors : ErrorDict) : Response :=
  {| status_code := HTTP_400_BAD_REQUEST;
     data := Detail "Validation failed" errors |}.

(** [filter_queryset] without query parameters: the filter and the
    search leave the rows, [OrderingFilter] applies
    [ordering = ['-created_at']]. *)
Definition filter_queryset (queryset : list Task) : list Task :=
  order_by_desc (fun t : Task => created_at t) queryset.

(** [list], without query parameters and without pagination. *)
Definition list_ (db : DB) (request_user : option User) : result (DB * Response) :=
  u <- initial default_permission_classes request_user ;;
  Ok (db, {| status_code := HTTP_200_OK;
             data := TaskListBody (filter_queryset (get_queryset db u)) |}).

Definition create (db : DB) (now : Z) (request_user : option User) (d : TaskData)
  : result (DB * Response) :=
  u <- initial default_permission_classes request_user ;;
  match task_is_valid false d with
  | inl v =>
      let '(db', task) := task_create db now u v in
      Ok (db', {| status_code := HTTP_201_CREATED; data := TaskBody task |})
  | inr errors => Ok (db, validation_failed errors)
  end.

Definition retrieve (db : DB) (request_user : option User) (pk : Z)
  : result (DB * Response) :=
  u <- initial default_permission_classes request_user ;;
  instance <- get_object default_permission_classes db GET u pk ;;
  Ok (db, {| status_code := HTTP_200_OK; data := TaskBody instance |}).

Definition write_task
    (m : Method) (partial : bool)
    (db : DB) (now : Z) (request_user : option User) (pk : Z) (d : TaskData)
  : result (DB * Response) :=
  u <- initial default_permission_classes request_user ;;
  instance <- get_object default_permission_classes db m u pk ;;
  match task_is_valid partial d with
  | inl v =>
      let '(db', task) := task_update db now instance v in
      Ok (db', {| status_code := HTTP_200_OK; data := TaskBody task |})
  | inr errors => Ok (db, validation_failed errors)
  end.

Definition update := write_task PUT false.

Definition partial_update := write_task PATCH true.

Definition destroy (db : DB) (request_user : option User) (pk : Z)
  : result (DB * Response) :=
  u <- initial default_permission_classes request_user ;;
  instance <- get_object default_permission_classes db DELETE u pk ;;
  if negb (owned_by instance u) then
    Ok (db, {| status_code := HTTP_403_FORBIDDEN;
               data := Detail "Only task owner can delete tasks" [] |})
  else
    Ok (delete_task db instance, {| status_code := HTTP_204_NO_CONTENT; data := NoBody |}).

Definition user_does_not_exist : ErrorDict :=
  [("shared_with_email", [ValidationError "User with this email does not exist."])].

Definition share_with_yourself : ErrorDict :=
  [("shared_with_email", [ValidationError "You cannot share a task with yourself."])].

Section Share.

Variable EmailField : string -> option string.

Definition share
    (db : DB) (now : Z) (request_user : option User) (pk : Z) (d : ShareData)
  : result (DB * Response) :=
  u <- initial share_permission_classes request_user ;;
  task <- get_object share_permission_classes db POST u pk ;;
  v <- share_is_valid EmailField db d ;;
  match v with
  | inr errors => Ok (db, validation_failed errors)
  | inl v =>
      match get (email_is (shared_with_email v)) (users db) with
      | Raise DoesNotExist =>
          Ok (db, {| status_code := HTTP_400_BAD_REQUEST;
                     data := Detail "User not found" user_does_not_exist |})
      | Raise e => Raise e
      | Ok shared_with_user =>
          if User_eq shared_with_user u then
            Ok (db, {| status_code := HTTP_400_BAD_REQUEST;
                       data := Detail "Cannot share task with yourself"
                                 share_with_yourself |})
          else
            '(db', s, created) <-
              update_or_create db now task shared_with_user (permission_v v) ;;
            Ok (db', {| status_code :=
                          if created : bool then HTTP_201_CREATED else HTTP_200_OK;
                        data := ShareBody s |})
      end
  end.

End Share.

(** [shares]: [TaskShare.objects.filter(task=task)], in the order of
    [TaskShare.Meta]: [ordering = ['-shared_at']]. *)
Definition shares (db : DB) (request_user : option User) (pk : Z)
  : result (DB * Response) :=
  u <- initial share_permission_classes request_user ;;
  task <- get_object share_permission_classes db GET u pk ;;
  Ok (db, {| status_code := HTTP_200_OK;
             data := ShareListBody
                       (order_by_desc shared_at
                          (filter (fun s => task_id s =? task_pk task)
                             (task_shares db))) |}).

Definition revoke_share (db : DB) (request_user : option User) (pk user_id : Z)
  : result (DB * Response) :=
  u <- initial share_permission_classes request_user ;;
  task <- get_object share_permission_classes db DELETE u pk ;;
  match get (share_of (task_pk task) user_id) (task_shares db) with
  | Ok s =>
      Ok (delete_share db s, {| status_code := HTTP_204_NO_CONTENT; data := NoBody |})
  | Raise DoesNotExist =>
      Ok (db, {| status_code := HTTP_404_NOT_FOUND; data := Detail "Share not found" [] |})
  | Raise e => Raise e
  end.

(** The actions of the viewset, with what the URL and the body carry. *)
Inductive Action : Type :=
| A_list
| A_create (d : TaskData)
| A_retrieve (pk : Z)
| A_update (pk : Z) (d : TaskData)
| A_partial_update (pk : Z) (d : TaskData)
| A_destroy (pk : Z)
| A_share (pk : Z) (d : ShareData)
| A_shares (pk : Z)
| A_revoke_share (pk user_id : Z).

(** The task an action addresses: the [pk] of a detail route. *)
Definition action_pk (a : Action) : option Z :=
  match a with
  | A_list | A_create _ => None
  | A_retrieve pk | A_update pk _ | A_partial_update pk _ | A_destroy pk
  | A_share pk _ | A_shares pk | A_revoke_share pk _ => Some pk
  end.

Section Dispatch.

Variable EmailField : string -> option string.

(** One request: the action runs on the current tables at the current
    instant; an exception leaves the tables as they were. *)
Definition dispatch (db : DB) (now : Z) (request_user : option User) (a : Action)
  : DB * Response :=
  let r :=
    match a with
    | A_list => list_ db request_user
    | A_create d => create db now request_user d
    | A_retrieve pk => retrieve db request_user pk
    | A_update pk d => update db now request_user pk d
    | A_partial_update pk d => partial_update db now request_user pk d
    | A_destroy pk => destroy db request_user pk
    | A_share pk d => share EmailField db now request_user pk d
    | A_shares pk => shares db request_user pk
    | A_revoke_share pk user_id => revoke_share db request_user pk user_id
    end in
  match r with
  | Ok x => x
  | Raise e => (db, handle_exception e)
  end.

(** A database with users only: no task and no share yet. *)
Definition initial_db (us : list User) : DB :=
  {| users := us; tasks := []; task_shares := []; task_seq := 1; share_seq := 1 |}.

(** The unique constraint of [User.email] and of the primary key. *)
Definition users_unique (us : list User) : Prop :=
  NoDup (map user_pk us) /\ NoDup (map email us).

(** The states the API reaches from an initial database. *)
Inductive reachable : DB -> Prop :=
| reach_init (us : list User) :
    users_unique us -> reachable (initial_db us)
| reach_step (db : DB) (now : Z) (request_user : option User) (a : Action) :
    reachable db -> reachable (fst (dispatch db now request_user a)).

(** A run of requests from a state. *)
Fixpoint run (db : DB) (reqs : list (Z * option User * Action)) : DB :=
  match reqs with
  | [] => db
  | (now, request_user, a) :: reqs' =>
      run (fst (dispatch db now request_user a)) reqs'
  end.

End Dispatch.

End Views.
Export Views.

(* ------------------------------------------------------------------ *)
(** ** [apps/tasks/tasks.py]: the deadline scan *)

Module Tasks.

(** [timedelta(hours=h)], in microseconds. *)
Definition timedelta_hours (h : Z) : Z := h * 3600000000.

Definition day : Z := 86400000000.

(** [now.replace(hour=0, minute=0, second=0, microsecond=0)]; [now] is
    an aware UTC instant, so days start at the multiples of [day]. *)
Definition today_start (now : Z) : Z := now - now mod day.

(** [now.replace(hour=23, minute=59, second=59, microsecond=999999)] *)
Definition today_end (now : Z) : Z :=
  today_start now + ((23 * 3600 + 59 * 60 + 59) * 1000000 + 999999).

(** [deadline__isnull=False, deadline__gt=now,
    deadline__lte=twenty_four_hours_later] *)
Definition in_window (now : Z) (t : Task) : bool :=
  match deadline t with
  | None => false
  | Some d => (now <? d) && (d <=? now + timedelta_hours 24)
  end.

(** The conjunction of the four [Q] objects of the first [exclude]. *)
Definition created_and_due_today (now : Z) (t : Task) : bool :=
  (today_start now <=? created_at t)
  && (created_at t <=? today_end now)
  && match deadline t with
     | Some d => (today_start now <=? d) && (d <=? today_end now)
     | None => false
     end.

(** The queryset [tasks_due_soon] (each task has its owner row, so the
    join of [select_related('owner')] keeps every row). *)
Definition tasks_due_soon (db : DB) (now : Z) : list Task :=
  filter (fun t => negb (Status_eqb (status t) DONE))
    (filter (fun t => negb (created_and_due_today now t))
       (filter (in_window now) (tasks db))).

(** [int(time_remaining.total_seconds() / 3600)] with
    [time_remaining = task.deadline - now]. *)
Definition hours_remaining (deadline now : Z) : Z :=
  let time_remaining := deadline - now in
  Float.int (Float.div (Float.total_seconds time_remaining) (inject_Z 3600)).

(** The values [_build_reminder_email] puts into its template, in the
    order of the template; the description line is there when the
    description is a non-empty string. *)
Record ReminderBody : Type := {
  body_task : string;
  body_status : Status;
  body_priority : Priority;
  body_deadline : Z;
  body_time_remaining : Z;
  body_description : option string
}.

Definition _build_reminder_email (task : Task) (d : Z) (hours_remaining : Z)
  : ReminderBody :=
  {| body_task := title task;
     body_status := status task;
     body_priority := priority task;
     body_deadline := d;
     body_time_remaining := hours_remaining;
     body_description :=
       match description task with
       | Some s => if Str.truthy s then Some s else None
       | None => None
       end |}.

(** The subject and the body the loop builds for one task. *)
Definition reminder (now : Z) (task : Task) : result (string * ReminderBody) :=
  match deadline task with
  | None => Raise TypeError
  | Some d =>
      let hours := hours_remaining d now in
      Ok ("Task Deadline Reminder: " ++ title task,
          _build_reminder_email task d hours)
  end.

(** The row a foreign key points to. *)
Definition related_user (db : DB) (pk : Z) : result User :=
  get (fun u => user_pk u =? pk) (users db).

Fixpoint emails_of (db : DB) (ss : list TaskShare) : result (list string) :=
  match ss with
  | [] => Ok []
  | s :: ss' =>
      u <- related_user db (shared_with_id s) ;;
      es <- emails_of db ss' ;;
      Ok (email u :: es)
  end.

Inductive RunResult : Type :=
| Summary (tasks_processed emails_sent timestamp : Z)
| RetryRequested (exc : exn).

Section Scan.

(** The e-mail client, as the scan uses it: [send_email] answers whether
    the message went out, [send_bulk_email] how many did. *)
Variable send_email : string -> string -> ReminderBody -> result bool.
Variable send_bulk_email : list string -> string -> ReminderBody -> result Z.

(** One turn of the loop over [tasks_due_soon]. *)
Definition remind (db : DB) (now : Z) (emails_sent : Z) (task : Task) : result Z :=
  '(subject, body) <- reminder now task ;;
  owner <- related_user db (owner_id task) ;;
  sent <- send_email (email owner) subject body ;;
  let emails_sent := if sent : bool then emails_sent + 1 else emails_sent in
  shared_users_emails <-
    emails_of db (filter (fun s => task_id s =? task_pk task) (task_shares db)) ;;
  match shared_users_emails with
  | [] => Ok emails_sent
  | _ :: _ =>
      success <- send_bulk_email shared_users_emails subject body ;;
      Ok (emails_sent + success)
  end.

Fixpoint remind_all (db : DB) (now : Z) (emails_sent : Z) (ts : list Task) : result Z :=
  match ts with
  | [] => Ok emails_sent
  | task :: ts' =>
      n <- remind db now emails_sent task ;;
      remind_all db now n ts'
  end.

(** [check_task_deadlines]: any exception asks for a retry. *)
Definition check_task_deadlines (db : DB) (now : Z) : RunResult :=
  let candidates := tasks_due_soon db now in
  let tasks_count := Z.of_nat (List.length candidates) in
  match remind_all db now 0 candidates with
  | Ok emails_sent => Summary tasks_count emails_sent now
  | Raise exc => RetryRequested exc
  end.

End Scan.

(** [FakeEmailClient] of [shared/email/fake_client.py]: both methods
    print and return [None].  [None] is falsy in the test of the scan, and
    [result['success']] on [None] raises [TypeError]. *)
Definition fake_send_email (to_address subject : string) (body : ReminderBody)
  : result bool := Ok false.

Definition fake_send_bulk_email (to_addresses : list string) (subject : string)
    (body : ReminderBody) : result Z := Raise TypeError.

End Tasks.
Export Tasks.

(* ------------------------------------------------------------------ *)
(** ** The notions the properties are stated with *)

Module Spec.

(** A share row for the pair (task, user). *)
Definition has_share (db : DB) (t : Task) (u : User) : Prop :=
  exists s, In s (task_shares db)
            /\ task_id s = task_pk t /\ shared_with_id s = user_pk u.

(** The rows of [TaskShare] for the pair (task, user). *)
Definition shares_of (db : DB) (t : Task) (u : User) : list TaskShare :=
  filter (share_of (task_pk t) (user_pk u)) (task_shares db).

Definition share_key (s : TaskShare) : Z * Z := (task_id s, shared_with_id s).

(** What the constraints of the schema and the sequences guarantee:
    unique users, unique primary keys below the next key to hand out,
    and [unique_together] on the shares. *)
Record db_ok (db : DB) : Prop := {
  ok_users : users_unique (users db);
  ok_task_pk : NoDup (map task_pk (tasks db));
  ok_task_seq : Forall (fun k => k < task_seq db) (map task_pk (tasks db));
  ok_share_pk : NoDup (map share_pk (task_shares db));
  ok_share_seq : Forall (fun k => k < share_seq db) (map share_pk (task_shares db));
  ok_share_key : NoDup (map share_key (task_shares db))
}.

(** The answer of the share action that reports an unknown address. *)
Definition user_not_found (r : Response) : Prop :=
  status_code r = HTTP_400_BAD_REQUEST
  /\ exists detail errors,
       data r = Detail detail errors
       /\ In ("shared_with_email",
              [ValidationError "User with this email does not exist."]) errors.

(** Two instants on the same calendar day (UTC). *)
Definition same_day (now x : Z) : Prop := x / day = now / day.

(** Two addresses that differ in letter case only. *)
Definition same_address (a b : string) : Prop := Str.lower a = Str.lower b.

(** Every stored address is in lower case, as [validate_email] of the
    registration serializer stores it. *)
Definition lowercase_emails (db : DB) : Prop :=
  forall u, In u (users db) -> Str.lower (email u) = email u.

End Spec.
Export Spec.

(* ------------------------------------------------------------------ *)
(** ** A small database to run the model on *)

Module Example.

Definition ann : User := {| user_pk := 1; email := "ann@example.com" |}.
Definition bob : User := {| user_pk := 2; email := "bob@example.com" |}.
Definition cy : User := {| user_pk := 3; email := "cy@example.com" |}.
Definition dan : User := {| user_pk := 4; email := "dan@example.com" |}.

Definition users0 : list User := [ann; bob; cy; dan].

(** An [EmailField] that lets every value through unchanged. *)
Definition any_email (raw : string) : option string := Some raw.

Definition report : TaskData :=
  {| title_in := Some "  Write the report ";
     description_in := None;
     status_in := None;
     priority_in := Some HIGH;
     deadline_in := None |}.

Definition share_with (address : string) (p : string) : ShareData :=
  {| shared_with_email_in := Some address; permission_in := Some p |}.

(** Ann creates task 1, shares it with Bob (view, then edit) and with
    Dan, and takes Dan's share back. *)
Definition history : list (Z * option User * Action) :=
  [ (1000, Some ann, A_create report);
    (2000, Some ann, A_share 1 (share_with "Bob@Example.com" "view"));
    (3000, Some ann, A_share 1 (share_with "bob@example.com" "edit"));
    (4000, Some ann, A_share 1 (share_with "dan@example.com" "view"));
    (5000, Some ann, A_revoke_share 1 4) ].

Definition db0 : DB := initial_db users0.

Definition db1 : DB := Eval cbv in run any_email db0 (firstn 1 history).

Definition db5 : DB := Eval cbv in run any_email db0 history.

Definition task1 : Task :=
  {| task_pk := 1;
     title := "Write the report";
     description := None;
     status := NEW;
     priority := HIGH;
     deadline := None;
     owner_id := 1;
     timestamps := {| created_at := 1000; updated_at := 1000 |} |}.

(** An instant (2025-11-01 12:26:40 UTC) and a task due three and a
    half hours later. *)
Definition noon : Z := 1762000000000000.

Definition task2 : Task :=
  {| task_pk := 2;
     title := "Pay the rent";
     description := Some "Before the bank closes";
     status := IN_PROGRESS;
     priority := MEDIUM;
     deadline := Some (noon + 12600000000);
     owner_id := 2;
     timestamps := {| created_at := noon - 10 * day;
                      updated_at := noon - 10 * day |} |}.

Definition scan_db : DB :=
  {| users := users0; tasks := [task2]; task_shares := [];
     task_seq := 3; share_seq := 1 |}.

(** Four tasks for a scan at [noon]: due in 23 hours and created ten
    days ago; created an hour ago and due in five hours, the same day; due
    in 25 hours; done and due in one hour. *)
Definition scan_task (pk : Z) (st : Status) (due created : Z) : Task :=
  {| task_pk := pk;
     title := "Task";
     description := None;
     status := st;
     priority := MEDIUM;
     deadline := Some due;
     owner_id := 1;
     timestamps := {| created_at := created; updated_at := created |} |}.

Definition four_tasks : DB :=
  {| users := users0;
     tasks := [ scan_task 10 NEW (noon + 23 * 3600000000) (noon - 10 * day);
                scan_task 11 NEW (noon + 5 * 3600000000) (noon - 1 * 3600000000);
                scan_task 12 NEW (noon + 25 * 3600000000) (noon - 10 * day);
                scan_task 13 DONE (noon + 1 * 3600000000) (noon - 10 * day) ];
     task_shares := [];
     task_seq := 14;
     share_seq := 1 |}.

(** A task due one microsecond after a window of 4772186 hours. *)
Definition far_task : Task :=
  {| task_pk := 3;
     title := "Open the time capsule";
     description := None;
     status := NEW;
     priority := LOW;
     deadline := Some (noon + 4772186 * 3600000000 + 1);
     owner_id := 1;
     timestamps := {| created_at := noon; updated_at := noon |} |}.

End Example.

(* ------------------------------------------------------------------ *)
(** ** [apps/tasks/tasks.py]: the point notification *)

Module Notifications.

Definition newline : string := String "010"%char EmptyString.

(** [get_status_display], [get_priority_display]: the labels of the choices. *)
Definition get_status_display (st : Status) : string :=
  match st with NEW => "New" | IN_PROGRESS => "In Progress" | DONE => "Done" end.

Definition get_priority_display (p : Priority) : string :=
  match p with LOW => "Low" | MEDIUM => "Medium" | HIGH => "High" end.

(** [_build_notification_email]: the dictionary has four keys, [get]
    falls back on the generic pair.  [owner_email] is [task.owner.email]. *)
Definition _build_notification_email
    (task : Task) (owner_email : string) (notification_type : string)
  : string * string :=
  if Str.eqb notification_type "task_created" then
    ("New Task Created: " ++ title task,
     "Task: " ++ title task ++ newline
       ++ "Priority: " ++ get_priority_display (priority task))
  else if Str.eqb notification_type "task_updated" then
    ("Task Updated: " ++ title task,
     "Task: " ++ title task ++ newline
       ++ "Status: " ++ get_status_display (status task))
  else if Str.eqb notification_type "task_shared" then
    ("Task Shared: " ++ title task,
     "Owner: " ++ owner_email ++ newline ++ "Task: " ++ title task)
  else if Str.eqb notification_type "task_completed" then
    ("Task Completed: " ++ title task,
     "Task: " ++ title task ++ " has been completed")
  else
    ("Task Notification: " ++ title task, "Task: " ++ title task).

(** The dictionary [send_task_notification] returns. *)
Inductive NotificationResult : Type :=
| Sent (task_id : Z) (email : string)     (* status success *)
| SendFailed                              (* 'Email send failed' *)
| Failed (exc : exn).                     (* str(exc) *)

Section Notify.

(** [email_client.send_email] with a text body. *)
Variable send_email : string -> string -> string -> result bool.

(** [send_task_notification]: the task is fetched with its owner; every
    exception ends in an error dictionary. *)
Definition send_task_notification
    (db : DB) (task_id : Z) (notification_type : string) (user_email : string)
  : NotificationResult :=
  let attempt :=
    task <- get (fun t => task_pk t =? task_id) (tasks db) ;;
    owner <- related_user db (owner_id task) ;;
    let '(subject, body) :=
      _build_notification_email task (email owner) notification_type in
    send_email user_email subject body in
  match attempt with
  | Ok true => Sent task_id user_email
  | Ok false => SendFailed
  | Raise exc => Failed exc
  end.

End Notify.

(** [FakeEmailClient.send_email] with a text body: prints and returns
    [None], which is falsy. *)
Definition fake_send_text (to_address subject body : string) : result bool := Ok false.

End Notifications.
Export Notifications.

(* ------------------------------------------------------------------ *)
(** ** [shared/cache/redis_client.py] *)

Module Cache.

(** What a call on the connection does: it answers, raises
    [redis.RedisError], or raises something else. *)
Inductive outcome (A : Type) : Type :=
| Reply (a : A)
| RedisError
| OtherError.
Arguments Reply {A} a.
Arguments RedisError {A}.
Arguments OtherError {A}.

Section Client.

(** The server behind [self.client], as a state [S] with the four
    commands the wrapper sends; [decode_responses=True], so values are
    text. *)
Variable S : Type.
Variable redis_get : S -> string -> outcome (option string).
Variable redis_set : S -> string -> string -> option Z -> outcome S.
Variable redis_delete : S -> string -> outcome (S * Z).
Variable redis_exists : S -> string -> outcome Z.

(** [json]: documents of type [J]; [json_loads] is [None] where
    [json.loads] raises [JSONDecodeError]. *)
Variable J : Type.
Variable json_loads : string -> option J.
Variable json_dumps : J -> string.

(** A value given to [set]: a [str], or a [dict] or [list]. *)
Inductive Value : Type :=
| Text (s : string)
| Container (j : J).

(** A value [get] returns: the decoded document, or the text as stored. *)
Inductive Cached : Type :=
| Decoded (j : J)
| Stored (s : string).

(** [RedisClient.get]; [None] for a missing key and for a [RedisError]. *)
Definition cache_get (st : S) (key : string) : outcome (option Cached) :=
  match redis_get st key with
  | Reply None => Reply None
  | Reply (Some value) =>
      match json_loads value with
      | Some j => Reply (Some (Decoded j))
      | None => Reply (Some (Stored value))
      end
  | RedisError => Reply None
  | OtherError => OtherError
  end.

(** [RedisClient.set]; the state is the server's afterwards. *)
Definition cache_set (st : S) (key : string) (value : Value) (expiry : option Z)
  : outcome (S * bool) :=
  let value := match value with
               | Container j => json_dumps j
               | Text s => s
               end in
  match redis_set st key value expiry with
  | Reply st' => Reply (st', true)
  | RedisError => Reply (st, false)
  | OtherError => OtherError
  end.

(** [RedisClient.delete] *)
Definition cache_delete (st : S) (key : string) : outcome (S * bool) :=
  match redis_delete st key with
  | Reply (st', result) => Reply (st', result =? 1)
  | RedisError => Reply (st, false)
  | OtherError => OtherError
  end.

(** [RedisClient.exists] *)
Definition cache_exists (st : S) (key : string) : outcome bool :=
  match redis_exists st key with
  | Reply n => Reply (n =? 1)
  | RedisError => Reply false
  | OtherError => OtherError
  end.

End Client.

(** A server to run the wrapper on: an association list, newest first;
    expiry is not kept. *)
Definition memory : Type := list (string * string).

Fixpoint memory_lookup (st : memory) (key : string) : option string :=
  match st with
  | [] => None
  | (k, v) :: st' => if Str.eqb k key then Some v else memory_lookup st' key
  end.

Definition memory_remove (st : memory) (key : string) : memory :=
  filter (fun kv => negb (Str.eqb (fst kv) key)) st.

Definition memory_get (st : memory) (key : string) : outcome (option string) :=
  Reply (memory_lookup st key).

Definition memory_set (st : memory) (key value : string) (ex : option Z)
  : outcome memory :=
  Reply ((key, value) :: memory_remove st key).

(** The smallest piece of JSON: the empty list. *)
Definition empty_list_loads (s : string) : option unit :=
  if Str.eqb s "[]" then Some tt else None.

Definition empty_list_dumps (j : unit) : string := "[]".

End Cache.

(* ------------------------------------------------------------------ *)
(** ** Further notions *)

Module Notions.

(** Referential integrity of the share table, and no share of a task
    with its own owner. *)
Record db_refs (db : DB) : Prop := {
  ref_task :
    forall s, In s (task_shares db) ->
      exists t, In t (tasks db) /\ task_pk t = task_id s
                /\ owner_id t <> shared_with_id s;
  ref_user :
    forall s, In s (task_shares db) ->
      exists u, In u (users db) /\ user_pk u = shared_with_id s
}.

(** The foreign key of [Task.owner]: every task has its owner row. *)
Definition owners_stored (db : DB) : Prop :=
  forall t, In t (tasks db) -> exists u, In u (users db) /\ user_pk u = owner_id t.

(** The share rows of a task. *)
Definition task_shares_of (db : DB) (t : Task) : list TaskShare :=
  filter (fun s => task_id s =? task_pk t) (task_shares db).

(** Rows in descending order of a key. *)
Definition latest_first {A : Type} (key : A -> Z) (rows : list A) : Prop :=
  StronglySorted (fun a b => key b <= key a) rows.

(** The tasks after a step: each comes from a task before it, with the
    same key, owner and creation instant, or is new, with the next key. *)
Definition tasks_step (db db' : DB) : Prop :=
  task_seq db <= task_seq db'
  /\ forall t', In t' (tasks db') ->
       (exists t, In t (tasks db) /\ task_pk t = task_pk t'
                  /\ owner_id t = owner_id t' /\ created_at t = created_at t')
       \/ task_pk t' = task_seq db.

(** The rows of a task are the same before and after. *)
Definition kept (db db' : DB) (t : Task) : Prop :=
  In t (tasks db') /\ task_shares_of db' t = task_shares_of db t.

(** A client that delivers every message. *)
Definition deliver (to_address subject : string) (body : ReminderBody) : result bool :=
  Ok true.

Definition deliver_bulk (to_addresses : list string) (subject : string)
    (body : ReminderBody) : result Z :=
  Ok (Z.of_nat (List.length to_addresses)).

(** The number of messages a run owes: one to the owner of each
    candidate and one to each of its grantees. *)
Fixpoint recipients (db : DB) (ts : list Task) : Z :=
  match ts with
  | [] => 0
  | t :: ts' => 1 + Z.of_nat (List.length (task_shares_of db t)) + recipients db ts'
  end.

End Notions.
Export Notions.

(* ------------------------------------------------------------------ *)
(** ** More states to run the model on *)

Module Example2.

Import Example.

(** After the first share: Bob holds a view share. *)
Definition db2 : DB := Eval cbv in run any_email db0 (firstn 2 history).

(** Before the revocation: Bob holds an edit share, Dan a view share. *)
Definition db4 : DB := Eval cbv in run any_email db0 (firstn 4 history).

Definition bob_view : TaskShare :=
  {| share_pk := 1; task_id := 1; shared_with_id := 2;
     permission := VIEW; shared_at := 2000 |}.

Definition bob_edit : TaskShare :=
  {| share_pk := 1; task_id := 1; shared_with_id := 2;
     permission := EDIT; shared_at := 2000 |}.

Definition dan_view : TaskShare :=
  {| share_pk := 2; task_id := 1; shared_with_id := 4;
     permission := VIEW; shared_at := 4000 |}.

(** Bob's task of the scan, shared with Ann and with Dan. *)
Definition shared_scan_db : DB :=
  {| users := users0;
     tasks := [task2];
     task_shares :=
       [ {| share_pk := 1; task_id := 2; shared_with_id := 1;
            permission := VIEW; shared_at := noon - day |};
         {| share_pk := 2; task_id := 2; shared_with_id := 4;
            permission := EDIT; shared_at := noon - day |} ];
     task_seq := 3;
     share_seq := 3 |}.

(** A body that marks the task as done and sends nothing else. *)
Definition mark_done : TaskData :=
  {| title_in := None;
     description_in := None;
     status_in := Some DONE;
     priority_in := None;
     deadline_in := None |}.

(** A client that accepts every text message. *)
Definition accept_text (to_address subject body : string) : result bool := Ok true.

End Example2.

(* ================================================================== *)
(** * Properties *)

(* ------------------------------------------------------------------ *)
(** ** Rounding to binary64 *)

Module FloatFacts.

Import Float.
#[local] Open Scope Q_scope.

Lemma pow2_pos e : 0 < pow2 e.
Proof. apply Qpower_0_lt. reflexivity. Qed.

Lemma pow2_add a b : pow2 (a + b) == pow2 a * pow2 b.
Proof. apply Qpower_plus. discriminate. Qed.

Lemma pow2_le a b : (a <= b)%Z -> pow2 a <= pow2 b.
Proof. intros H. apply Qpower_le_compat_l; [exact H | discriminate]. Qed.

Lemma pow2_lt_inv a b : pow2 a < pow2 b -> (a < b)%Z.
Proof. intros H. apply (Qpower_lt_compat_l_inv 2); [exact H | reflexivity]. Qed.

Lemma pow2_Z n : (0 <= n)%Z -> pow2 n == inject_Z (2 ^ n).
Proof. intros H. symmetry. apply (Zpower_Qpower 2 n H). Qed.

Lemma Q_as_div (x : Q) : x * inject_Z (Zpos (Qden x)) == inject_Z (Qnum x).
Proof.
  destruct x as [n d]. unfold Qeq, Qmult, inject_Z. simpl.
  rewrite Pos.mul_1_r. ring.
Qed.

Lemma ilog2_spec x : 0 < x -> pow2 (ilog2 x) <= x /\ x < pow2 (ilog2 x + 1).
Proof.
  intros Hx.
  assert (Hn : (0 < Qnum x)%Z).
  { destruct x as [n d]. unfold Qlt in Hx. simpl in *. lia. }
  pose proof (Z.log2_spec (Qnum x) Hn) as [Hn1 Hn2].
  pose proof (Z.log2_spec (Zpos (Qden x)) (Pos2Z.is_pos _)) as [Hd1 Hd2].
  pose proof (Z.log2_nonneg (Qnum x)) as Hln.
  pose proof (Z.log2_nonneg (Zpos (Qden x))) as Hld.
  set (ln := Z.log2 (Qnum x)) in *. set (ld := Z.log2 (Zpos (Qden x))) in *.
  pose proof (Q_as_div x) as Hxd.
  assert (Hdpos : 0 < inject_Z (Zpos (Qden x))) by reflexivity.
  assert (Q1 : pow2 ln <= inject_Z (Qnum x)).
  { rewrite pow2_Z by lia. rewrite <- Zle_Qle. exact Hn1. }
  assert (Q2 : inject_Z (Qnum x) < pow2 (ln + 1)).
  { rewrite pow2_Z by lia. rewrite <- Zlt_Qlt. unfold Z.succ in Hn2. exact Hn2. }
  assert (Q3 : pow2 ld <= inject_Z (Zpos (Qden x))).
  { rewrite pow2_Z by lia. rewrite <- Zle_Qle. exact Hd1. }
  assert (Q4 : inject_Z (Zpos (Qden x)) < pow2 (ld + 1)).
  { rewrite pow2_Z by lia. rewrite <- Zlt_Qlt. unfold Z.succ in Hd2. exact Hd2. }
  unfold ilog2. fold ln ld.
  destruct (Qle_bool (pow2 (ln - ld)) x) eqn:E.
  - apply Qle_bool_iff in E. split; [exact E|].
    assert (Hp : pow2 (ln - ld + 1) * pow2 ld == pow2 (ln + 1)).
    { rewrite <- pow2_add. replace (ln - ld + 1 + ld)%Z with (ln + 1)%Z by lia. reflexivity. }
    pose proof (pow2_pos (ln - ld + 1)) as P1. pose proof (pow2_pos ld) as P2.
    apply (Qmult_lt_r _ _ (inject_Z (Zpos (Qden x)))); [exact Hdpos|].
    rewrite Hxd.
    apply Qlt_le_trans with (pow2 (ln + 1)); [exact Q2|].
    rewrite <- Hp. apply Qmult_le_l; assumption.
  - assert (E' : x < pow2 (ln - ld)).
    { apply Qnot_le_lt. intros C. apply Qle_bool_iff in C. congruence. }
    replace (ln - ld - 1 + 1)%Z with (ln - ld)%Z by lia.
    split; [|exact E'].
    assert (Hp : pow2 (ln - ld - 1) * pow2 (ld + 1) == pow2 ln).
    { rewrite <- pow2_add. replace (ln - ld - 1 + (ld + 1))%Z with ln by lia. reflexivity. }
    pose proof (pow2_pos (ln - ld - 1)) as P1.
    apply (Qmult_le_r _ _ (inject_Z (Zpos (Qden x)))); [exact Hdpos|].
    rewrite Hxd.
    apply Qle_trans with (pow2 ln); [|exact Q1].
    rewrite <- Hp. apply Qmult_le_l; [exact P1|]. apply Qlt_le_weak. exact Q4.
Qed.

Lemma ilog2_lt x n : 0 < x -> x < pow2 n -> (ilog2 x < n)%Z.
Proof.
  intros Hx Hn. destruct (ilog2_spec x Hx) as [H1 _].
  apply pow2_lt_inv. apply Qle_lt_trans with x; assumption.
Qed.

Lemma ilog2_ge x n : pow2 n <= x -> (n <= ilog2 x)%Z.
Proof.
  intros Hn.
  assert (Hx : 0 < x) by (apply Qlt_le_trans with (pow2 n); [apply pow2_pos | exact Hn]).
  destruct (ilog2_spec x Hx) as [_ H2].
  assert (n < ilog2 x + 1)%Z; [|lia].
  apply pow2_lt_inv. apply Qle_lt_trans with x; assumption.
Qed.

Lemma inject_Z_succ n : inject_Z (n + 1) == inject_Z n + 1.
Proof. rewrite inject_Z_plus. reflexivity. Qed.

Lemma round_half_even_bounds y :
  y - (1 # 2) <= inject_Z (round_half_even y) <= y + (1 # 2).
Proof.
  unfold round_half_even.
  pose proof (Qfloor_le y) as Hl. pose proof (Qlt_floor y) as Hu.
  rewrite inject_Z_succ in Hu.
  destruct (Qcompare (y - inject_Z (Qfloor y)) (1 # 2)) eqn:E.
  - apply Qeq_alt in E. destruct (Z.even (Qfloor y)); [|rewrite inject_Z_succ]; lra.
  - apply Qlt_alt in E. lra.
  - apply Qgt_alt in E. rewrite inject_Z_succ. lra.
Qed.

Lemma round_half_even_Z y n : y == inject_Z n -> round_half_even y = n.
Proof.
  intros H. unfold round_half_even.
  assert (F : Qfloor y = n) by (rewrite (Qfloor_comp y (inject_Z n) H); apply Qfloor_Z).
  rewrite F.
  assert (E : Qcompare (y - inject_Z n) (1 # 2) = Lt) by (apply (proj1 (Qlt_alt _ _)); lra).
  rewrite E. reflexivity.
Qed.

Lemma round_half_even_le y n : y <= inject_Z n -> (round_half_even y <= n)%Z.
Proof.
  intros H. destruct (Qlt_le_dec y (inject_Z n)) as [Hlt | Hge].
  - assert (Hf : (Qfloor y < n)%Z).
    { rewrite Zlt_Qlt. apply Qle_lt_trans with y; [apply Qfloor_le | exact Hlt]. }
    unfold round_half_even.
    destruct (Qcompare _ _); [destruct (Z.even _)| |]; lia.
  - rewrite (round_half_even_Z y n); [lia | lra].
Qed.

Lemma round_half_even_ge y n : inject_Z n <= y -> (n <= round_half_even y)%Z.
Proof.
  intros H.
  assert (Hf : (n <= Qfloor y)%Z).
  { rewrite <- (Qfloor_Z n). apply Qfloor_resp_le. exact H. }
  unfold round_half_even.
  destruct (Qcompare _ _); [destruct (Z.even _)| |]; lia.
Qed.

Lemma pow2_inv e : pow2 e * pow2 (- e) == 1.
Proof. rewrite <- pow2_add. replace (e + - e)%Z with 0%Z by lia. reflexivity. Qed.

Lemma div_pow2 x e : x / pow2 e == x * pow2 (- e).
Proof.
  pose proof (pow2_pos e) as P. pose proof (pow2_inv e) as I.
  apply (Qmult_inj_r _ _ (pow2 e)); [lra|].
  rewrite Qmult_comm, Qmult_div_r by lra.
  rewrite <- Qmult_assoc, (Qmult_comm (pow2 (- e))), I. ring.
Qed.

Lemma scaled_back x e : x / pow2 e * pow2 e == x.
Proof.
  pose proof (pow2_pos e) as P.
  rewrite Qmult_comm, Qmult_div_r by lra. reflexivity.
Qed.

Lemma pow2_half e : pow2 e * (1 # 2) == pow2 (e - 1).
Proof. unfold Z.sub. rewrite pow2_add. reflexivity. Qed.

(** The rounding error is at most half a unit in the last place. *)
Lemma round_pos_bounds x n :
  0 < x -> x < pow2 n ->
  x - pow2 (n - 54) <= round_pos x <= x + pow2 (n - 54).
Proof.
  intros Hx Hn. unfold round_pos.
  pose proof (ilog2_lt x n Hx Hn) as Hl.
  set (e := (ilog2 x - 52)%Z).
  pose proof (round_half_even_bounds (x / pow2 e)) as [B1 B2].
  pose proof (pow2_pos e) as P.
  pose proof (scaled_back x e) as S.
  pose proof (pow2_half e) as Hh.
  assert (Hle : pow2 (e - 1) <= pow2 (n - 54)) by (apply pow2_le; unfold e; lia).
  set (m := inject_Z (round_half_even (x / pow2 e))) in *.
  apply (Qmult_le_compat_r _ _ (pow2 e)) in B1; [|lra].
  apply (Qmult_le_compat_r _ _ (pow2 e)) in B2; [|lra].
  assert (E1 : (x / pow2 e - (1 # 2)) * pow2 e == x - pow2 (e - 1)).
  { transitivity (x / pow2 e * pow2 e - pow2 e * (1 # 2)); [ring|].
    rewrite S, Hh. reflexivity. }
  assert (E2 : (x / pow2 e + (1 # 2)) * pow2 e == x + pow2 (e - 1)).
  { transitivity (x / pow2 e * pow2 e + pow2 e * (1 # 2)); [ring|].
    rewrite S, Hh. reflexivity. }
  rewrite E1 in B1. rewrite E2 in B2. lra.
Qed.

(** Integers below [2^53] are binary64 values. *)
Lemma round_pos_Z x k :
  (0 < k < 2 ^ 53)%Z -> x == inject_Z k -> round_pos x == inject_Z k.
Proof.
  intros Hk Hx. unfold round_pos.
  assert (H0 : 0 < x) by (rewrite Hx; rewrite <- (Zlt_Qlt 0); lia).
  assert (H53 : x < pow2 53).
  { rewrite Hx, pow2_Z by lia. rewrite <- Zlt_Qlt. lia. }
  pose proof (ilog2_lt x 53 H0 H53) as Hl.
  set (e := (ilog2 x - 52)%Z).
  assert (Hy : x / pow2 e == inject_Z (k * 2 ^ (- e))).
  { rewrite div_pow2, Hx, inject_Z_mult, pow2_Z by (unfold e; lia). reflexivity. }
  rewrite (round_half_even_Z _ _ Hy).
  rewrite inject_Z_mult, <- pow2_Z by (unfold e; lia).
  rewrite <- Qmult_assoc, (Qmult_comm (pow2 (- e))), pow2_inv. ring.
Qed.

(** Rounding does not cross an integer from below. *)
Lemma round_pos_le_Z x h :
  0 < x -> x < pow2 53 -> x <= inject_Z h -> round_pos x <= inject_Z h.
Proof.
  intros H0 H53 Hh. unfold round_pos.
  pose proof (ilog2_lt x 53 H0 H53) as Hl.
  set (e := (ilog2 x - 52)%Z).
  pose proof (pow2_pos e) as P. pose proof (pow2_pos (- e)) as P'.
  assert (Hy : x / pow2 e <= inject_Z (h * 2 ^ (- e))).
  { rewrite div_pow2, inject_Z_mult, <- pow2_Z by (unfold e; lia).
    apply Qmult_le_compat_r; lra. }
  apply round_half_even_le in Hy. rewrite Zle_Qle in Hy.
  apply (Qmult_le_compat_r _ _ (pow2 e)) in Hy; [|lra].
  eapply Qle_trans; [exact Hy|].
  rewrite inject_Z_mult, <- pow2_Z by (unfold e; lia).
  rewrite <- Qmult_assoc, (Qmult_comm (pow2 (- e))), pow2_inv. lra.
Qed.

(** Rounding does not cross a power of two from above. *)
Lemma round_pos_ge_pow2 x n : pow2 n <= x -> pow2 n <= round_pos x.
Proof.
  intros Hn. unfold round_pos.
  pose proof (ilog2_ge x n Hn) as Hl.
  assert (H0 : 0 < x) by (apply Qlt_le_trans with (pow2 n); [apply pow2_pos | exact Hn]).
  destruct (ilog2_spec x H0) as [Hs _].
  set (l := ilog2 x) in *. set (e := (l - 52)%Z).
  pose proof (pow2_pos e) as P. pose proof (pow2_pos (- e)) as P'.
  assert (Hy : inject_Z (2 ^ 52) <= x / pow2 e).
  { rewrite <- pow2_Z by lia. rewrite div_pow2.
    assert (E : pow2 52 == pow2 l * pow2 (- e)).
    { rewrite <- pow2_add. replace (l + - e)%Z with 52%Z by (unfold e; lia). reflexivity. }
    rewrite E. apply Qmult_le_compat_r; lra. }
  apply round_half_even_ge in Hy. rewrite Zle_Qle in Hy.
  apply (Qmult_le_compat_r _ _ (pow2 e)) in Hy; [|lra].
  eapply Qle_trans; [|exact Hy].
  rewrite <- pow2_Z, <- pow2_add by lia.
  apply pow2_le. unfold e. lia.
Qed.

Lemma round_pos_pos x : 0 < x -> 0 < round_pos x.
Proof.
  intros H0. destruct (ilog2_spec x H0) as [Hs _].
  apply Qlt_le_trans with (pow2 (ilog2 x)); [apply pow2_pos|].
  apply round_pos_ge_pow2. exact Hs.
Qed.

Lemma round_of_pos x : 0 < x -> round x = round_pos x.
Proof.
  intros H. unfold round.
  assert (E : Qcompare x 0 = Gt) by (apply (proj1 (Qgt_alt _ _)); exact H).
  rewrite E. reflexivity.
Qed.

Lemma round_nonpos x : x <= 0 -> round x <= 0.
Proof.
  intros H. unfold round.
  destruct (Qcompare x 0) eqn:E.
  - lra.
  - apply Qlt_alt in E.
    assert (0 < round_pos (- x)) by (apply round_pos_pos; lra). lra.
  - apply Qgt_alt in E. lra.
Qed.

Lemma int_Z q k : q == inject_Z k -> int q = k.
Proof.
  intros H. unfold int. destruct q as [n d]. simpl.
  unfold Qeq in H. simpl in H. rewrite Z.mul_1_r in H. rewrite H.
  apply Z.quot_mul. lia.
Qed.

Lemma int_floor q k : (0 <= k)%Z -> inject_Z k <= q -> q < inject_Z (k + 1) -> int q = k.
Proof.
  intros Hk H1 H2.
  assert (Hf : Qfloor q = k).
  { pose proof (Qfloor_resp_le _ _ H1) as A. rewrite Qfloor_Z in A.
    pose proof (Qfloor_le q) as B.
    assert (C : (Qfloor q < k + 1)%Z) by (rewrite Zlt_Qlt; lra). lia. }
  unfold int. rewrite <- Hf. unfold Qfloor. destruct q as [n d]. simpl.
  apply Z.quot_div_nonneg; [|lia].
  unfold Qle in H1. simpl in H1. nia.
Qed.

Lemma lt_b_iff x y : lt_b x y = true <-> x < y.
Proof.
  unfold lt_b. rewrite negb_true_iff. split.
  - intros H. apply Qnot_le_lt. intros C. apply Qle_bool_iff in C. congruence.
  - intros H. destruct (Qle_bool y x) eqn:E; [|reflexivity].
    apply Qle_bool_iff in E. lra.
Qed.

Lemma seconds_exact td : inject_Z td / inject_Z 1000000 == inject_Z td * (1 # 1000000).
Proof. reflexivity. Qed.

Lemma total_seconds_pos td : (0 < td)%Z -> 0 < total_seconds td.
Proof.
  intros H. unfold total_seconds, truediv.
  assert (0 < inject_Z td) by (rewrite <- (Zlt_Qlt 0); exact H).
  assert (X : 0 < inject_Z td / inject_Z 1000000) by (rewrite seconds_exact; lra).
  rewrite (round_of_pos _ X). apply round_pos_pos. exact X.
Qed.

Lemma total_seconds_nonpos td : (td <= 0)%Z -> total_seconds td <= 0.
Proof.
  intros H. unfold total_seconds, truediv. apply round_nonpos.
  assert (inject_Z td <= 0) by (rewrite <- (Zle_Qle _ 0); exact H).
  rewrite seconds_exact. lra.
Qed.

(** Below [2^34] seconds a microsecond is more than half a unit in the
    last place, so the comparison with a whole number of seconds is exact. *)
Lemma total_seconds_le td h :
  (0 < td)%Z -> (h < 2 ^ 34)%Z ->
  (total_seconds td <= inject_Z h <-> (td <= h * 1000000)%Z).
Proof.
  intros Htd Hh.
  assert (Q0 : 0 < inject_Z td) by (rewrite <- (Zlt_Qlt 0); exact Htd).
  assert (X : 0 < inject_Z td / inject_Z 1000000) by (rewrite seconds_exact; lra).
  assert (Qh : inject_Z h < inject_Z (2 ^ 34)) by (rewrite <- Zlt_Qlt; exact Hh).
  assert (P34 : pow2 34 == inject_Z (2 ^ 34)) by reflexivity.
  assert (P53 : pow2 53 == inject_Z (2 ^ 53)) by reflexivity.
  assert (P20 : pow2 (34 - 54) == 1 # 1048576) by reflexivity.
  change (inject_Z (2 ^ 34)) with 17179869184 in *.
  change (inject_Z (2 ^ 53)) with 9007199254740992 in *.
  unfold total_seconds, truediv. rewrite (round_of_pos _ X).
  set (x := inject_Z td / inject_Z 1000000) in *.
  assert (Ex : x == inject_Z td * (1 # 1000000)) by apply seconds_exact.
  split.
  - intros Hle.
    destruct (Z_le_gt_dec td (h * 1000000)) as [L | G]; [exact L | exfalso].
    assert (G' : (h * 1000000 + 1 <= td)%Z) by lia.
    rewrite Zle_Qle, inject_Z_plus, inject_Z_mult in G'.
    change (inject_Z 1000000) with 1000000 in G'. change (inject_Z 1) with 1 in G'.
    destruct (Qlt_le_dec x (pow2 34)) as [Hs | Hb].
    + pose proof (round_pos_bounds x 34 X Hs) as [B _]. lra.
    + pose proof (round_pos_ge_pow2 x 34 Hb). lra.
  - intros Hle. rewrite Zle_Qle, inject_Z_mult in Hle.
    change (inject_Z 1000000) with 1000000 in Hle.
    apply round_pos_le_Z; lra.
Qed.

(** Within a day the two roundings cannot reach the next whole hour. *)
Lemma hours_floor td :
  (0 < td <= 86400000000)%Z ->
  int (div (total_seconds td) 3600) = (td / 3600000000)%Z.
Proof.
  intros [Hlo Hhi].
  assert (Q0 : 0 < inject_Z td) by (rewrite <- (Zlt_Qlt 0); exact Hlo).
  assert (Q1 : inject_Z td <= 86400000000) by (rewrite Zle_Qle in Hhi; exact Hhi).
  assert (X : 0 < inject_Z td / inject_Z 1000000) by (rewrite seconds_exact; lra).
  unfold total_seconds, truediv, div. rewrite (round_of_pos _ X).
  set (x := inject_Z td / inject_Z 1000000) in *.
  assert (Ex : x == inject_Z td * (1 # 1000000)) by apply seconds_exact.
  pose proof (round_pos_pos x X) as Tpos.
  set (k := (td / 3600000000)%Z). set (r := (td mod 3600000000)%Z).
  assert (Hdm : td = (3600000000 * k + r)%Z) by (apply Z.div_mod; lia).
  assert (Hr : (0 <= r < 3600000000)%Z) by (apply Z.mod_pos_bound; lia).
  assert (Hk : (0 <= k <= 24)%Z).
  { split; [apply Z.div_pos; lia|]. unfold k.
    replace 24%Z with (86400000000 / 3600000000)%Z by reflexivity.
    apply Z.div_le_mono; lia. }
  assert (Qdm : inject_Z td == 3600000000 * inject_Z k + inject_Z r).
  { rewrite Hdm, inject_Z_plus, inject_Z_mult. reflexivity. }
  assert (Y : 0 < round_pos x / 3600).
  { apply Qlt_shift_div_l; lra. }
  rewrite (round_of_pos _ Y).
  destruct (Z.eq_dec r 0) as [R0 | Rn].
  - (* a whole number of hours: both divisions are exact *)
    assert (Hk1 : (1 <= k)%Z) by lia.
    assert (Exk : x == inject_Z (3600 * k)).
    { rewrite Ex, Qdm, R0, inject_Z_mult. change (inject_Z 0) with 0.
      change (inject_Z 3600) with 3600. field. }
    pose proof (round_pos_Z x (3600 * k) ltac:(lia) Exk) as T.
    apply int_Z. apply round_pos_Z; [lia|].
    rewrite T, inject_Z_mult. change (inject_Z 3600) with 3600. field.
  - assert (Qr1 : 1 <= inject_Z r) by (rewrite <- (Zle_Qle 1); lia).
    assert (Qr2 : inject_Z r <= 3599999999) by (rewrite <- (Zle_Qle _ 3599999999); lia).
    assert (Qk1 : 0 <= inject_Z k) by (rewrite <- (Zle_Qle 0); lia).
    assert (Qk2 : inject_Z k <= 23).
    { rewrite <- (Zle_Qle _ 23). lia. }
    assert (P17 : pow2 17 == 131072) by reflexivity.
    assert (P37 : pow2 (17 - 54) == 1 # 137438953472) by reflexivity.
    assert (P5 : pow2 5 == 32) by reflexivity.
    assert (P49 : pow2 (5 - 54) == 1 # 562949953421312) by reflexivity.
    pose proof (round_pos_bounds x 17 X ltac:(lra)) as [B1 B2].
    set (t := round_pos x) in *.
    assert (Et : t / 3600 == t * (1 # 3600)) by reflexivity.
    pose proof (round_pos_bounds (t / 3600) 5 Y ltac:(lra)) as [C1 C2].
    apply int_floor; [lia | |]; [|rewrite inject_Z_succ]; lra.
Qed.

Lemma le_b_iff x y : le_b x y = true <-> x <= y.
Proof. apply Qle_bool_iff. Qed.

(** On the hour marks, and on the two distances of the examples further
    down, the model computes what [SFdiv] computes. *)
Lemma agrees_with_SFdiv :
  forallb
    (fun td =>
       Qeq_bool (of_spec_float (spec_total_seconds td)) (total_seconds td)
       && Qeq_bool (of_spec_float (spec_hours td))
                   (div (total_seconds td) (inject_Z 3600)))
    (17179869600000001 :: 17179866000000001 :: hour_marks)%Z
  = true.
Proof. vm_compute. reflexivity. Qed.

End FloatFacts.

(* ------------------------------------------------------------------ *)
(** ** Lists and lookups *)

Section Lookups.

Context {A B : Type}.
Variable f : A -> B.

Lemma NoDup_map_filter (p : A -> bool) (l : list A) :
  NoDup (map f l) -> NoDup (map f (filter p l)).
Proof.
  induction l as [|a l IH]; simpl; intros H; [constructor|].
  inversion H as [|? ? Hn Hd]; subst.
  destruct (p a); simpl; [constructor|]; auto.
  intros Hin. apply Hn. apply in_map_iff in Hin as (x & Hx & Hi).
  apply filter_In in Hi as [Hi _]. apply in_map_iff. eauto.
Qed.

Lemma NoDup_map_inj (l : list A) (x y : A) :
  NoDup (map f l) -> In x l -> In y l -> f x = f y -> x = y.
Proof.
  induction l as [|a l IH]; simpl; intros H Hx Hy E; [contradiction|].
  inversion H as [|? ? Hn Hd]; subst.
  destruct Hx as [-> | Hx], Hy as [-> | Hy]; auto.
  - exfalso. apply Hn. rewrite E. apply in_map. exact Hy.
  - exfalso. apply Hn. rewrite <- E. apply in_map. exact Hx.
Qed.

Lemma NoDup_map_snoc (l : list A) (x : A) :
  NoDup (map f l) -> ~ In (f x) (map f l) -> NoDup (map f (l ++ [x])).
Proof.
  intros H Hn. rewrite map_app. simpl.
  induction (map f l) as [|b t IH]; simpl.
  - constructor; [intros []|constructor].
  - inversion H as [|? ? Hb Ht]; subst. constructor.
    + rewrite in_app_iff. simpl. intros [I | [E | []]]; [auto|].
      apply Hn. left. symmetry. exact E.
    + apply IH; [exact Ht|]. intros I. apply Hn. right. exact I.
Qed.

(** Replacing rows by a row with the same image leaves the images as they are. *)
Lemma map_replace (c : A -> bool) (x : A) (l : list A) :
  (forall r, In r l -> c r = true -> f x = f r) ->
  map f (map (fun r => if c r then x else r) l) = map f l.
Proof.
  induction l as [|a l IH]; simpl; intros H; [reflexivity|].
  rewrite IH by auto. f_equal.
  destruct (c a) eqn:E; [apply H; auto | reflexivity].
Qed.

(** With a unique key, a lookup on the key matches at most one row. *)
Lemma filter_key (p : A -> bool) (k : B) (l : list A) :
  NoDup (map f l) -> (forall x, p x = true -> f x = k) ->
  filter p l = [] \/ exists x, filter p l = [x].
Proof.
  intros Hnd Hp. induction l as [|a l IH]; simpl; [left; reflexivity|].
  inversion Hnd as [|? ? Hn Hd]; subst.
  destruct (p a) eqn:E.
  - right. exists a. f_equal.
    destruct (filter p l) as [|b t] eqn:F; [reflexivity | exfalso].
    assert (Hb : In b (filter p l)) by (rewrite F; left; reflexivity).
    apply filter_In in Hb as [Hb Pb].
    apply Hn. rewrite (Hp a E), <- (Hp b Pb). apply in_map. exact Hb.
  - apply IH. exact Hd.
Qed.

Lemma get_Ok (p : A -> bool) (l : list A) (x : A) :
  get p l = Ok x -> In x l /\ p x = true /\ filter p l = [x].
Proof.
  unfold get. destruct (filter p l) as [|a [|b t]] eqn:F; try discriminate.
  intros [= ->].
  assert (H : In x (filter p l)) by (rewrite F; left; reflexivity).
  apply filter_In in H as [H1 H2]. auto.
Qed.

Lemma get_DoesNotExist (p : A -> bool) (l : list A) :
  get p l = Raise DoesNotExist <-> (forall x, In x l -> p x = false).
Proof.
  unfold get. split.
  - destruct (filter p l) as [|a [|b t]] eqn:F; try discriminate.
    intros _ x Hx. destruct (p x) eqn:E; [|reflexivity].
    assert (H : In x (filter p l)) by (apply filter_In; auto).
    rewrite F in H. contradiction.
  - intros H. destruct (filter p l) as [|a t] eqn:F; [reflexivity|].
    assert (Ha : In a (filter p l)) by (rewrite F; left; reflexivity).
    apply filter_In in Ha as [Ha Pa]. rewrite (H a Ha) in Pa. discriminate.
Qed.

Lemma get_raises (p : A -> bool) (l : list A) (e : exn) :
  get p l = Raise e -> e = DoesNotExist \/ e = MultipleObjectsReturned.
Proof.
  unfold get. destruct (filter p l) as [|a [|b t]]; intros [=]; auto.
Qed.

(** With a unique key, [get] on the key never sees several rows. *)
Lemma get_key (p : A -> bool) (k : B) (l : list A) :
  NoDup (map f l) -> (forall x, p x = true -> f x = k) ->
  get p l <> Raise MultipleObjectsReturned.
Proof.
  intros Hnd Hp. unfold get.
  destruct (filter_key p k l Hnd Hp) as [-> | [x ->]]; discriminate.
Qed.

Lemma get_key_In (p : A -> bool) (k : B) (l : list A) (x : A) :
  NoDup (map f l) -> (forall y, p y = true -> f y = k) ->
  In x l -> p x = true -> get p l = Ok x.
Proof.
  intros Hnd Hp Hx Px. unfold get.
  assert (H : In x (filter p l)) by (apply filter_In; auto).
  destruct (filter_key p k l Hnd Hp) as [E | [y E]]; rewrite E in *.
  - contradiction.
  - destruct H as [-> | []]. reflexivity.
Qed.

End Lookups.

Lemma bind_Ok {A B} (r : result A) (k : A -> result B) (b : B) :
  bind r k = Ok b -> exists a, r = Ok a /\ k a = Ok b.
Proof. destruct r; simpl; [eauto | discriminate]. Qed.

Lemma share_of_true (tpk upk : Z) (s : TaskShare) :
  share_of tpk upk s = true <-> task_id s = tpk /\ shared_with_id s = upk.
Proof. unfold share_of. rewrite andb_true_iff, !Z.eqb_eq. reflexivity. Qed.

Lemma share_of_key (tpk upk : Z) (s : TaskShare) :
  share_of tpk upk s = true -> share_key s = (tpk, upk).
Proof. intros H. apply share_of_true in H as [<- <-]. reflexivity. Qed.

Lemma email_is_true (e : string) (u : User) : email_is e u = true <-> email u = e.
Proof. unfold email_is, Str.eqb. apply String.eqb_eq. Qed.

(* ------------------------------------------------------------------ *)
(** ** The constraints hold in every state the API reaches *)

Lemma Forall_lt_weaken (n : Z) (l : list Z) :
  Forall (fun k => k < n) l -> Forall (fun k => k < n + 1) l.
Proof. apply Forall_impl. intros; lia. Qed.

Lemma Forall_lt_fresh (n : Z) (l : list Z) :
  Forall (fun k => k < n) l -> ~ In n l.
Proof. intros H I. rewrite Forall_forall in H. specialize (H n I). lia. Qed.

Lemma Forall_lt_snoc {A} (f : A -> Z) (n : Z) (l : list A) (x : A) :
  Forall (fun k => k < n) (map f l) -> f x = n ->
  Forall (fun k => k < n + 1) (map f (l ++ [x])).
Proof.
  intros H E. rewrite map_app. apply Forall_app. split.
  - apply Forall_lt_weaken. exact H.
  - simpl. constructor; [lia | constructor].
Qed.

Lemma Forall_map_filter {A} (f : A -> Z) (P : Z -> Prop) (p : A -> bool) (l : list A) :
  Forall P (map f l) -> Forall P (map f (filter p l)).
Proof.
  rewrite !Forall_forall. intros H k I.
  apply in_map_iff in I as (x & <- & Hx). apply filter_In in Hx as [Hx _].
  apply H. apply in_map. exact Hx.
Qed.

Lemma initial_db_ok (us : list User) : users_unique us -> db_ok (initial_db us).
Proof. intros H. constructor; simpl; [exact H | constructor ..]. Qed.

Lemma update_or_create_ok db now t u p db' s created :
  db_ok db -> update_or_create db now t u p = Ok (db', s, created) -> db_ok db'.
Proof.
  intros [Hu Htp Hts Hsp Hss Hsk]. unfold update_or_create.
  destruct (get _ _) as [s0 | e] eqn:G.
  - intros [= <- <- <-]. apply get_Ok in G as (Hin & _ & _).
    constructor; simpl; try assumption.
    + rewrite map_replace; [exact Hsp|].
      intros r _ E. apply Z.eqb_eq in E. simpl. congruence.
    + rewrite map_replace; [exact Hss|].
      intros r _ E. apply Z.eqb_eq in E. simpl. congruence.
    + rewrite map_replace; [exact Hsk|].
      intros r Hr E. apply Z.eqb_eq in E.
      rewrite (NoDup_map_inj share_pk _ r s0 Hsp Hr Hin E). reflexivity.
  - destruct e; try discriminate. intros [= <- <- <-].
    pose proof (proj1 (get_DoesNotExist _ _) G) as Hnone.
    constructor; simpl; try assumption.
    + apply NoDup_map_snoc; [exact Hsp|]. simpl. apply Forall_lt_fresh. exact Hss.
    + apply Forall_lt_snoc; [exact Hss | reflexivity].
    + apply NoDup_map_snoc; [exact Hsk|].
      intros I. apply in_map_iff in I as (x & E & Hx).
      specialize (Hnone x Hx). unfold share_key in E. simpl in E.
      injection E as E1 E2.
      assert (share_of (task_pk t) (user_pk u) x = true)
        by (apply share_of_true; auto).
      congruence.
Qed.

(** Under [unique_together] the upsert never fails. *)
Lemma update_or_create_total db now t u p :
  db_ok db -> exists r, update_or_create db now t u p = Ok r.
Proof.
  intros H. unfold update_or_create.
  destruct (get _ _) as [s0 | e] eqn:G; [eauto|].
  destruct (get_raises _ _ _ G) as [-> | ->]; [eauto|].
  exfalso. revert G.
  apply (get_key share_key _ (task_pk t, user_pk u)).
  - apply (ok_share_key _ H).
  - apply share_of_key.
Qed.

Lemma delete_share_ok db s : db_ok db -> db_ok (delete_share db s).
Proof.
  intros [Hu Htp Hts Hsp Hss Hsk]. constructor; simpl; try assumption.
  - apply NoDup_map_filter. exact Hsp.
  - apply Forall_map_filter. exact Hss.
  - apply NoDup_map_filter. exact Hsk.
Qed.

Lemma delete_task_ok db t : db_ok db -> db_ok (delete_task db t).
Proof.
  intros [Hu Htp Hts Hsp Hss Hsk]. constructor; simpl; try assumption.
  - apply NoDup_map_filter. exact Htp.
  - apply Forall_map_filter. exact Hts.
  - apply NoDup_map_filter. exact Hsp.
  - apply Forall_map_filter. exact Hss.
  - apply NoDup_map_filter. exact Hsk.
Qed.

Lemma task_create_ok db now u v : db_ok db -> db_ok (fst (task_create db now u v)).
Proof.
  intros [Hu Htp Hts Hsp Hss Hsk]. constructor; simpl; try assumption.
  - apply NoDup_map_snoc; [exact Htp|]. simpl. apply Forall_lt_fresh. exact Hts.
  - apply Forall_lt_snoc; [exact Hts | reflexivity].
Qed.

Lemma task_update_ok db now t v : db_ok db -> db_ok (fst (task_update db now t v)).
Proof.
  intros [Hu Htp Hts Hsp Hss Hsk]. constructor; simpl; try assumption.
  - rewrite map_replace; [exact Htp|].
    intros r _ E. apply Z.eqb_eq in E. simpl. congruence.
  - rewrite map_replace; [exact Hts|].
    intros r _ E. apply Z.eqb_eq in E. simpl. congruence.
Qed.

Tactic Notation "bind_inv" hyp(H) "as" ident(a) :=
  let E := fresh "E" a in
  apply bind_Ok in H; destruct H as (a & E & H).

Section Reachable.

Variable EmailField : string -> option string.

Lemma write_task_ok m partial db now ru pk d db' resp :
  db_ok db -> write_task m partial db now ru pk d = Ok (db', resp) -> db_ok db'.
Proof.
  intros Hok H. unfold write_task in H. bind_inv H as u. bind_inv H as instance.
  destruct (task_is_valid partial d) as [v | errors].
  - destruct (task_update db now instance v) as [db1 t1] eqn:U.
    injection H as <- _. change db1 with (fst (db1, t1)). rewrite <- U.
    apply task_update_ok. exact Hok.
  - injection H as <- _. exact Hok.
Qed.

Lemma share_ok db now ru pk d db' resp :
  db_ok db -> share EmailField db now ru pk d = Ok (db', resp) -> db_ok db'.
Proof.
  intros Hok H. unfold share in H.
  bind_inv H as u. bind_inv H as task. bind_inv H as valid.
  destruct valid as [v | errors]; [|injection H as <- _; exact Hok].
  destruct (get _ _) as [w | e].
  - destruct (User_eq w u); [injection H as <- _; exact Hok|].
    bind_inv H as r. destruct r as [[db1 s] created]. injection H as <- _.
    eapply update_or_create_ok; eauto.
  - destruct e; try discriminate. injection H as <- _. exact Hok.
Qed.

Lemma handler_ok db now ru a db' resp :
  db_ok db ->
  match a with
  | A_list => list_ db ru
  | A_create d => create db now ru d
  | A_retrieve pk => retrieve db ru pk
  | A_update pk d => update db now ru pk d
  | A_partial_update pk d => partial_update db now ru pk d
  | A_destroy pk => destroy db ru pk
  | A_share pk d => share EmailField db now ru pk d
  | A_shares pk => shares db ru pk
  | A_revoke_share pk user_id => revoke_share db ru pk user_id
  end = Ok (db', resp) ->
  db_ok db'.
Proof.
  intros Hok H. destruct a.
  - unfold list_ in H. bind_inv H as u. injection H as <- _. exact Hok.
  - unfold create in H. bind_inv H as u.
    destruct (task_is_valid false d) as [v | errors].
    + destruct (task_create db now u v) as [db1 t1] eqn:U.
      injection H as <- _. change db1 with (fst (db1, t1)). rewrite <- U.
      apply task_create_ok. exact Hok.
    + injection H as <- _. exact Hok.
  - unfold retrieve in H. bind_inv H as u. bind_inv H as t.
    injection H as <- _. exact Hok.
  - eapply write_task_ok; eauto.
  - eapply write_task_ok; eauto.
  - unfold destroy in H. bind_inv H as u. bind_inv H as t.
    destruct (negb _); injection H as <- _; [exact Hok|].
    apply delete_task_ok. exact Hok.
  - eapply share_ok; eauto.
  - unfold shares in H. bind_inv H as u. bind_inv H as t.
    injection H as <- _. exact Hok.
  - unfold revoke_share in H. bind_inv H as u. bind_inv H as t.
    destruct (get _ _) as [s | e].
    + injection H as <- _. apply delete_share_ok. exact Hok.
    + destruct e; try discriminate. injection H as <- _. exact Hok.
Qed.

Lemma dispatch_ok db now ru a :
  db_ok db -> db_ok (fst (dispatch EmailField db now ru a)).
Proof.
  intros Hok. unfold dispatch.
  match goal with
  | |- context [match ?r with Ok x => x | Raise e => _ end] =>
      destruct r as [[db' resp] | e] eqn:H
  end; simpl; [|exact Hok].
  eapply handler_ok; eauto.
Qed.

Lemma reachable_ok db : reachable EmailField db -> db_ok db.
Proof.
  induction 1 as [us Hus | db now ru a _ IH].
  - apply initial_db_ok. exact Hus.
  - apply dispatch_ok. exact IH.
Qed.

Lemma run_reachable db reqs :
  reachable EmailField db -> reachable EmailField (run EmailField db reqs).
Proof.
  revert db. induction reqs as [|[[now ru] a] reqs IH]; simpl; intros db H.
  - exact H.
  - apply IH. constructor. exact H.
Qed.

End Reachable.

(* ------------------------------------------------------------------ *)
(** ** The queryset of visible tasks *)

Lemma owned_by_true (t : Task) (u : User) : owned_by t u = true <-> owner_id t = user_pk u.
Proof. unfold owned_by. apply Z.eqb_eq. Qed.

Lemma owned_by_false (t : Task) (u : User) : owned_by t u = false <-> owner_id t <> user_pk u.
Proof. unfold owned_by. apply Z.eqb_neq. Qed.

Lemma has_share_iff db t u :
  has_share db t u <-> exists s, In s (shares_of db t u).
Proof.
  unfold has_share, shares_of. split; intros (s & H).
  - exists s. apply filter_In. rewrite share_of_true. tauto.
  - exists s. apply filter_In in H. rewrite share_of_true in H. tauto.
Qed.

(** The rows of the join: a task with one of its shares, or with none
    when it has none. *)
Lemma join_shares_In db t o :
  In (t, o) (join_shares db) <->
  In t (tasks db)
  /\ match o with
     | Some s => In s (task_shares db) /\ task_id s = task_pk t
     | None => forall s, In s (task_shares db) -> task_id s <> task_pk t
     end.
Proof.
  unfold join_shares. rewrite in_flat_map. split.
  - intros (t' & Ht & Hin).
    destruct (filter _ (task_shares db)) as [|s ss] eqn:F.
    + destruct Hin as [[= <- <-] | []]. split; [exact Ht|].
      intros s Hs E. apply Z.eqb_eq in E.
      assert (I : In s (filter (fun s => task_id s =? task_pk t') (task_shares db)))
        by (apply filter_In; auto).
      rewrite F in I. contradiction.
    + apply in_map_iff in Hin as (x & [= <- <-] & Hx).
      rewrite <- F in Hx. apply filter_In in Hx as [Hx E].
      apply Z.eqb_eq in E. auto.
  - intros (Ht & Ho). exists t. split; [exact Ht|].
    destruct (filter _ (task_shares db)) as [|s ss] eqn:F.
    + destruct o as [s|]; [|left; reflexivity].
      destruct Ho as [Hs E].
      assert (I : In s (filter (fun s => task_id s =? task_pk t) (task_shares db)))
        by (apply filter_In; split; [exact Hs | apply Z.eqb_eq; exact E]).
      rewrite F in I. contradiction.
    + destruct o as [x|].
      * destruct Ho as [Hx E]. apply (in_map (fun y => (t, Some y))). rewrite <- F.
        apply filter_In. split; [exact Hx | apply Z.eqb_eq; exact E].
      * exfalso.
        assert (I : In s (filter (fun s => task_id s =? task_pk t) (task_shares db)))
          by (rewrite F; left; reflexivity).
        apply filter_In in I as [I E]. apply Z.eqb_eq in E. exact (Ho s I E).
Qed.

Lemma get_queryset_In db u t :
  In t (get_queryset db u) <->
  In t (tasks db) /\ (owner_id t = user_pk u \/ has_share db t u).
Proof.
  unfold get_queryset, distinct. rewrite nodup_In, in_map_iff. split.
  - intros ([t' o] & E & H). simpl in E. subst t'.
    apply filter_In in H as [H V]. apply join_shares_In in H as [Ht Ho].
    split; [exact Ht|]. unfold owned_or_shared in V. simpl in V.
    apply orb_true_iff in V as [V | V].
    + left. apply owned_by_true. exact V.
    + right. destruct o as [s|]; [|discriminate].
      apply Z.eqb_eq in V. exists s. tauto.
  - intros (Ht & [Ho | (s & Hs & E1 & E2)]).
    + destruct (filter (fun s => task_id s =? task_pk t) (task_shares db))
        as [|s ss] eqn:F.
      * exists (t, None). split; [reflexivity|]. apply filter_In. split.
        -- apply join_shares_In. split; [exact Ht|]. intros s Hs E.
           assert (I : In s (filter (fun s => task_id s =? task_pk t) (task_shares db)))
             by (apply filter_In; split; [exact Hs | apply Z.eqb_eq; exact E]).
           rewrite F in I. contradiction.
        -- unfold owned_or_shared. simpl. apply orb_true_iff. left.
           apply owned_by_true. exact Ho.
      * assert (I : In s (filter (fun s => task_id s =? task_pk t) (task_shares db)))
          by (rewrite F; left; reflexivity).
        apply filter_In in I as [I E]. apply Z.eqb_eq in E.
        exists (t, Some s). split; [reflexivity|]. apply filter_In. split.
        -- apply join_shares_In. auto.
        -- unfold owned_or_shared. simpl. apply orb_true_iff. left.
           apply owned_by_true. exact Ho.
    + exists (t, Some s). split; [reflexivity|]. apply filter_In. split.
      * apply join_shares_In. auto.
      * unfold owned_or_shared. simpl. apply orb_true_iff. right.
        apply Z.eqb_eq. exact E2.
Qed.

Lemma NoDup_map_of_inj {A B} (f : A -> B) (l : list A) :
  NoDup l -> (forall x y, In x l -> In y l -> f x = f y -> x = y) ->
  NoDup (map f l).
Proof.
  induction 1 as [|a l Hn Hd IH]; simpl; intros Hinj; constructor.
  - intros I. apply in_map_iff in I as (x & E & Hx).
    apply Hn. rewrite <- (Hinj x a); auto.
  - apply IH. intros x y Hx Hy. apply Hinj; auto.
Qed.

(** [distinct] leaves one row per primary key. *)
Lemma get_queryset_NoDup db u :
  NoDup (map task_pk (tasks db)) -> NoDup (map task_pk (get_queryset db u)).
Proof.
  intros Hnd. apply NoDup_map_of_inj.
  - unfold get_queryset, distinct. apply NoDup_nodup.
  - intros x y Hx Hy E.
    apply get_queryset_In in Hx as [Hx _]. apply get_queryset_In in Hy as [Hy _].
    exact (NoDup_map_inj task_pk _ x y Hnd Hx Hy E).
Qed.

(** A visible task is what [get_object_or_404] finds under its key. *)
Lemma get_object_or_404_visible db u t :
  db_ok db -> In t (tasks db) -> (owner_id t = user_pk u \/ has_share db t u) ->
  get_object_or_404 (get_queryset db u) (task_pk t) = Ok t.
Proof.
  intros Hok Ht Hv. unfold get_object_or_404.
  rewrite (get_key_In task_pk _ (task_pk t) _ t); [reflexivity | | | |].
  - apply get_queryset_NoDup. apply (ok_task_pk _ Hok).
  - intros y E. apply Z.eqb_eq. exact E.
  - apply get_queryset_In. auto.
  - apply Z.eqb_refl.
Qed.

(* ------------------------------------------------------------------ *)
(** ** The object permission *)

Lemma shared_permission_cases db m u t :
  db_ok db ->
  (owner_id t = user_pk u /\ shared_has_object_permission db m u t = Ok true)
  \/ (owner_id t <> user_pk u /\ shares_of db t u = []
      /\ shared_has_object_permission db m u t = Ok false)
  \/ (owner_id t <> user_pk u /\ exists s,
        shares_of db t u = [s]
        /\ shared_has_object_permission db m u t =
             Ok (SAFE_METHODS m || Permission_eqb (permission s) EDIT)).
Proof.
  intros Hok. unfold shared_has_object_permission.
  destruct (owned_by t u) eqn:O.
  - left. split; [apply owned_by_true; exact O | reflexivity].
  - right. apply owned_by_false in O.
    destruct (get _ _) as [s | e] eqn:G.
    + right. split; [exact O|]. exists s. apply get_Ok in G as (_ & _ & F).
      split; [exact F|]. destruct (SAFE_METHODS m); reflexivity.
    + destruct (get_raises _ _ _ G) as [-> | ->].
      * left. split; [exact O|]. split; [|reflexivity].
        unfold get in G. unfold shares_of.
        destruct (filter _ _) as [|a [|b l]]; [reflexivity | discriminate..].
      * exfalso. revert G.
        apply (get_key share_key _ (task_pk t, user_pk u)).
        -- apply (ok_share_key _ Hok).
        -- apply share_of_key.
Qed.

Lemma get_object_visible cs db m u t :
  db_ok db -> In t (tasks db) -> (owner_id t = user_pk u \/ has_share db t u) ->
  get_object cs db m u (task_pk t) =
  (_ <- check_object_permissions cs db m u t ;; Ok t).
Proof.
  intros Hok Ht Hv. unfold get_object.
  rewrite (get_object_or_404_visible db u t Hok Ht Hv). reflexivity.
Qed.

Lemma users0_unique : users_unique Example.users0.
Proof.
  split; simpl; repeat constructor; simpl; intuition discriminate.
Qed.

Lemma db1_reachable : reachable Example.any_email Example.db1.
Proof.
  change Example.db1 with (run Example.any_email Example.db0 (firstn 1 Example.history)).
  apply run_reachable, reach_init, users0_unique.
Qed.

Lemma db5_reachable : reachable Example.any_email Example.db5.
Proof.
  change Example.db5 with (run Example.any_email Example.db0 (Example.history)).
  apply run_reachable, reach_init, users0_unique.
Qed.

(* ------------------------------------------------------------------ *)
(** ** The object lookup of the views *)

Lemma initial_Some cs u : initial cs (Some u) = Ok u.
Proof.
  unfold initial.
  assert (E : check_permissions cs (Some u) = Ok tt).
  { induction cs as [|c cs IH]; simpl; [reflexivity|]. destruct c; exact IH. }
  rewrite E. reflexivity.
Qed.

Lemma get_object_default db m u t :
  db_ok db -> In t (tasks db) -> (owner_id t = user_pk u \/ has_share db t u) ->
  get_object default_permission_classes db m u (task_pk t) =
  (ok <- shared_has_object_permission db m u t ;;
   if ok : bool then Ok t else Raise PermissionDenied).
Proof.
  intros Hok Ht Hv. rewrite (get_object_visible _ db m u t Hok Ht Hv).
  unfold default_permission_classes. simpl.
  destruct (shared_has_object_permission db m u t) as [[|] | e]; reflexivity.
Qed.

Lemma get_object_share db m u t :
  db_ok db -> In t (tasks db) -> (owner_id t = user_pk u \/ has_share db t u) ->
  get_object share_permission_classes db m u (task_pk t) =
  if owned_by t u then Ok t else Raise PermissionDenied.
Proof.
  intros Hok Ht Hv. rewrite (get_object_visible _ db m u t Hok Ht Hv).
  unfold share_permission_classes. simpl. destruct (owned_by t u); reflexivity.
Qed.

(** A task outside the queryset of the user is not found, whatever the
    permission classes of the action. *)
Lemma get_object_hidden cs db m u t :
  db_ok db -> In t (tasks db) ->
  owner_id t <> user_pk u -> ~ has_share db t u ->
  get_object cs db m u (task_pk t) = Raise Http404.
Proof.
  intros Hok Ht O N. unfold get_object, get_object_or_404.
  assert (G : get (fun x => task_pk x =? task_pk t) (get_queryset db u)
              = Raise DoesNotExist).
  { apply get_DoesNotExist. intros x Hx. apply Z.eqb_neq. intros E.
    pose proof (proj1 (get_queryset_In db u x) Hx) as [Hx' _].
    rewrite (NoDup_map_inj task_pk _ x t (ok_task_pk _ Hok) Hx' Ht E) in Hx.
    apply get_queryset_In in Hx as [_ [V | V]]; contradiction. }
  rewrite G. reflexivity.
Qed.

Lemma dispatch_hidden (EmailField : string -> option string) db now u t a :
  db_ok db -> In t (tasks db) ->
  owner_id t <> user_pk u -> ~ has_share db t u ->
  action_pk a = Some (task_pk t) ->
  dispatch EmailField db now (Some u) a =
  (db, {| status_code := 404; data := ExceptionBody Http404 |}).
Proof.
  intros Hok Ht O N Ha. unfold dispatch.
  destruct a; try discriminate Ha; injection Ha as ->;
    unfold retrieve, update, partial_update, write_task, destroy,
      share, shares, revoke_share;
    rewrite initial_Some; simpl bind;
    rewrite (get_object_hidden _ db _ u t Hok Ht O N); reflexivity.
Qed.

(** What the permission answers to the holder of an edit share. *)
Lemma edit_share_permission db m t g s :
  db_ok db -> In s (task_shares db) ->
  task_id s = task_pk t -> shared_with_id s = user_pk g -> permission s = EDIT ->
  shared_has_object_permission db m g t = Ok true.
Proof.
  intros Hok Hs E1 E2 Ep.
  assert (I : In s (shares_of db t g)).
  { apply filter_In. split; [exact Hs | apply share_of_true; auto]. }
  destruct (shared_permission_cases db m g t Hok)
    as [[O P] | [(O & F & P) | (O & s' & F & P)]]; rewrite P.
  - reflexivity.
  - rewrite F in I. contradiction.
  - rewrite F in I. destruct I as [-> | []]. rewrite Ep.
    destruct (SAFE_METHODS m); reflexivity.
Qed.

(* ------------------------------------------------------------------ *)
(** ** The share action *)

Lemma email_lookup_found db e g :
  db_ok db -> In g (users db) -> email g = e ->
  get (email_is e) (users db) = Ok g.
Proof.
  intros Hok Hg E. apply (get_key_In email _ e).
  - apply (ok_users _ Hok).
  - intros y. apply email_is_true.
  - exact Hg.
  - apply email_is_true. exact E.
Qed.

Lemma email_lookup_cases db e :
  db_ok db ->
  (exists g, In g (users db) /\ email g = e /\ get (email_is e) (users db) = Ok g)
  \/ ((forall u, In u (users db) -> email u <> e)
      /\ get (email_is e) (users db) = Raise DoesNotExist).
Proof.
  intros Hok. destruct (get (email_is e) (users db)) as [g | x] eqn:G.
  - left. exists g. apply get_Ok in G as (Hg & P & _).
    apply email_is_true in P. auto.
  - destruct (get_raises _ _ _ G) as [-> | ->].
    + right. split; [|reflexivity]. intros u Hu E.
      pose proof (proj1 (get_DoesNotExist _ _) G u Hu) as F.
      apply email_is_true in E. congruence.
    + exfalso. revert G. apply (get_key email _ e).
      * apply (ok_users _ Hok).
      * intros y. apply email_is_true.
Qed.

Lemma Permission_of_value_value p : Permission_of_value (Permission_value p) = Some p.
Proof. destruct p; reflexivity. Qed.

(** What the share action answers to the owner when the address is the
    one of a stored user. *)
Lemma share_found (EmailField : string -> option string) db now o t raw v g pin :
  db_ok db -> In t (tasks db) -> owner_id t = user_pk o ->
  EmailField raw = Some v -> In g (users db) -> email g = Str.lower v ->
  dispatch EmailField db now (Some o)
    (A_share (task_pk t) {| shared_with_email_in := Some raw; permission_in := pin |}) =
  match run_permission {| shared_with_email_in := Some raw; permission_in := pin |} with
  | inr pe => (db, validation_failed [("permission", [pe])])
  | inl p =>
      if User_eq g o then
        (db, {| status_code := 400;
                data := Detail "Cannot share task with yourself" share_with_yourself |})
      else
        match update_or_create db now t g p with
        | Ok (db', s, created) =>
            (db', {| status_code := if created : bool then 201 else 200;
                     data := ShareBody s |})
        | Raise e => (db, handle_exception e)
        end
  end.
Proof.
  intros Hok Ht Ho Hraw Hg Hmail.
  unfold dispatch, share. rewrite initial_Some. simpl bind.
  rewrite (get_object_share db POST o t Hok Ht (or_introl Ho)).
  rewrite (proj2 (owned_by_true t o) Ho). simpl bind.
  unfold share_is_valid, run_shared_with_email. simpl shared_with_email_in.
  cbv beta iota. rewrite Hraw. unfold validate_shared_with_email.
  rewrite (email_lookup_found db _ g Hok Hg Hmail). simpl bind.
  destruct (run_permission _) as [p | pe]; [|reflexivity].
  simpl shared_with_email. simpl permission_v.
  rewrite (email_lookup_found db _ g Hok Hg Hmail).
  destruct (User_eq g o); [reflexivity|].
  destruct (update_or_create db now t g p) as [[[db' s] created] | e]; reflexivity.
Qed.

(** What it answers to the owner when no stored user has the address. *)
Lemma share_missing (EmailField : string -> option string) db now o t raw v pin :
  db_ok db -> In t (tasks db) -> owner_id t = user_pk o ->
  EmailField raw = Some v ->
  (forall u, In u (users db) -> email u <> Str.lower v) ->
  dispatch EmailField db now (Some o)
    (A_share (task_pk t) {| shared_with_email_in := Some raw; permission_in := pin |}) =
  (db, validation_failed
         (("shared_with_email",
           [ValidationError "User with this email does not exist."])
          :: match run_permission
                     {| shared_with_email_in := Some raw; permission_in := pin |} with
             | inl _ => []
             | inr pe => [("permission", [pe])]
             end)).
Proof.
  intros Hok Ht Ho Hraw Hnone.
  unfold dispatch, share. rewrite initial_Some. simpl bind.
  rewrite (get_object_share db POST o t Hok Ht (or_introl Ho)).
  rewrite (proj2 (owned_by_true t o) Ho). simpl bind.
  unfold share_is_valid, run_shared_with_email. simpl shared_with_email_in.
  cbv beta iota. rewrite Hraw. unfold validate_shared_with_email.
  destruct (email_lookup_cases db (Str.lower v) Hok) as [(g & Hg & E & _) | [_ G]].
  - exfalso. exact (Hnone g Hg E).
  - rewrite G. simpl bind.
    destruct (run_permission _) as [p | pe]; reflexivity.
Qed.

Lemma filter_map_commute {A} (p : A -> bool) (g : A -> A) (l : list A) :
  (forall r, In r l -> p (g r) = p r) ->
  filter p (map g l) = map g (filter p l).
Proof.
  induction l as [|a l IH]; simpl; intros H; [reflexivity|].
  rewrite (H a) by auto. rewrite IH by auto.
  destruct (p a); reflexivity.
Qed.

(** The upsert leaves exactly one row for the pair, with the permission
    asked for; it reports a creation exactly when there was no row. *)
Lemma upsert_spec db now t g p db' s created :
  db_ok db -> update_or_create db now t g p = Ok (db', s, created) ->
  shares_of db' t g = [s]
  /\ permission s = p
  /\ created = match shares_of db t g with [] => true | _ :: _ => false end
  /\ users db' = users db /\ tasks db' = tasks db.
Proof.
  intros Hok. unfold update_or_create, shares_of.
  destruct (get _ _) as [s0 | e] eqn:G.
  - intros [= <- <- <-]. apply get_Ok in G as (Hin & P & F).
    simpl. rewrite F. repeat split.
    rewrite filter_map_commute.
    + rewrite F. simpl. rewrite Z.eqb_refl. reflexivity.
    + intros r Hr. destruct (share_pk r =? share_pk s0) eqn:E; [|reflexivity].
      apply Z.eqb_eq in E.
      rewrite (NoDup_map_inj share_pk _ r s0 (ok_share_pk _ Hok) Hr Hin E).
      reflexivity.
  - destruct e; try discriminate. intros [= <- <- <-].
    assert (F : filter (share_of (task_pk t) (user_pk g)) (task_shares db) = []).
    { unfold get in G. destruct (filter _ _) as [|a [|b l]]; [reflexivity | discriminate..]. }
    simpl. rewrite F. repeat split.
    rewrite filter_app, F. simpl. unfold share_of. simpl.
    rewrite !Z.eqb_refl. reflexivity.
Qed.

Lemma shares_of_at_most_one db t u :
  db_ok db -> (List.length (shares_of db t u) <= 1)%nat.
Proof.
  intros Hok. unfold shares_of.
  destruct (filter_key share_key _ (task_pk t, user_pk u) (task_shares db)
              (ok_share_key _ Hok) (share_of_key _ _)) as [-> | [x ->]];
    simpl; lia.
Qed.

Lemma run_permission_value raw p :
  run_permission {| shared_with_email_in := raw;
                    permission_in := Some (Permission_value p) |} = inl p.
Proof. unfold run_permission. simpl. rewrite Permission_of_value_value. reflexivity. Qed.

(** The share action, called by the owner for another stored user with a
    valid permission: an upsert. *)
Lemma share_upsert (EmailField : string -> option string) db now o t g raw v p :
  db_ok db -> In t (tasks db) -> owner_id t = user_pk o ->
  In g (users db) -> user_pk g <> user_pk o ->
  EmailField raw = Some v -> email g = Str.lower v ->
  exists db' s created,
    dispatch EmailField db now (Some o)
      (A_share (task_pk t)
         {| shared_with_email_in := Some raw;
            permission_in := Some (Permission_value p) |}) =
    (db', {| status_code := if created : bool then 201 else 200;
             data := ShareBody s |})
    /\ update_or_create db now t g p = Ok (db', s, created).
Proof.
  intros Hok Ht Ho Hg Hne Hraw Hmail.
  rewrite (share_found EmailField db now o t raw v g _ Hok Ht Ho Hraw Hg Hmail).
  rewrite run_permission_value.
  unfold User_eq. rewrite (proj2 (Z.eqb_neq _ _) Hne).
  destruct (update_or_create_total db now t g p Hok) as [[[db' s] created] U].
  rewrite U. eauto.
Qed.

(* ------------------------------------------------------------------ *)
(** ** The deadline scan *)

Lemma today_bounds now x :
  today_start now <= x <= today_end now <-> same_day now x.
Proof.
  unfold today_end, today_start, same_day, day.
  Z.div_mod_to_equations. lia.
Qed.

Lemma Status_neq_DONE st : negb (Status_eqb st DONE) = true <-> st <> DONE.
Proof. destruct st; simpl; split; congruence. Qed.

Lemma created_and_due_today_iff now t :
  created_and_due_today now t = true <->
  same_day now (created_at t) /\ exists d, deadline t = Some d /\ same_day now d.
Proof.
  unfold created_and_due_today.
  rewrite !andb_true_iff, !Z.leb_le, <- today_bounds.
  destruct (deadline t) as [d|].
  - rewrite andb_true_iff, !Z.leb_le. split.
    + intros (H1 & H2). split; [lia|]. exists d. split; [reflexivity|].
      apply today_bounds. lia.
    + intros (H1 & d' & [= <-] & H2). apply today_bounds in H2. lia.
  - split; [intros [_ [=]] | intros (_ & d & [=] & _)].
Qed.

Lemma tasks_due_soon_In db now t :
  In t (tasks_due_soon db now) <->
  In t (tasks db)
  /\ exists d, deadline t = Some d
               /\ now < d <= now + 24 * 3600000000
               /\ status t <> DONE
               /\ ~ (same_day now (created_at t) /\ same_day now d).
Proof.
  unfold tasks_due_soon. rewrite !filter_In, Status_neq_DONE, negb_true_iff.
  rewrite <- not_true_iff_false, created_and_due_today_iff.
  unfold in_window, timedelta_hours. split.
  - intros (((Ht & W) & X) & S). split; [exact Ht|].
    destruct (deadline t) as [d|]; [|discriminate].
    apply andb_true_iff in W as [W1 W2]. apply Z.ltb_lt in W1. apply Z.leb_le in W2.
    exists d. repeat split; try assumption; try lia.
    intros [C D]. apply X. split; [exact C|]. exists d. auto.
  - intros (Ht & d & E & W & S & X). rewrite E. repeat split; try assumption.
    + apply andb_true_iff. rewrite Z.ltb_lt, Z.leb_le. lia.
    + intros (C & d' & [= <-] & D). apply X. auto.
Qed.

(** The scan on the four tasks keeps the first one only; with the fake
    client nothing counts as sent. *)
Lemma four_tasks_scan :
  map task_pk (tasks_due_soon Example.four_tasks Example.noon) = [10]
  /\ check_task_deadlines fake_send_email fake_send_bulk_email
       Example.four_tasks Example.noon = Summary 1 0 Example.noon.
Proof. split; vm_compute; reflexivity. Qed.

(* ------------------------------------------------------------------ *)
(** ** [Task.is_due_soon] *)

Lemma total_seconds_positive td :
  Float.lt_b (inject_Z 0) (Float.total_seconds td) = true <-> 0 < td.
Proof.
  rewrite FloatFacts.lt_b_iff. change (inject_Z 0) with 0%Q. split.
  - intros H. destruct (Z_lt_le_dec 0 td) as [P | N]; [exact P | exfalso].
    pose proof (FloatFacts.total_seconds_nonpos td N). lra.
  - apply FloatFacts.total_seconds_pos.
Qed.

Lemma due_window now hours d :
  hours * 3600 < 2 ^ 34 ->
  (Float.lt_b (inject_Z 0) (Float.total_seconds (d - now))
   && Float.le_b (Float.total_seconds (d - now)) (inject_Z (hours * 3600)) = true
   <-> 0 < d - now <= hours * 3600 * 1000000).
Proof.
  intros Hh. rewrite andb_true_iff, total_seconds_positive, FloatFacts.le_b_iff.
  split.
  - intros [P L]. split; [exact P|].
    apply (FloatFacts.total_seconds_le (d - now) (hours * 3600) P Hh). exact L.
  - intros [P L]. split; [exact P|].
    apply (FloatFacts.total_seconds_le (d - now) (hours * 3600) P Hh). exact L.
Qed.

(* ------------------------------------------------------------------ *)
(** ** The claims *)

(** C1.  In every state the API reaches, for every task [t], user [u] and
    method [m], the object permission of the task views answers from the
    share table as it is at the call: it never raises; on a safe method it
    grants exactly when [u] owns [t] or a share row for ([t], [u]) exists;
    and when [u] is neither owner nor grantee it denies every method.  At
    the views: the owner and the grantees retrieve [t]; for anybody else
    every action on [t] is answered 404 and changes nothing. *)
Theorem C1_view_permission (EmailField : string -> option string) db t u m :
  reachable EmailField db ->
  (exists b, has_object_permission IsTaskOwnerOrSharedWith db m u t = Ok b)
  /\ (SAFE_METHODS m = true ->
      (has_object_permission IsTaskOwnerOrSharedWith db m u t = Ok true
       <-> owner_id t = user_pk u \/ has_share db t u))
  /\ (owner_id t <> user_pk u -> ~ has_share db t u ->
      has_object_permission IsTaskOwnerOrSharedWith db m u t = Ok false)
  /\ (In t (tasks db) -> owner_id t = user_pk u \/ has_share db t u ->
      forall now,
        dispatch EmailField db now (Some u) (A_retrieve (task_pk t)) =
        (db, {| status_code := 200; data := TaskBody t |}))
  /\ (In t (tasks db) -> owner_id t <> user_pk u -> ~ has_share db t u ->
      forall now a,
        action_pk a = Some (task_pk t) ->
        dispatch EmailField db now (Some u) a =
        (db, {| status_code := 404; data := ExceptionBody Http404 |})).
Proof.
  intros Hr. pose proof (reachable_ok _ _ Hr) as Hok.
  assert (View : In t (tasks db) -> owner_id t = user_pk u \/ has_share db t u ->
                 shared_has_object_permission db GET u t = Ok true ->
                 forall now,
                   dispatch EmailField db now (Some u) (A_retrieve (task_pk t)) =
                   (db, {| status_code := 200; data := TaskBody t |})).
  { intros Ht Hv P now. unfold dispatch, retrieve. rewrite initial_Some. simpl bind.
    rewrite (get_object_default db GET u t Hok Ht Hv), P. reflexivity. }
  assert (Hide : In t (tasks db) -> owner_id t <> user_pk u -> ~ has_share db t u ->
                 forall now a,
                   action_pk a = Some (task_pk t) ->
                   dispatch EmailField db now (Some u) a =
                   (db, {| status_code := 404; data := ExceptionBody Http404 |})).
  { intros Ht O N now a. apply dispatch_hidden; assumption. }
  pose proof (shared_permission_cases db GET u t Hok) as G.
  simpl.
  destruct (shared_permission_cases db m u t Hok)
    as [[O P] | [(O & F & P) | (O & s & F & P)]]; rewrite P.
  - split; [eauto|]. split; [tauto|]. split; [contradiction|].
    split; [|exact Hide]. intros Ht Hv.
    destruct G as [[_ Pg] | [(Og & _) | (Og & _)]]; [|contradiction..].
    exact (View Ht Hv Pg).
  - assert (N : ~ has_share db t u).
    { rewrite has_share_iff, F. intros (s & []). }
    split; [eauto|]. split; [|split; [reflexivity|]].
    + intros _. split; [discriminate | tauto].
    + split; [tauto | exact Hide].
  - assert (Y : has_share db t u).
    { rewrite has_share_iff, F. exists s. left. reflexivity. }
    split; [eauto|]. split; [|split; [contradiction|]].
    + intros ->. simpl. tauto.
    + split; [|exact Hide]. intros Ht Hv.
      destruct G as [[Og _] | [(_ & Fg & _) | (_ & s' & _ & Pg)]].
      * contradiction.
      * rewrite has_share_iff, Fg in Y. destruct Y as (x & []).
      * exact (View Ht Hv Pg).
Qed.

Lemma C1_view_permission_witness :
  reachable Example.any_email Example.db5
  /\ (exists b, has_object_permission IsTaskOwnerOrSharedWith
                  Example.db5 GET Example.bob Example.task1 = Ok b)
  /\ (SAFE_METHODS GET = true ->
      (has_object_permission IsTaskOwnerOrSharedWith
         Example.db5 GET Example.bob Example.task1 = Ok true
       <-> owner_id Example.task1 = user_pk Example.bob
           \/ has_share Example.db5 Example.task1 Example.bob))
  /\ dispatch Example.any_email Example.db5 6000 (Some Example.bob) (A_retrieve 1) =
     (Example.db5, {| status_code := 200; data := TaskBody Example.task1 |})
  /\ dispatch Example.any_email Example.db5 6000 (Some Example.dan) (A_retrieve 1) =
     (Example.db5, {| status_code := 404; data := ExceptionBody Http404 |}).
Proof.
  assert (Ht : In Example.task1 (tasks Example.db5)) by (vm_compute; left; reflexivity).
  split; [exact db5_reachable|].
  destruct (C1_view_permission Example.any_email Example.db5 Example.task1
              Example.bob GET db5_reachable) as (H1 & H2 & _ & H4 & _).
  destruct (C1_view_permission Example.any_email Example.db5 Example.task1
              Example.dan GET db5_reachable) as (_ & _ & _ & _ & H5).
  split; [exact H1|]. split; [exact H2|]. split.
  - apply (H4 Ht). right.
    exists {| share_pk := 1; task_id := 1; shared_with_id := 2;
              permission := EDIT; shared_at := 2000 |}.
    split; [vm_compute; left; reflexivity | split; reflexivity].
  - apply (H5 Ht); [simpl; lia | | reflexivity].
    intros (s & Hs & _ & E). vm_compute in Hs.
    destruct Hs as [<- | []]. discriminate E.
Defined.

(** C2.  On a run at [now], the candidates of the scan are exactly the
    tasks with a deadline [d] where [now < d <= now + 24h], a status other
    than done, and not both the creation and the deadline on the calendar
    day of [now].  So: due in 23 hours, new, created ten days ago: in;
    created earlier today and due later today: out; due in 25 hours: out;
    done and due in one hour: out. *)
Theorem C2_candidate_set db now :
  (forall t,
     In t (tasks_due_soon db now) <->
     In t (tasks db)
     /\ exists d, deadline t = Some d
                  /\ now < d <= now + 24 * 3600000000
                  /\ status t <> DONE
                  /\ ~ (same_day now (created_at t) /\ same_day now d))
  /\ (forall t,
        In t (tasks db) -> deadline t = Some (now + 23 * 3600000000) ->
        status t = NEW -> created_at t = now - 10 * day ->
        In t (tasks_due_soon db now))
  /\ (forall (t : Task) d,
        same_day now (created_at t) -> created_at t <= now ->
        deadline t = Some d -> now < d -> same_day now d ->
        ~ In t (tasks_due_soon db now))
  /\ (forall t,
        deadline t = Some (now + 25 * 3600000000) ->
        ~ In t (tasks_due_soon db now))
  /\ (forall t,
        status t = DONE -> deadline t = Some (now + 1 * 3600000000) ->
        ~ In t (tasks_due_soon db now)).
Proof.
  split; [intros t; apply tasks_due_soon_In|].
  split; [|split; [|split]].
  - intros t Ht Hd Hs Hc. apply tasks_due_soon_In. split; [exact Ht|].
    exists (now + 23 * 3600000000). repeat split; try assumption; try lia.
    + rewrite Hs. discriminate.
    + intros [C _]. rewrite Hc in C. unfold same_day, day in C.
      Z.div_mod_to_equations. lia.
  - intros t d C _ Hd _ D I. apply tasks_due_soon_In in I as (_ & d' & E & _ & _ & X).
    rewrite Hd in E. injection E as <-. apply X. auto.
  - intros t Hd I. apply tasks_due_soon_In in I as (_ & d' & E & W & _).
    rewrite Hd in E. injection E as <-. lia.
  - intros t Hs Hd I. apply tasks_due_soon_In in I as (_ & d' & _ & _ & S & _).
    exact (S Hs).
Qed.

(** C3.  In every state the API reaches, when the owner of a task [t]
    shares it twice with the same other user [g] (the two addresses may
    differ in letter case, the two permissions are any), the first answer
    is 201 when there was no share row for ([t], [g]) and 200 when there
    was one, the second answer is 200, and afterwards the table holds
    exactly one row for ([t], [g]), with the permission of the second
    call.  No reachable state holds two rows for one pair. *)
Theorem C3_grant_share_upserts
    (EmailField : string -> option string) db now1 now2 o t g raw1 raw2 v1 v2 p1 p2 :
  reachable EmailField db ->
  In t (tasks db) -> owner_id t = user_pk o ->
  In g (users db) -> user_pk g <> user_pk o ->
  EmailField raw1 = Some v1 -> email g = Str.lower v1 ->
  EmailField raw2 = Some v2 -> email g = Str.lower v2 ->
  let r1 := dispatch EmailField db now1 (Some o)
              (A_share (task_pk t)
                 {| shared_with_email_in := Some raw1;
                    permission_in := Some (Permission_value p1) |}) in
  let r2 := dispatch EmailField (fst r1) now2 (Some o)
              (A_share (task_pk t)
                 {| shared_with_email_in := Some raw2;
                    permission_in := Some (Permission_value p2) |}) in
  status_code (snd r1) = match shares_of db t g with [] => 201 | _ :: _ => 200 end
  /\ status_code (snd r2) = 200
  /\ (exists s, shares_of (fst r2) t g = [s]
                /\ permission s = p2 /\ data (snd r2) = ShareBody s)
  /\ (forall db' t' u',
        reachable EmailField db' -> (List.length (shares_of db' t' u') <= 1)%nat).
Proof.
  intros Hr Ht Ho Hg Hne Hraw1 Hm1 Hraw2 Hm2 r1 r2.
  pose proof (reachable_ok _ _ Hr) as Hok.
  assert (Hr1 : reachable EmailField (fst r1)) by (apply reach_step; exact Hr).
  pose proof (reachable_ok _ _ Hr1) as Hok1.
  destruct (share_upsert EmailField db now1 o t g raw1 v1 p1
              Hok Ht Ho Hg Hne Hraw1 Hm1) as (db1 & s1 & c1 & R1 & U1).
  fold r1 in R1.
  destruct (upsert_spec _ _ _ _ _ _ _ _ Hok U1) as (F1 & _ & C1 & Us1 & Ts1).
  assert (E1 : fst r1 = db1) by (rewrite R1; reflexivity).
  rewrite E1 in Hok1.
  assert (Ht1 : In t (tasks db1)) by (rewrite Ts1; exact Ht).
  assert (Hg1 : In g (users db1)) by (rewrite Us1; exact Hg).
  destruct (share_upsert EmailField db1 now2 o t g raw2 v2 p2
              Hok1 Ht1 Ho Hg1 Hne Hraw2 Hm2) as (db2 & s2 & c2 & R2 & U2).
  destruct (upsert_spec _ _ _ _ _ _ _ _ Hok1 U2) as (F2 & P2 & C2 & _ & _).
  rewrite F1 in C2.
  assert (R2' : r2 = (db2, {| status_code := if c2 then 201 else 200;
                              data := ShareBody s2 |})).
  { unfold r2. rewrite E1. exact R2. }
  split; [|split; [|split]].
  - rewrite R1. simpl. rewrite C1. destruct (shares_of db t g); reflexivity.
  - rewrite R2', C2. reflexivity.
  - exists s2. rewrite R2'. simpl. auto.
  - intros db' t' u' Hr'. apply shares_of_at_most_one.
    apply (reachable_ok _ _ Hr').
Qed.

Lemma C3_grant_share_upserts_witness :
  let r1 := dispatch Example.any_email Example.db1 2000 (Some Example.ann)
              (A_share 1 (Example.share_with "Bob@Example.com" "view")) in
  let r2 := dispatch Example.any_email (fst r1) 3000 (Some Example.ann)
              (A_share 1 (Example.share_with "bob@example.com" "edit")) in
  (In Example.task1 (tasks Example.db1) /\ In Example.bob (users Example.db1)
   /\ user_pk Example.bob <> user_pk Example.ann)
  /\ status_code (snd r1) = 201
  /\ status_code (snd r2) = 200
  /\ (exists s, shares_of (fst r2) Example.task1 Example.bob = [s]
                /\ permission s = EDIT /\ data (snd r2) = ShareBody s).
Proof.
  intros r1 r2.
  assert (Ht : In Example.task1 (tasks Example.db1)) by (vm_compute; left; reflexivity).
  assert (Hg : In Example.bob (users Example.db1)) by (vm_compute; right; left; reflexivity).
  assert (Hn : user_pk Example.bob <> user_pk Example.ann) by (simpl; lia).
  split; [auto|].
  pose proof (C3_grant_share_upserts Example.any_email Example.db1 2000 3000
                Example.ann Example.task1 Example.bob
                "Bob@Example.com" "bob@example.com"
                "Bob@Example.com" "bob@example.com" VIEW EDIT
                db1_reachable Ht eq_refl Hg Hn eq_refl eq_refl eq_refl eq_refl)
    as (H1 & H2 & H3 & _).
  split; [exact H1|]. split; [exact H2 | exact H3].
Defined.

(** C4.  In every state the API reaches, a user [g] who holds an edit
    share on a task [t] of somebody else passes the object permission on
    every method, so the two update actions go through to validation and
    saving; deleting [t] is answered 403 by the view, and sharing, listing
    the shares and revoking a share are answered 403 by the permission;
    none of the refused requests changes the tables. *)
Theorem C4_edit_grantee (EmailField : string -> option string) db now t g s :
  reachable EmailField db ->
  In t (tasks db) -> In s (task_shares db) ->
  task_id s = task_pk t -> shared_with_id s = user_pk g -> permission s = EDIT ->
  owner_id t <> user_pk g ->
  (forall m, has_object_permission IsTaskOwnerOrSharedWith db m g t = Ok true)
  /\ (forall d,
        dispatch EmailField db now (Some g) (A_update (task_pk t) d) =
        match task_is_valid false d with
        | inl v => (fst (task_update db now t v),
                    {| status_code := 200;
                       data := TaskBody (snd (task_update db now t v)) |})
        | inr errors => (db, validation_failed errors)
        end)
  /\ (forall d,
        dispatch EmailField db now (Some g) (A_partial_update (task_pk t) d) =
        match task_is_valid true d with
        | inl v => (fst (task_update db now t v),
                    {| status_code := 200;
                       data := TaskBody (snd (task_update db now t v)) |})
        | inr errors => (db, validation_failed errors)
        end)
  /\ dispatch EmailField db now (Some g) (A_destroy (task_pk t)) =
     (db, {| status_code := 403;
             data := Detail "Only task owner can delete tasks" [] |})
  /\ (forall d,
        dispatch EmailField db now (Some g) (A_share (task_pk t) d) =
        (db, {| status_code := 403; data := ExceptionBody PermissionDenied |}))
  /\ dispatch EmailField db now (Some g) (A_shares (task_pk t)) =
     (db, {| status_code := 403; data := ExceptionBody PermissionDenied |})
  /\ (forall user_id,
        dispatch EmailField db now (Some g) (A_revoke_share (task_pk t) user_id) =
        (db, {| status_code := 403; data := ExceptionBody PermissionDenied |})).
Proof.
  intros Hr Ht Hs E1 E2 Ep Hno.
  pose proof (reachable_ok _ _ Hr) as Hok.
  assert (Hv : owner_id t = user_pk g \/ has_share db t g).
  { right. exists s. auto. }
  pose proof (fun m => edit_share_permission db m t g s Hok Hs E1 E2 Ep) as P.
  pose proof (proj2 (owned_by_false t g) Hno) as O.
  repeat split.
  - exact P.
  - intros d. unfold dispatch, update, write_task.
    rewrite initial_Some. simpl bind.
    rewrite (get_object_default db PUT g t Hok Ht Hv), P. simpl bind.
    destruct (task_is_valid false d); reflexivity.
  - intros d. unfold dispatch, partial_update, write_task.
    rewrite initial_Some. simpl bind.
    rewrite (get_object_default db PATCH g t Hok Ht Hv), P. simpl bind.
    destruct (task_is_valid true d); reflexivity.
  - unfold dispatch, destroy. rewrite initial_Some. simpl bind.
    rewrite (get_object_default db DELETE g t Hok Ht Hv), P. simpl bind.
    rewrite O. reflexivity.
  - intros d. unfold dispatch, share. rewrite initial_Some. simpl bind.
    rewrite (get_object_share db POST g t Hok Ht Hv), O. reflexivity.
  - unfold dispatch, shares. rewrite initial_Some. simpl bind.
    rewrite (get_object_share db GET g t Hok Ht Hv), O. reflexivity.
  - intros user_id. unfold dispatch, revoke_share. rewrite initial_Some. simpl bind.
    rewrite (get_object_share db DELETE g t Hok Ht Hv), O. reflexivity.
Qed.

Lemma C4_edit_grantee_witness :
  let s := {| share_pk := 1; task_id := 1; shared_with_id := 2;
              permission := EDIT; shared_at := 2000 |} in
  (In Example.task1 (tasks Example.db5) /\ In s (task_shares Example.db5)
   /\ owner_id Example.task1 <> user_pk Example.bob)
  /\ (forall m, has_object_permission IsTaskOwnerOrSharedWith
                  Example.db5 m Example.bob Example.task1 = Ok true)
  /\ dispatch Example.any_email Example.db5 6000 (Some Example.bob) (A_destroy 1) =
     (Example.db5, {| status_code := 403;
                      data := Detail "Only task owner can delete tasks" [] |})
  /\ dispatch Example.any_email Example.db5 6000 (Some Example.bob) (A_shares 1) =
     (Example.db5, {| status_code := 403; data := ExceptionBody PermissionDenied |}).
Proof.
  intros s.
  assert (Ht : In Example.task1 (tasks Example.db5)) by (vm_compute; left; reflexivity).
  assert (Hs : In s (task_shares Example.db5)) by (vm_compute; left; reflexivity).
  assert (Hn : owner_id Example.task1 <> user_pk Example.bob) by (simpl; lia).
  split; [auto|].
  pose proof (C4_edit_grantee Example.any_email Example.db5 6000
                Example.task1 Example.bob s db5_reachable Ht Hs
                eq_refl eq_refl eq_refl Hn)
    as (H1 & _ & _ & H4 & _ & H6 & _).
  split; [exact H1|]. split; [exact H4 | exact H6].
Defined.

(** The lookup of the share action as it is written: the answer reports
    an unknown user exactly when no stored user has the lowered address
    as e-mail. *)
Lemma unknown_address_lookup
    (EmailField : string -> option string) db now o t raw v pin :
  db_ok db ->
  In t (tasks db) -> owner_id t = user_pk o ->
  EmailField raw = Some v ->
  user_not_found
    (snd (dispatch EmailField db now (Some o)
            (A_share (task_pk t)
               {| shared_with_email_in := Some raw; permission_in := pin |})))
  <-> forall u, In u (users db) -> email u <> Str.lower v.
Proof.
  intros Hok Ht Ho Hraw.
  destruct (email_lookup_cases db (Str.lower v) Hok) as [(g & Hg & E & _) | [N _]].
  - split; [|intros N; exfalso; exact (N g Hg E)].
    intros [S (detail & errors & D & I)]. exfalso. revert S D I.
    rewrite (share_found EmailField db now o t raw v g pin Hok Ht Ho Hraw Hg E).
    destruct (run_permission _) as [p | pe].
    + destruct (User_eq g o).
      * simpl. intros _ [= <- <-] [I | []]. discriminate I.
      * destruct (update_or_create_total db now t g p Hok) as [[[db' s] c] U].
        rewrite U. simpl. destruct c; discriminate.
    + simpl. intros _ [= <- <-] [I | []]. discriminate I.
  - split; [intros _; exact N|]. intros _.
    rewrite (share_missing EmailField db now o t raw v pin Hok Ht Ho Hraw N).
    split; [reflexivity|]. simpl. eexists _, _. split; [reflexivity|].
    left. reflexivity.
Qed.

(** Two addresses that lower to the same text get the same answer and
    leave the same tables. *)
Lemma share_letter_case
    (EmailField : string -> option string) db now o t raw v raw' v' pin :
  db_ok db ->
  In t (tasks db) -> owner_id t = user_pk o ->
  EmailField raw = Some v -> EmailField raw' = Some v' ->
  Str.lower v' = Str.lower v ->
  dispatch EmailField db now (Some o)
    (A_share (task_pk t) {| shared_with_email_in := Some raw'; permission_in := pin |})
  = dispatch EmailField db now (Some o)
      (A_share (task_pk t) {| shared_with_email_in := Some raw; permission_in := pin |}).
Proof.
  intros Hok Ht Ho Hraw Hraw' Hsame.
  destruct (email_lookup_cases db (Str.lower v) Hok) as [(g & Hg & E & _) | [N _]].
  - rewrite (share_found EmailField db now o t raw v g pin Hok Ht Ho Hraw Hg E).
    rewrite <- Hsame in E.
    rewrite (share_found EmailField db now o t raw' v' g pin Hok Ht Ho Hraw' Hg E).
    reflexivity.
  - rewrite (share_missing EmailField db now o t raw v pin Hok Ht Ho Hraw N).
    rewrite <- Hsame in N.
    rewrite (share_missing EmailField db now o t raw' v' pin Hok Ht Ho Hraw' N).
    reflexivity.
Qed.

(** C5.  In every state the API reaches with the stored addresses in
    lower case, as [validate_email] of the registration serializer returns
    them: when the owner of a task shares it to an address the e-mail
    field accepts, the answer reports an unknown user exactly when no
    active user has that address up to letter case; so with such a user
    the grant does not fail for this reason.  Two addresses that differ in
    letter case only get the same answer and leave the same tables.
    ([is_active] is the class attribute of [AbstractBaseUser]: the table
    has no column for it, and no user that is not active.) *)
Theorem C5_unknown_address
    (EmailField : string -> option string) db now o t raw v pin :
  reachable EmailField db -> lowercase_emails db ->
  In t (tasks db) -> owner_id t = user_pk o ->
  EmailField raw = Some v ->
  let r a := dispatch EmailField db now (Some o)
               (A_share (task_pk t)
                  {| shared_with_email_in := Some a; permission_in := pin |}) in
  (user_not_found (snd (r raw)) <->
   ~ exists u, In u (users db) /\ is_active u = true /\ same_address (email u) v)
  /\ (forall raw' v', EmailField raw' = Some v' -> same_address v' v ->
                      r raw' = r raw).
Proof.
  intros Hr Hl Ht Ho Hraw r.
  pose proof (reachable_ok _ _ Hr) as Hok.
  split.
  - unfold r. rewrite (unknown_address_lookup EmailField db now o t raw v pin Hok Ht Ho Hraw).
    unfold same_address. split.
    + intros N (u & Hu & _ & E). apply (N u Hu). rewrite <- (Hl u Hu). exact E.
    + intros N u Hu E. apply N. exists u. split; [exact Hu|]. split; [reflexivity|].
      rewrite (Hl u Hu). exact E.
  - intros raw' v' Hraw' Hsame. unfold r.
    apply (share_letter_case EmailField db now o t raw v raw' v' pin Hok Ht Ho Hraw Hraw').
    exact Hsame.
Qed.

Lemma C5_unknown_address_witness :
  let r a := dispatch Example.any_email Example.db5 6000 (Some Example.ann)
               (A_share 1 (Example.share_with a "view")) in
  (lowercase_emails Example.db5 /\ In Example.task1 (tasks Example.db5))
  /\ (user_not_found (snd (r "Zed@Example.com")) <->
      ~ exists u, In u (users Example.db5) /\ is_active u = true
                  /\ same_address (email u) "Zed@Example.com")
  /\ r "CY@Example.COM" = r "cy@example.com".
Proof.
  intros r.
  assert (Hl : lowercase_emails Example.db5).
  { intros u Hu. simpl in Hu.
    destruct Hu as [<- | [<- | [<- | [<- | []]]]]; vm_compute; reflexivity. }
  assert (Ht : In Example.task1 (tasks Example.db5)) by (vm_compute; left; reflexivity).
  assert (Hs : same_address "CY@Example.COM" "cy@example.com")
    by (vm_compute; reflexivity).
  split; [split; [exact Hl | exact Ht]|]. split.
  - exact (proj1 (C5_unknown_address Example.any_email Example.db5 6000
                    Example.ann Example.task1 "Zed@Example.com" "Zed@Example.com"
                    (Some "view") db5_reachable Hl Ht eq_refl eq_refl)).
  - exact (proj2 (C5_unknown_address Example.any_email Example.db5 6000
                    Example.ann Example.task1 "cy@example.com" "cy@example.com"
                    (Some "view") db5_reachable Hl Ht eq_refl eq_refl)
             "CY@Example.COM" "CY@Example.COM" eq_refl Hs).
Defined.

(** C6.  In every state the API reaches, when the owner of a task shares
    it to an address that belongs to the owner's own row, with the
    permission left out or set to either choice, the answer is 400
    "Cannot share task with yourself" and the tables stay as they were. *)
Theorem C6_self_share_rejected
    (EmailField : string -> option string) db now o t raw v u pin :
  reachable EmailField db ->
  In t (tasks db) -> owner_id t = user_pk o ->
  EmailField raw = Some v ->
  In u (users db) -> email u = Str.lower v -> user_pk u = user_pk o ->
  (pin = None \/ exists p, pin = Some (Permission_value p)) ->
  dispatch EmailField db now (Some o)
    (A_share (task_pk t) {| shared_with_email_in := Some raw; permission_in := pin |}) =
  (db, {| status_code := 400;
          data := Detail "Cannot share task with yourself" share_with_yourself |}).
Proof.
  intros Hr Ht Ho Hraw Hu Hmail Hsame Hpin.
  pose proof (reachable_ok _ _ Hr) as Hok.
  rewrite (share_found EmailField db now o t raw v u pin Hok Ht Ho Hraw Hu Hmail).
  unfold User_eq. rewrite (proj2 (Z.eqb_eq _ _) Hsame).
  destruct Hpin as [-> | [p ->]].
  - reflexivity.
  - rewrite run_permission_value. reflexivity.
Qed.

Lemma C6_self_share_rejected_witness :
  (In Example.task1 (tasks Example.db5) /\ In Example.ann (users Example.db5))
  /\ dispatch Example.any_email Example.db5 6000 (Some Example.ann)
       (A_share 1 (Example.share_with "ANN@example.com" "edit")) =
     (Example.db5,
      {| status_code := 400;
         data := Detail "Cannot share task with yourself" share_with_yourself |}).
Proof.
  assert (Ht : In Example.task1 (tasks Example.db5)) by (vm_compute; left; reflexivity).
  assert (Hu : In Example.ann (users Example.db5)) by (vm_compute; left; reflexivity).
  split; [auto|].
  apply (C6_self_share_rejected Example.any_email Example.db5 6000
           Example.ann Example.task1 "ANN@example.com" "ANN@example.com"
           Example.ann (Some "edit") db5_reachable Ht eq_refl eq_refl Hu eq_refl eq_refl).
  right. exists EDIT. reflexivity.
Defined.

(** C7.  In every state the API reaches and for every principal [u], the
    queryset of the task views holds exactly the tasks that [u] owns or
    that a share row gives to [u], and no primary key twice. *)
Theorem C7_visible_tasks (EmailField : string -> option string) db u :
  reachable EmailField db ->
  (forall t, In t (get_queryset db u) <->
             In t (tasks db) /\ (owner_id t = user_pk u \/ has_share db t u))
  /\ NoDup (map task_pk (get_queryset db u)).
Proof.
  intros Hr. pose proof (reachable_ok _ _ Hr) as Hok. split.
  - intros t. apply get_queryset_In.
  - apply get_queryset_NoDup. apply (ok_task_pk _ Hok).
Qed.

Lemma C7_visible_tasks_witness :
  reachable Example.any_email Example.db5
  /\ (forall t, In t (get_queryset Example.db5 Example.bob) <->
                In t (tasks Example.db5)
                /\ (owner_id t = user_pk Example.bob \/ has_share Example.db5 t Example.bob))
  /\ NoDup (map task_pk (get_queryset Example.db5 Example.bob)).
Proof.
  split; [exact db5_reachable|].
  apply (C7_visible_tasks Example.any_email Example.db5 Example.bob).
  exact db5_reachable.
Defined.

(** C8.  For a candidate of the run at [now] with deadline [d], the hours
    the reminder reports are the whole hours in [d - now]: the quotient of
    the microseconds by 3 600 000 000, rounded down; the two binary64
    roundings on the way do not change it.  Three and a half hours give 3. *)
Theorem C8_hours_remaining db now t d :
  In t (tasks_due_soon db now) -> deadline t = Some d ->
  hours_remaining d now = (d - now) / 3600000000
  /\ reminder now t =
     Ok ("Task Deadline Reminder: " ++ title t,
         _build_reminder_email t d ((d - now) / 3600000000))
  /\ hours_remaining (now + (3 * 3600 + 30 * 60) * 1000000) now = 3.
Proof.
  intros I Hd. apply tasks_due_soon_In in I as (_ & d' & E & W & _).
  rewrite Hd in E. injection E as <-.
  assert (H : hours_remaining d now = (d - now) / 3600000000).
  { unfold hours_remaining. apply FloatFacts.hours_floor. lia. }
  split; [exact H|]. split.
  - unfold reminder. rewrite Hd, H. reflexivity.
  - unfold hours_remaining.
    replace (now + (3 * 3600 + 30 * 60) * 1000000 - now) with 12600000000 by lia.
    rewrite FloatFacts.hours_floor by lia. reflexivity.
Qed.

Lemma C8_hours_remaining_witness :
  In Example.task2 (tasks_due_soon Example.scan_db Example.noon)
  /\ hours_remaining (Example.noon + 12600000000) Example.noon = 3
  /\ reminder Example.noon Example.task2 =
     Ok ("Task Deadline Reminder: Pay the rent",
         {| body_task := "Pay the rent";
            body_status := IN_PROGRESS;
            body_priority := MEDIUM;
            body_deadline := Example.noon + 12600000000;
            body_time_remaining := 3;
            body_description := Some "Before the bank closes" |}).
Proof.
  assert (I : In Example.task2 (tasks_due_soon Example.scan_db Example.noon))
    by (vm_compute; left; reflexivity).
  split; [exact I|].
  destruct (C8_hours_remaining Example.scan_db Example.noon Example.task2
              (Example.noon + 12600000000) I eq_refl) as (H1 & H2 & _).
  split; [exact H1 | exact H2].
Defined.

(** C9, as stated, fails: with [hours = 4772186] the window is
    17 179 869 600 seconds, the task is due one microsecond after its end,
    and [is_due_soon] answers true: [total_seconds()] rounds the distance
    to the window's length. *)
Lemma C9_counterexample :
  is_due_soon Example.noon 4772186 Example.far_task = true
  /\ deadline Example.far_task = Some (Example.noon + 4772186 * 3600000000 + 1)
  /\ ~ (Example.noon + 4772186 * 3600000000 + 1 - Example.noon
        <= 4772186 * 3600 * 1000000).
Proof.
  split; [vm_compute; reflexivity|]. split; [reflexivity|].
  unfold Example.noon. lia.
Qed.

(** C9, amended.  For a window below [2^34] seconds (up to 4772185
    hours), [is_due_soon(hours)] answers true exactly when the deadline is set,
    the status is not done and [0 < deadline - now <= hours * 3600]
    seconds.  A deadline at [now] itself is not due soon; a deadline
    exactly [hours * 3600] seconds away is; without a deadline or when
    done the answer is false. *)
Theorem C9_is_due_soon now hours t :
  hours * 3600 < 2 ^ 34 ->
  (is_due_soon now hours t = true <->
   exists d, deadline t = Some d /\ status t <> DONE
             /\ 0 < d - now <= hours * 3600 * 1000000)
  /\ (deadline t = Some now -> is_due_soon now hours t = false)
  /\ (0 < hours -> status t <> DONE ->
      deadline t = Some (now + hours * 3600 * 1000000) ->
      is_due_soon now hours t = true)
  /\ (deadline t = None \/ status t = DONE -> is_due_soon now hours t = false).
Proof.
  intros Hh.
  assert (Main : is_due_soon now hours t = true <->
                 exists d, deadline t = Some d /\ status t <> DONE
                           /\ 0 < d - now <= hours * 3600 * 1000000).
  { unfold is_due_soon. destruct (deadline t) as [d|].
    - destruct (negb (Status_eqb (status t) DONE)) eqn:S.
      + apply Status_neq_DONE in S. rewrite (due_window now hours d Hh). split.
        * intros W. exists d. auto.
        * intros (d' & [= <-] & _ & W). exact W.
      + split; [discriminate|]. intros (d' & _ & N & _).
        apply Status_neq_DONE in N. congruence.
    - split; [discriminate | intros (d' & [=] & _)]. }
  split; [exact Main|]. split; [|split].
  - intros E. apply not_true_is_false. rewrite Main.
    intros (d & E' & _ & W). rewrite E in E'. injection E' as <-. lia.
  - intros P S E. apply Main. exists (now + hours * 3600 * 1000000).
    repeat split; try assumption; lia.
  - intros H. apply not_true_is_false. rewrite Main.
    intros (d & E & S & _). destruct H as [H | H]; congruence.
Qed.

Lemma C9_is_due_soon_witness :
  24 * 3600 < 2 ^ 34
  /\ (is_due_soon Example.noon 24 Example.task2 = true <->
      exists d, deadline Example.task2 = Some d /\ status Example.task2 <> DONE
                /\ 0 < d - Example.noon <= 24 * 3600 * 1000000)
  /\ is_due_soon Example.noon 24 Example.task2 = true.
Proof.
  assert (H : 24 * 3600 < 2 ^ 34) by (vm_compute; reflexivity).
  split; [exact H|].
  pose proof (proj1 (C9_is_due_soon Example.noon 24 Example.task2 H)) as M.
  split; [exact M|]. apply M.
  exists (Example.noon + 12600000000). split; [reflexivity|].
  split; [discriminate|]. unfold Example.noon. lia.
Defined.

(* ------------------------------------------------------------------ *)
(** ** More on the views *)

Lemma get_object_Ok cs db m u pk obj :
  get_object cs db m u pk = Ok obj ->
  In obj (tasks db) /\ task_pk obj = pk
  /\ (owner_id obj = user_pk u \/ has_share db obj u)
  /\ check_object_permissions cs db m u obj = Ok tt.
Proof.
  unfold get_object, get_object_or_404. intros H.
  destruct (get _ (get_queryset db u)) as [x | e] eqn:G.
  - simpl in H. apply get_Ok in G as (Hx & P & _).
    apply Z.eqb_eq in P. apply get_queryset_In in Hx as [Hx V].
    destruct (check_object_permissions cs db m u x) as [[] | e] eqn:C;
      simpl in H; [|discriminate].
    injection H as <-. auto.
  - destruct e; discriminate H.
Qed.

Lemma get_object_missing cs db m u pk :
  (forall x, In x (tasks db) -> task_pk x <> pk) ->
  get_object cs db m u pk = Raise Http404.
Proof.
  intros N. unfold get_object, get_object_or_404.
  assert (G : get (fun x => task_pk x =? pk) (get_queryset db u) = Raise DoesNotExist).
  { apply get_DoesNotExist. intros x Hx. apply Z.eqb_neq.
    apply get_queryset_In in Hx as [Hx _]. exact (N x Hx). }
  rewrite G. reflexivity.
Qed.

(** An action on a key that [get_object] does not find is answered 404. *)
Lemma dispatch_not_found (EmailField : string -> option string) db now u a pk :
  (forall cs m, get_object cs db m u pk = Raise Http404) ->
  action_pk a = Some pk ->
  dispatch EmailField db now (Some u) a =
  (db, {| status_code := 404; data := ExceptionBody Http404 |}).
Proof.
  intros N Ha. unfold dispatch.
  destruct a; try discriminate Ha; injection Ha as ->;
    unfold retrieve, update, partial_update, write_task, destroy,
      share, shares, revoke_share;
    rewrite initial_Some; simpl bind; rewrite N; reflexivity.
Qed.

Lemma owner_permission db m o t :
  owner_id t = user_pk o -> shared_has_object_permission db m o t = Ok true.
Proof.
  intros Ho. unfold shared_has_object_permission.
  rewrite (proj2 (owned_by_true t o) Ho). reflexivity.
Qed.

(** What the permission answers to the holder of a view share. *)
Lemma view_share_permission db m t g s :
  db_ok db -> In s (task_shares db) ->
  task_id s = task_pk t -> shared_with_id s = user_pk g -> permission s = VIEW ->
  owner_id t <> user_pk g ->
  shared_has_object_permission db m g t = Ok (SAFE_METHODS m).
Proof.
  intros Hok Hs E1 E2 Ep Hno.
  assert (I : In s (shares_of db t g)).
  { apply filter_In. split; [exact Hs | apply share_of_true; auto]. }
  destruct (shared_permission_cases db m g t Hok)
    as [[O P] | [(O & F & P) | (O & s' & F & P)]]; rewrite P.
  - contradiction.
  - rewrite F in I. contradiction.
  - rewrite F in I. destruct I as [-> | []]. rewrite Ep.
    destruct (SAFE_METHODS m); reflexivity.
Qed.

Lemma revoke_by_owner (EmailField : string -> option string) db now o t user_id :
  db_ok db -> In t (tasks db) -> owner_id t = user_pk o ->
  dispatch EmailField db now (Some o) (A_revoke_share (task_pk t) user_id) =
  match get (share_of (task_pk t) user_id) (task_shares db) with
  | Ok s => (delete_share db s, {| status_code := 204; data := NoBody |})
  | Raise DoesNotExist =>
      (db, {| status_code := 404; data := Detail "Share not found" [] |})
  | Raise e => (db, handle_exception e)
  end.
Proof.
  intros Hok Ht Ho. unfold dispatch, revoke_share. rewrite initial_Some. simpl bind.
  rewrite (get_object_share db DELETE o t Hok Ht (or_introl Ho)).
  rewrite (proj2 (owned_by_true t o) Ho). simpl bind.
  destruct (get _ _) as [s | e]; [reflexivity|]. destruct e; reflexivity.
Qed.

(** Deleting a share row removes the rows of its pair and no other. *)
Lemma delete_share_pair db s :
  db_ok db -> In s (task_shares db) ->
  task_shares (delete_share db s) =
  filter (fun r => negb (share_of (task_id s) (shared_with_id s) r)) (task_shares db).
Proof.
  intros Hok Hs. simpl. apply filter_ext_in. intros r Hr. f_equal.
  destruct (share_of (task_id s) (shared_with_id s) r) eqn:P.
  - apply share_of_key in P.
    assert (E : r = s).
    { apply (NoDup_map_inj share_key _ r s (ok_share_key _ Hok) Hr Hs).
      rewrite P. reflexivity. }
    rewrite E. apply Z.eqb_refl.
  - apply Z.eqb_neq. intros E.
    rewrite (NoDup_map_inj share_pk _ r s (ok_share_pk _ Hok) Hr Hs E) in P.
    unfold share_of in P. rewrite !Z.eqb_refl in P. discriminate P.
Qed.

Lemma destroy_by_owner (EmailField : string -> option string) db now o t :
  db_ok db -> In t (tasks db) -> owner_id t = user_pk o ->
  dispatch EmailField db now (Some o) (A_destroy (task_pk t)) =
  (delete_task db t, {| status_code := 204; data := NoBody |}).
Proof.
  intros Hok Ht Ho. unfold dispatch, destroy. rewrite initial_Some. simpl bind.
  rewrite (get_object_default db DELETE o t Hok Ht (or_introl Ho)).
  rewrite (owner_permission db DELETE o t Ho). simpl bind.
  rewrite (proj2 (owned_by_true t o) Ho). reflexivity.
Qed.

(* ------------------------------------------------------------------ *)
(** ** Referential integrity *)

Lemma in_map_replace {A} (c : A -> bool) (y : A) (l : list A) (x : A) :
  In x (map (fun r => if c r then y else r) l) ->
  In x l \/ (x = y /\ exists r, In r l /\ c r = true).
Proof.
  intros H. apply in_map_iff in H as (r & E & Hr).
  destruct (c r) eqn:C; subst; eauto.
Qed.

Lemma check_share_permissions db m u obj :
  check_object_permissions share_permission_classes db m u obj = Ok tt ->
  owner_id obj = user_pk u.
Proof.
  unfold share_permission_classes. simpl.
  destruct (owned_by obj u) eqn:O; [|discriminate].
  intros _. apply owned_by_true. exact O.
Qed.

Lemma check_default_permissions db m u obj :
  check_object_permissions default_permission_classes db m u obj = Ok tt ->
  shared_has_object_permission db m u obj = Ok true.
Proof.
  unfold default_permission_classes. simpl.
  destruct (shared_has_object_permission db m u obj) as [[|] | e]; simpl;
    [reflexivity | discriminate..].
Qed.

Lemma initial_db_refs (us : list User) : db_refs (initial_db us).
Proof. constructor; simpl; intros s []. Qed.

Lemma update_or_create_refs db now t u p db' s created :
  db_refs db -> In t (tasks db) -> In u (users db) -> owner_id t <> user_pk u ->
  update_or_create db now t u p = Ok (db', s, created) -> db_refs db'.
Proof.
  intros [Rt Ru] Ht Hu Hne. unfold update_or_create.
  destruct (get _ _) as [s0 | e] eqn:G.
  - intros [= <- <- <-]. apply get_Ok in G as (Hin & _ & _).
    constructor; simpl; intros x Hx;
      (apply in_map_replace in Hx as [Hx | [-> _]];
       [auto | simpl; auto]).
  - destruct e; try discriminate. intros [= <- <- <-].
    constructor; simpl; intros x Hx;
      (apply in_app_iff in Hx as [Hx | [<- | []]]; [auto | simpl; eauto]).
Qed.

Lemma delete_share_refs db s : db_refs db -> db_refs (delete_share db s).
Proof.
  intros [Rt Ru]. constructor; simpl; intros x Hx;
    apply filter_In in Hx as [Hx _]; auto.
Qed.

Lemma delete_task_refs db t : db_refs db -> db_refs (delete_task db t).
Proof.
  intros [Rt Ru]. constructor; simpl; intros x Hx;
    apply filter_In in Hx as [Hx N]; [|auto].
  destruct (Rt x Hx) as (t0 & Ht0 & E & O). exists t0. repeat split; try assumption.
  apply filter_In. split; [exact Ht0|]. rewrite E. exact N.
Qed.

Lemma task_create_refs db now u v : db_refs db -> db_refs (fst (task_create db now u v)).
Proof.
  intros [Rt Ru]. constructor; simpl; intros x Hx; [|auto].
  destruct (Rt x Hx) as (t0 & Ht0 & E). exists t0. split; [|exact E].
  apply in_app_iff. left. exact Ht0.
Qed.

Lemma task_update_refs db now t v :
  db_ok db -> db_refs db -> In t (tasks db) -> db_refs (fst (task_update db now t v)).
Proof.
  intros Hok [Rt Ru] Ht. constructor; simpl; intros x Hx; [|auto].
  destruct (Rt x Hx) as (t0 & Ht0 & E & O).
  destruct (task_pk t0 =? task_pk t) eqn:P.
  - apply Z.eqb_eq in P.
    pose proof (NoDup_map_inj task_pk _ t0 t (ok_task_pk _ Hok) Ht0 Ht P) as ->.
    eexists. split; [|split].
    + apply in_map_iff. exists t. split; [|exact Ht]. rewrite Z.eqb_refl. reflexivity.
    + simpl. exact E.
    + simpl. exact O.
  - exists t0. repeat split; try assumption.
    apply in_map_iff. exists t0. rewrite P. auto.
Qed.

Section Integrity.

Variable EmailField : string -> option string.

Lemma handler_refs db now ru a db' resp :
  db_ok db -> db_refs db ->
  match a with
  | A_list => list_ db ru
  | A_create d => create db now ru d
  | A_retrieve pk => retrieve db ru pk
  | A_update pk d => update db now ru pk d
  | A_partial_update pk d => partial_update db now ru pk d
  | A_destroy pk => destroy db ru pk
  | A_share pk d => share EmailField db now ru pk d
  | A_shares pk => shares db ru pk
  | A_revoke_share pk user_id => revoke_share db ru pk user_id
  end = Ok (db', resp) ->
  db_refs db'.
Proof.
  intros Hok Hrefs H.
  assert (W : forall m partial pk d,
             write_task m partial db now ru pk d = Ok (db', resp) -> db_refs db').
  { intros m partial pk d X. unfold write_task in X.
    bind_inv X as u. bind_inv X as instance.
    apply get_object_Ok in Einstance as (Hi & _).
    destruct (task_is_valid partial d) as [v | errors].
    - destruct (task_update db now instance v) as [db1 t1] eqn:U.
      injection X as <- _. change db1 with (fst (db1, t1)). rewrite <- U.
      apply task_update_refs; assumption.
    - injection X as <- _. exact Hrefs. }
  destruct a.
  - unfold list_ in H. bind_inv H as u. injection H as <- _. exact Hrefs.
  - unfold create in H. bind_inv H as u.
    destruct (task_is_valid false d) as [v | errors].
    + destruct (task_create db now u v) as [db1 t1] eqn:U.
      injection H as <- _. change db1 with (fst (db1, t1)). rewrite <- U.
      apply task_create_refs. exact Hrefs.
    + injection H as <- _. exact Hrefs.
  - unfold retrieve in H. bind_inv H as u. bind_inv H as t.
    injection H as <- _. exact Hrefs.
  - eapply W; eauto.
  - eapply W; eauto.
  - unfold destroy in H. bind_inv H as u. bind_inv H as t.
    destruct (negb _); injection H as <- _; [exact Hrefs|].
    apply delete_task_refs. exact Hrefs.
  - unfold share in H. bind_inv H as u. bind_inv H as task. bind_inv H as valid.
    apply get_object_Ok in Etask as (Ht & _ & _ & C).
    apply check_share_permissions in C.
    destruct valid as [v | errors]; [|injection H as <- _; exact Hrefs].
    destruct (get _ (users db)) as [w | e] eqn:G.
    + destruct (User_eq w u) eqn:Q; [injection H as <- _; exact Hrefs|].
      bind_inv H as r. destruct r as [[db1 s] created]. injection H as <- _.
      apply get_Ok in G as (Hw & _ & _).
      apply (update_or_create_refs db now task w (permission_v v) db1 s created);
        try assumption.
      rewrite C. intros X. unfold User_eq in Q. apply Z.eqb_neq in Q.
      apply Q. symmetry. exact X.
    + destruct e; try discriminate. injection H as <- _. exact Hrefs.
  - unfold shares in H. bind_inv H as u. bind_inv H as t.
    injection H as <- _. exact Hrefs.
  - unfold revoke_share in H. bind_inv H as u. bind_inv H as t.
    destruct (get _ _) as [s | e].
    + injection H as <- _. apply delete_share_refs. exact Hrefs.
    + destruct e; try discriminate. injection H as <- _. exact Hrefs.
Qed.

Lemma dispatch_refs db now ru a :
  db_ok db -> db_refs db -> db_refs (fst (dispatch EmailField db now ru a)).
Proof.
  intros Hok Hrefs. unfold dispatch.
  match goal with
  | |- context [match ?r with Ok x => x | Raise e => _ end] =>
      destruct r as [[db' resp] | e] eqn:H
  end; simpl; [|exact Hrefs].
  eapply handler_refs; eauto.
Qed.

Lemma reachable_refs db : reachable EmailField db -> db_refs db.
Proof.
  induction 1 as [us Hus | db now ru a Hr IH].
  - apply initial_db_refs.
  - apply dispatch_refs; [apply (reachable_ok _ _ Hr) | exact IH].
Qed.

(** The users table is the one of the initial database. *)
Lemma dispatch_users db now ru a :
  users (fst (dispatch EmailField db now ru a)) = users db.
Proof.
  unfold dispatch.
  match goal with
  | |- context [match ?r with Ok x => x | Raise e => _ end] =>
      destruct r as [[db' resp] | e] eqn:H
  end; simpl; [|reflexivity].
  destruct a.
  - unfold list_ in H. bind_inv H as u. injection H as <- _. reflexivity.
  - unfold create in H. bind_inv H as u.
    destruct (task_is_valid false d); injection H as <- _; reflexivity.
  - unfold retrieve in H. bind_inv H as u. bind_inv H as t.
    injection H as <- _. reflexivity.
  - unfold update, write_task in H. bind_inv H as u. bind_inv H as t.
    destruct (task_is_valid false d); injection H as <- _; reflexivity.
  - unfold partial_update, write_task in H. bind_inv H as u. bind_inv H as t.
    destruct (task_is_valid true d); injection H as <- _; reflexivity.
  - unfold destroy in H. bind_inv H as u. bind_inv H as t.
    destruct (negb _); injection H as <- _; reflexivity.
  - unfold share in H. bind_inv H as u. bind_inv H as task. bind_inv H as valid.
    destruct valid as [v | errors]; [|injection H as <- _; reflexivity].
    destruct (get _ (users db)) as [w | e].
    + destruct (User_eq w u); [injection H as <- _; reflexivity|].
      bind_inv H as r. destruct r as [[db1 s] created]. injection H as <- _.
      unfold update_or_create in Er.
      destruct (get _ _) as [s0 | e]; [|destruct e; try discriminate];
        injection Er as <- _ _; reflexivity.
    + destruct e; try discriminate. injection H as <- _. reflexivity.
  - unfold shares in H. bind_inv H as u. bind_inv H as t.
    injection H as <- _. reflexivity.
  - unfold revoke_share in H. bind_inv H as u. bind_inv H as t.
    destruct (get _ _) as [s | e].
    + injection H as <- _. reflexivity.
    + destruct e; try discriminate. injection H as <- _. reflexivity.
Qed.

End Integrity.

(* ------------------------------------------------------------------ *)
(** ** What a request can change *)

Lemma tasks_step_same db db' :
  tasks db' = tasks db -> task_seq db' = task_seq db -> tasks_step db db'.
Proof.
  intros E1 E2. split; [lia|]. intros t' Ht'. left. exists t'.
  rewrite E1 in Ht'. auto.
Qed.

Lemma tasks_step_update db now t v :
  db_ok db -> In t (tasks db) -> tasks_step db (fst (task_update db now t v)).
Proof.
  intros Hok Ht. split; [simpl; lia|]. simpl. intros t' Ht'. left.
  apply in_map_replace in Ht' as [Ht' | [-> _]].
  - exists t'. auto.
  - exists t. simpl. auto.
Qed.

Lemma tasks_step_create db now u v : tasks_step db (fst (task_create db now u v)).
Proof.
  split; [simpl; lia|]. simpl. intros t' Ht'.
  apply in_app_iff in Ht' as [Ht' | [<- | []]].
  - left. exists t'. auto.
  - right. reflexivity.
Qed.

Lemma tasks_step_delete db t : tasks_step db (delete_task db t).
Proof.
  split; [simpl; lia|]. simpl. intros t' Ht'. left.
  apply filter_In in Ht' as [Ht' _]. exists t'. auto.
Qed.

Lemma update_or_create_tasks db now t u p db' s created :
  update_or_create db now t u p = Ok (db', s, created) ->
  tasks db' = tasks db /\ task_seq db' = task_seq db.
Proof.
  unfold update_or_create.
  destruct (get _ _) as [s0 | e]; [|destruct e; try discriminate];
    intros [= <- _ _]; auto.
Qed.

Section Steps.

Variable EmailField : string -> option string.

Lemma dispatch_tasks_step db now ru a :
  db_ok db -> tasks_step db (fst (dispatch EmailField db now ru a)).
Proof.
  intros Hok. unfold dispatch.
  match goal with
  | |- context [match ?r with Ok x => x | Raise e => _ end] =>
      destruct r as [[db' resp] | e] eqn:H
  end; simpl; [|apply tasks_step_same; reflexivity].
  assert (W : forall m partial pk d,
             write_task m partial db now ru pk d = Ok (db', resp) -> tasks_step db db').
  { intros m partial pk d X. unfold write_task in X.
    bind_inv X as u. bind_inv X as instance.
    apply get_object_Ok in Einstance as (Hi & _).
    destruct (task_is_valid partial d) as [v | errors].
    - destruct (task_update db now instance v) as [db1 t1] eqn:U.
      injection X as <- _. change db1 with (fst (db1, t1)). rewrite <- U.
      apply tasks_step_update; assumption.
    - injection X as <- _. apply tasks_step_same; reflexivity. }
  destruct a.
  - unfold list_ in H. bind_inv H as u. injection H as <- _.
    apply tasks_step_same; reflexivity.
  - unfold create in H. bind_inv H as u.
    destruct (task_is_valid false d) as [v | errors].
    + destruct (task_create db now u v) as [db1 t1] eqn:U.
      injection H as <- _. change db1 with (fst (db1, t1)). rewrite <- U.
      apply tasks_step_create.
    + injection H as <- _. apply tasks_step_same; reflexivity.
  - unfold retrieve in H. bind_inv H as u. bind_inv H as t.
    injection H as <- _. apply tasks_step_same; reflexivity.
  - eapply W; eauto.
  - eapply W; eauto.
  - unfold destroy in H. bind_inv H as u. bind_inv H as t.
    destruct (negb _); injection H as <- _.
    + apply tasks_step_same; reflexivity.
    + apply tasks_step_delete.
  - unfold share in H. bind_inv H as u. bind_inv H as task. bind_inv H as valid.
    destruct valid as [v | errors];
      [|injection H as <- _; apply tasks_step_same; reflexivity].
    destruct (get _ (users db)) as [w | e].
    + destruct (User_eq w u);
        [injection H as <- _; apply tasks_step_same; reflexivity|].
      bind_inv H as r. destruct r as [[db1 s] created]. injection H as <- _.
      apply update_or_create_tasks in Er as [E1 E2]. apply tasks_step_same; assumption.
    + destruct e; try discriminate. injection H as <- _.
      apply tasks_step_same; reflexivity.
  - unfold shares in H. bind_inv H as u. bind_inv H as t.
    injection H as <- _. apply tasks_step_same; reflexivity.
  - unfold revoke_share in H. bind_inv H as u. bind_inv H as t.
    destruct (get _ _) as [s | e].
    + injection H as <- _. apply tasks_step_same; reflexivity.
    + destruct e; try discriminate. injection H as <- _.
      apply tasks_step_same; reflexivity.
Qed.

(** Over a run: the tasks with an old key come from the tasks at the
    start, with their owner and creation instant. *)
Lemma run_tasks db0 reqs db :
  db_ok db -> task_seq db0 <= task_seq db ->
  (forall t', In t' (tasks db) -> task_pk t' < task_seq db0 ->
     exists t, In t (tasks db0) /\ task_pk t = task_pk t'
               /\ owner_id t = owner_id t' /\ created_at t = created_at t') ->
  forall t', In t' (tasks (run EmailField db reqs)) -> task_pk t' < task_seq db0 ->
    exists t, In t (tasks db0) /\ task_pk t = task_pk t'
              /\ owner_id t = owner_id t' /\ created_at t = created_at t'.
Proof.
  revert db. induction reqs as [|[[now ru] a] reqs IH]; simpl; intros db Hok Hseq Q.
  - exact Q.
  - destruct (dispatch_tasks_step db now ru a Hok) as [S1 S2].
    apply IH.
    + apply dispatch_ok. exact Hok.
    + lia.
    + intros t' Ht' Hlt. destruct (S2 t' Ht') as [(t1 & Ht1 & E & O & C) | F].
      * destruct (Q t1 Ht1 ltac:(lia)) as (t & Ht & E' & O' & C').
        exists t. repeat split; try assumption; congruence.
      * lia.
Qed.

End Steps.

(** What a user without write access leaves alone. *)
Lemma no_edit_denied db m u t :
  db_ok db -> owner_id t <> user_pk u ->
  (forall s, In s (shares_of db t u) -> permission s = VIEW) ->
  SAFE_METHODS m = false ->
  shared_has_object_permission db m u t = Ok false.
Proof.
  intros Hok O V Sm.
  destruct (shared_permission_cases db m u t Hok)
    as [[O' P] | [(_ & F & P) | (_ & s & F & P)]]; rewrite P.
  - contradiction.
  - reflexivity.
  - rewrite (V s) by (rewrite F; left; reflexivity). rewrite Sm. reflexivity.
Qed.

Lemma filter_filter_imp {A} (p q : A -> bool) (l : list A) :
  (forall x, In x l -> p x = true -> q x = true) ->
  filter p (filter q l) = filter p l.
Proof.
  induction l as [|a l IH]; simpl; intros H; [reflexivity|].
  destruct (q a) eqn:Q; simpl.
  - rewrite IH by auto. reflexivity.
  - rewrite IH by auto. destruct (p a) eqn:P; [|reflexivity].
    rewrite (H a) in Q by auto. discriminate Q.
Qed.

Lemma filter_map_frame {A} (p : A -> bool) (g : A -> A) (l : list A) :
  (forall r, In r l -> g r = r \/ (p r = false /\ p (g r) = false)) ->
  filter p (map g l) = filter p l.
Proof.
  induction l as [|a l IH]; simpl; intros H; [reflexivity|].
  rewrite IH by auto.
  destruct (H a (or_introl eq_refl)) as [-> | [-> ->]]; reflexivity.
Qed.

Lemma kept_same db db' t :
  In t (tasks db) -> tasks db' = tasks db -> task_shares db' = task_shares db ->
  kept db db' t.
Proof.
  intros Ht E1 E2. unfold kept, task_shares_of. rewrite E1, E2. auto.
Qed.

Lemma kept_update db now obj v t :
  In t (tasks db) -> task_pk obj <> task_pk t ->
  kept db (fst (task_update db now obj v)) t.
Proof.
  intros Ht N. split; [|reflexivity]. simpl. apply in_map_iff. exists t.
  split; [|exact Ht].
  destruct (task_pk t =? task_pk obj) eqn:E; [|reflexivity].
  apply Z.eqb_eq in E. congruence.
Qed.

Lemma kept_create db now u v t :
  In t (tasks db) -> kept db (fst (task_create db now u v)) t.
Proof.
  intros Ht. split; [|reflexivity]. simpl. apply in_app_iff. left. exact Ht.
Qed.

Lemma kept_delete_task db obj t :
  In t (tasks db) -> task_pk obj <> task_pk t -> kept db (delete_task db obj) t.
Proof.
  intros Ht N. split.
  - simpl. apply filter_In. split; [exact Ht|].
    apply negb_true_iff, Z.eqb_neq. congruence.
  - unfold task_shares_of. simpl. apply filter_filter_imp.
    intros x _ P. apply Z.eqb_eq in P. apply negb_true_iff, Z.eqb_neq. congruence.
Qed.

Lemma kept_delete_share db s t :
  In t (tasks db) -> task_id s <> task_pk t -> In s (task_shares db) -> db_ok db ->
  kept db (delete_share db s) t.
Proof.
  intros Ht N Hs Hok. split; [exact Ht|].
  unfold task_shares_of. simpl. apply filter_filter_imp.
  intros x Hx P. apply Z.eqb_eq in P. apply negb_true_iff, Z.eqb_neq. intros E.
  rewrite (NoDup_map_inj share_pk _ x s (ok_share_pk _ Hok) Hx Hs E) in P.
  contradiction.
Qed.

Lemma kept_upsert db now obj g p db' s created t :
  db_ok db -> In t (tasks db) -> task_pk obj <> task_pk t ->
  update_or_create db now obj g p = Ok (db', s, created) ->
  kept db db' t.
Proof.
  intros Hok Ht N. unfold update_or_create.
  destruct (get _ _) as [s0 | e] eqn:G.
  - intros [= <- <- <-]. apply get_Ok in G as (Hin & P & _).
    apply share_of_true in P as [P1 _].
    split; [exact Ht|]. unfold task_shares_of. simpl. apply filter_map_frame.
    intros r Hr. destruct (share_pk r =? share_pk s0) eqn:E; [|left; reflexivity].
    right. apply Z.eqb_eq in E.
    rewrite (NoDup_map_inj share_pk _ r s0 (ok_share_pk _ Hok) Hr Hin E).
    simpl. split; apply Z.eqb_neq; congruence.
  - destruct e; try discriminate. intros [= <- <- <-].
    split; [exact Ht|]. unfold task_shares_of. simpl.
    rewrite filter_app. simpl.
    destruct (task_pk obj =? task_pk t) eqn:E.
    + apply Z.eqb_eq in E. contradiction.
    + apply app_nil_r.
Qed.

(* ------------------------------------------------------------------ *)
(** ** Stripping *)

Section Dropping.

Variable P : list (list ascii).
Hypothesis P_nonempty : forall p, In p P -> p <> [].

Lemma drop_prefix_Some p l r : Str.drop_prefix p l = Some r <-> l = (p ++ r)%list.
Proof.
  revert l. induction p as [|a p IH]; intros l; simpl.
  - split; [intros [= ->]; reflexivity | intros ->; reflexivity].
  - destruct l as [|b l]; [split; discriminate|].
    destruct (Ascii.eqb a b) eqn:E.
    + apply Ascii.eqb_eq in E. subst b. rewrite IH. split; [intros ->; reflexivity|].
      intros [= ->]. reflexivity.
    + apply Ascii.eqb_neq in E. split; [discriminate|]. intros [= -> _]. contradiction.
Qed.

Lemma drop_one_Some ps l r :
  Str.drop_one ps l = Some r -> exists p, In p ps /\ l = (p ++ r)%list.
Proof.
  induction ps as [|p ps IH]; simpl; [discriminate|].
  destruct (Str.drop_prefix p l) as [r'|] eqn:E.
  - intros [= ->]. apply drop_prefix_Some in E. exists p. auto.
  - intros H. destruct (IH H) as (q & Hq & Eq). exists q. auto.
Qed.

Lemma drop_one_None ps l :
  Str.drop_one ps l = None <-> forall p r, In p ps -> l <> (p ++ r)%list.
Proof.
  induction ps as [|p ps IH]; simpl.
  - split; [intros _ p r [] | reflexivity].
  - destruct (Str.drop_prefix p l) as [r'|] eqn:E.
    + split; [discriminate|]. intros N. exfalso.
      apply (N p r'); [left; reflexivity | apply drop_prefix_Some; exact E].
    + rewrite IH. split.
      * intros N q r [<- | Hq]; [|apply N; exact Hq].
        intros X. apply drop_prefix_Some in X. congruence.
      * intros N q r Hq. apply N. right. exact Hq.
Qed.

(** A text that starts with no pattern has no prefix that does. *)
Lemma drop_one_prefix ps x w :
  Str.drop_one ps (x ++ w) = None -> Str.drop_one ps x = None.
Proof.
  rewrite !drop_one_None. intros N p r Hp ->. apply (N p (r ++ w)%list Hp).
  rewrite app_assoc. reflexivity.
Qed.

Lemma drop_all_suffix n l : exists w, l = (w ++ Str.drop_all P n l)%list.
Proof.
  revert l. induction n as [|n IH]; intros l; simpl; [exists []; reflexivity|].
  destruct (Str.drop_one P l) as [r|] eqn:E; [|exists []; reflexivity].
  apply drop_one_Some in E as (p & _ & ->).
  destruct (IH r) as [w Hw]. exists (p ++ w)%list.
  rewrite <- app_assoc, <- Hw. reflexivity.
Qed.

Lemma drop_all_done n l :
  (List.length l <= n)%nat -> Str.drop_one P (Str.drop_all P n l) = None.
Proof.
  revert l. induction n as [|n IH]; intros l L; simpl.
  - destruct l; [|simpl in L; lia]. apply drop_one_None. intros p r Hp E.
    symmetry in E. apply app_eq_nil in E as [-> _]. exact (P_nonempty [] Hp eq_refl).
  - destruct (Str.drop_one P l) as [r|] eqn:E; [|exact E].
    apply IH. apply drop_one_Some in E as (p & Hp & ->).
    rewrite length_app in L. pose proof (P_nonempty p Hp).
    destruct p; [contradiction|]. simpl in L. lia.
Qed.

Lemma drop_all_fixed n l : Str.drop_one P l = None -> Str.drop_all P n l = l.
Proof. intros E. destruct n; simpl; [|rewrite E]; reflexivity. Qed.

End Dropping.

Lemma spaces_nonempty p : In p Str.spaces -> p <> [].
Proof.
  assert (F : forallb (fun p => match p with [] => false | _ => true end) Str.spaces = true)
    by (vm_compute; reflexivity).
  rewrite forallb_forall in F. intros H ->. specialize (F [] H). discriminate F.
Qed.

Lemma reversed_spaces_nonempty p : In p (map (@rev ascii) Str.spaces) -> p <> [].
Proof.
  intros H E. apply in_map_iff in H as (q & <- & Hq).
  apply (spaces_nonempty q Hq). rewrite <- (rev_involutive q), E. reflexivity.
Qed.

Lemma lstrip_bytes_done l : Str.drop_one Str.spaces (Str.lstrip_bytes l) = None.
Proof. apply (drop_all_done _ spaces_nonempty). lia. Qed.

Lemma rstrip_bytes_prefix l : exists w, l = (Str.rstrip_bytes l ++ w)%list.
Proof.
  unfold Str.rstrip_bytes.
  destruct (drop_all_suffix (map (@rev ascii) Str.spaces) (List.length l) (rev l))
    as [w Hw].
  exists (rev w). rewrite <- rev_app_distr, <- Hw, rev_involutive. reflexivity.
Qed.

Lemma rstrip_bytes_done l :
  Str.drop_one (map (@rev ascii) Str.spaces) (rev (Str.rstrip_bytes l)) = None.
Proof.
  unfold Str.rstrip_bytes. rewrite rev_involutive.
  apply (drop_all_done _ reversed_spaces_nonempty). rewrite length_rev. lia.
Qed.

(** What [strip] returns has no white space left at either end: both
    passes leave it as it is. *)
Lemma strip_bytes_fixed l :
  let z := Str.rstrip_bytes (Str.lstrip_bytes l) in
  Str.lstrip_bytes z = z /\ Str.rstrip_bytes z = z.
Proof.
  intros z. split.
  - apply drop_all_fixed.
    destruct (rstrip_bytes_prefix (Str.lstrip_bytes l)) as [w Hw]. fold z in Hw.
    apply (drop_one_prefix _ z w). rewrite <- Hw. apply lstrip_bytes_done.
  - unfold Str.rstrip_bytes at 1.
    rewrite (drop_all_fixed _ _ _ (rstrip_bytes_done (Str.lstrip_bytes l))).
    apply rev_involutive.
Qed.

Lemma strip_idempotent s : Str.strip (Str.strip s) = Str.strip s.
Proof.
  unfold Str.strip. rewrite list_ascii_of_string_of_list_ascii.
  destruct (strip_bytes_fixed (list_ascii_of_string s)) as [L R].
  rewrite L, R. reflexivity.
Qed.

Lemma truthy_false s : Str.truthy s = false <-> s = EmptyString.
Proof. destruct s; simpl; split; congruence. Qed.

Lemma eqb_empty s : Str.eqb s EmptyString = negb (Str.truthy s).
Proof. destruct s; reflexivity. Qed.

Lemma strip_of_empty : Str.strip EmptyString = EmptyString.
Proof. reflexivity. Qed.

(** [validate_title] looks at the stripped text only. *)
Lemma validate_title_cases value :
  validate_title value =
  if Str.truthy (Str.strip value) then inl (Str.strip value)
  else inr (ValidationError "Title cannot be empty.").
Proof.
  unfold validate_title. destruct (Str.truthy (Str.strip value)) eqn:T.
  - destruct value; [rewrite strip_of_empty in T; discriminate T | reflexivity].
  - rewrite orb_true_r. reflexivity.
Qed.

(** The field class: blank, or what the validators say of the stripped
    text. *)
Lemma CharField_cases max_length data :
  CharField max_length data =
  if Str.truthy (Str.strip data) then
    match run_validators max_length (Str.strip data) with
    | [] => inl (Str.strip data)
    | errors => inr errors
    end
  else inr [Blank].
Proof.
  unfold CharField. rewrite !eqb_empty.
  destruct (Str.truthy (Str.strip data)) eqn:T.
  - destruct data; [rewrite strip_of_empty in T; discriminate T | reflexivity].
  - rewrite orb_true_r. reflexivity.
Qed.

(** What the field class lets through, [validate_title] lets through
    unchanged. *)
Lemma CharField_validate_title max_length data value :
  CharField max_length data = inl value ->
  value = Str.strip data /\ validate_title value = inl value.
Proof.
  rewrite CharField_cases. destruct (Str.truthy (Str.strip data)) eqn:T; [|discriminate].
  destruct (run_validators _ _); [|discriminate]. intros [= <-].
  split; [reflexivity|].
  rewrite validate_title_cases, strip_idempotent, T. reflexivity.
Qed.

Lemma run_validators_errors max_length value e :
  In e (run_validators max_length value) -> e = MaxLength max_length \/ e = NullCharacters.
Proof.
  unfold run_validators. intros H. apply in_app_iff in H as [H | H].
  - destruct (max_length <? Str.len value); [destruct H as [<- | []]; auto | destruct H].
  - destruct (Str.contains 0 value); [destruct H as [<- | []]; auto | destruct H].
Qed.

(** The validation of a body, case by case on its title. *)
Lemma task_is_valid_cases partial d :
  task_is_valid partial d =
  match title_in d with
  | None => if partial then inl d else inr [("title", [Required])]
  | Some data =>
      if Str.truthy (Str.strip data) then
        match run_validators title_max_length (Str.strip data) with
        | [] => inl {| title_in := Some (Str.strip data);
                       description_in := description_in d;
                       status_in := status_in d;
                       priority_in := priority_in d;
                       deadline_in := deadline_in d |}
        | errors => inr [("title", errors)]
        end
      else inr [("title", [Blank])]
  end.
Proof.
  unfold task_is_valid. destruct (title_in d) as [data|]; [|reflexivity].
  destruct (CharField title_max_length data) as [value | errors] eqn:C.
  - destruct (CharField_validate_title _ _ _ C) as [-> V]. rewrite V.
    rewrite CharField_cases in C.
    destruct (Str.truthy (Str.strip data)); [|discriminate C].
    destruct (run_validators _ _); [reflexivity | discriminate C].
  - rewrite CharField_cases in C.
    destruct (Str.truthy (Str.strip data)); [|injection C as <-; reflexivity].
    destruct (run_validators _ _); [discriminate C | injection C as <-; reflexivity].
Qed.

(* ------------------------------------------------------------------ *)
(** ** The loop of the scan *)

Lemma related_user_found db pk u :
  NoDup (map user_pk (users db)) -> In u (users db) -> user_pk u = pk ->
  related_user db pk = Ok u.
Proof.
  intros Hnd Hu E. unfold related_user.
  apply (get_key_In user_pk _ pk); try assumption.
  - intros y P. apply Z.eqb_eq. exact P.
  - apply Z.eqb_eq. exact E.
Qed.

Lemma emails_of_stored db ss :
  NoDup (map user_pk (users db)) ->
  (forall s, In s ss -> exists u, In u (users db) /\ user_pk u = shared_with_id s) ->
  exists es, emails_of db ss = Ok es /\ List.length es = List.length ss.
Proof.
  intros Hnd. induction ss as [|s ss IH]; simpl; intros H.
  - exists []. auto.
  - destruct (H s (or_introl eq_refl)) as (u & Hu & E).
    rewrite (related_user_found db _ u Hnd Hu E). simpl.
    destruct IH as (es & -> & L); [auto|]. simpl.
    exists (email u :: es). simpl. auto.
Qed.

Section Loop.

Variable db : DB.
Variable now : Z.
Hypothesis users_pk : NoDup (map user_pk (users db)).
Hypothesis owners : owners_stored db.
Hypothesis grantees :
  forall s, In s (task_shares db) ->
    exists u, In u (users db) /\ user_pk u = shared_with_id s.

Lemma remind_deliver n t d :
  In t (tasks db) -> deadline t = Some d ->
  remind deliver deliver_bulk db now n t =
  Ok (n + 1 + Z.of_nat (List.length (task_shares_of db t))).
Proof.
  intros Ht Hd. unfold remind, reminder. rewrite Hd. simpl bind.
  destruct (owners t Ht) as (o & Ho & E).
  rewrite (related_user_found db _ o users_pk Ho E). simpl bind.
  destruct (emails_of_stored db (task_shares_of db t) users_pk) as (es & Ees & L).
  { intros s Hs. apply grantees. apply filter_In in Hs. tauto. }
  unfold task_shares_of in Ees. rewrite Ees. simpl bind.
  rewrite <- L. destruct es as [|e es]; simpl bind.
  - f_equal. simpl. lia.
  - unfold deliver_bulk. f_equal.
Qed.

Lemma remind_fake n t d :
  In t (tasks db) -> deadline t = Some d ->
  remind fake_send_email fake_send_bulk_email db now n t =
  match task_shares_of db t with
  | [] => Ok n
  | _ :: _ => Raise TypeError
  end.
Proof.
  intros Ht Hd. unfold remind, reminder. rewrite Hd. simpl bind.
  destruct (owners t Ht) as (o & Ho & E).
  rewrite (related_user_found db _ o users_pk Ho E). simpl bind.
  destruct (emails_of_stored db (task_shares_of db t) users_pk) as (es & Ees & L).
  { intros s Hs. apply grantees. apply filter_In in Hs. tauto. }
  unfold task_shares_of in *. rewrite Ees. simpl bind.
  destruct es as [|e es], (filter _ (task_shares db)) as [|x xs];
    try discriminate L; reflexivity.
Qed.

Lemma remind_all_deliver ts n :
  (forall t, In t ts -> In t (tasks db) /\ exists d, deadline t = Some d) ->
  remind_all deliver deliver_bulk db now n ts = Ok (n + recipients db ts).
Proof.
  revert n. induction ts as [|t ts IH]; intros n H.
  - simpl. f_equal. lia.
  - destruct (H t (or_introl eq_refl)) as (Ht & d & Hd).
    change (recipients db (t :: ts))
      with (1 + Z.of_nat (List.length (task_shares_of db t)) + recipients db ts).
    simpl remind_all.
    rewrite (remind_deliver n t d Ht Hd). simpl bind.
    rewrite IH by (intros x Hx; apply H; right; exact Hx). f_equal. lia.
Qed.

Lemma remind_all_fake ts n :
  (forall t, In t ts -> In t (tasks db) /\ exists d, deadline t = Some d) ->
  remind_all fake_send_email fake_send_bulk_email db now n ts =
  if forallb (fun t => match task_shares_of db t with [] => true | _ :: _ => false end) ts
  then Ok n else Raise TypeError.
Proof.
  revert n. induction ts as [|t ts IH]; simpl; intros n H; [reflexivity|].
  destruct (H t (or_introl eq_refl)) as (Ht & d & Hd).
  rewrite (remind_fake n t d Ht Hd).
  destruct (task_shares_of db t); simpl; [|reflexivity].
  apply IH. auto.
Qed.

Lemma candidates_have_deadlines t :
  In t (tasks_due_soon db now) -> In t (tasks db) /\ exists d, deadline t = Some d.
Proof.
  intros H. apply tasks_due_soon_In in H as (Ht & d & Hd & _). eauto.
Qed.

End Loop.

(* ------------------------------------------------------------------ *)
(** ** The order of a listing *)

Section Ordering.

Context {A : Type}.
Variable key : A -> Z.

Lemma insert_desc_In x l y : In y (insert_desc key x l) <-> y = x \/ In y l.
Proof.
  induction l as [|a l IH]; simpl.
  - split; [intros [<- | []]; auto | intros [-> | []]; auto].
  - destruct (key a <=? key x); simpl; [split; intros [<- | H]; auto|].
    rewrite IH. split; [intros [<- | [-> | H]] | intros [-> | [<- | H]]]; auto.
Qed.

Lemma order_by_desc_In l y : In y (order_by_desc key l) <-> In y l.
Proof.
  induction l as [|a l IH]; simpl; [tauto|].
  rewrite insert_desc_In, IH. split; intros [H | H]; auto.
Qed.

Lemma insert_desc_NoDup x l : ~ In x l -> NoDup l -> NoDup (insert_desc key x l).
Proof.
  induction l as [|a l IH]; simpl; intros N D.
  - constructor; [intros [] | constructor].
  - destruct (key a <=? key x); [constructor; assumption|].
    inversion D as [|? ? Na Dl]; subst. constructor.
    + rewrite insert_desc_In. intros [-> | H]; [apply N; left; reflexivity | exact (Na H)].
    + apply IH; [intros H; apply N; right; exact H | exact Dl].
Qed.

Lemma order_by_desc_NoDup l : NoDup l -> NoDup (order_by_desc key l).
Proof.
  induction l as [|a l IH]; simpl; intros D; [constructor|].
  inversion D as [|? ? Na Dl]; subst. apply insert_desc_NoDup.
  - rewrite order_by_desc_In. exact Na.
  - apply IH. exact Dl.
Qed.

Lemma insert_desc_sorted x l :
  latest_first key l -> latest_first key (insert_desc key x l).
Proof.
  unfold latest_first. induction l as [|a l IH]; simpl; intros S.
  - constructor; constructor.
  - inversion S as [|? ? Sl Fa]; subst.
    destruct (key a <=? key x) eqn:E.
    + apply Z.leb_le in E. constructor; [exact S|]. constructor; [exact E|].
      rewrite Forall_forall in *. intros b Hb. specialize (Fa b Hb). lia.
    + apply Z.leb_gt in E. constructor; [apply IH; exact Sl|].
      rewrite Forall_forall in *. intros b Hb.
      apply insert_desc_In in Hb as [-> | Hb]; [lia | exact (Fa b Hb)].
Qed.

Lemma order_by_desc_sorted l : latest_first key (order_by_desc key l).
Proof.
  induction l as [|a l IH]; simpl; [constructor|]. apply insert_desc_sorted. exact IH.
Qed.

End Ordering.

(* ------------------------------------------------------------------ *)
(** ** Further properties *)

(** X1.  A request without credentials is answered 401 by every action
    of the viewset and changes nothing.  It is [IsAuthenticated] that
    stops it, and both lists of permission classes name it: the view-level
    checks let such a request through exactly when the list does not. *)
Theorem X1_anonymous_refused (EmailField : string -> option string) db now a :
  dispatch EmailField db now None a =
  (db, {| status_code := 401; data := ExceptionBody NotAuthenticated |})
  /\ (forall cs, check_permissions cs None = Ok tt <-> ~ In IsAuthenticated cs).
Proof.
  split.
  - destruct a; reflexivity.
  - induction cs as [|c cs IH]; simpl.
    + split; [intros _ [] | reflexivity].
    + destruct c; simpl.
      * split; [discriminate|]. intros N. exfalso. apply N. left. reflexivity.
      * rewrite IH. split; [intros N [X | X]; [discriminate X | exact (N X)] | auto].
      * rewrite IH. split; [intros N [X | X]; [discriminate X | exact (N X)] | auto].
      * rewrite IH. split; [intros N [X | X]; [discriminate X | exact (N X)] | auto].
Qed.

(** X2.  When the owner revokes the share of a grantee, the answer is 204,
    the table loses the rows of that (task, grantee) pair and no other row,
    tasks and users stay, and from then on every action of the former
    grantee on the task is answered 404. *)
Theorem X2_revoke_share (EmailField : string -> option string) db now o t g s :
  reachable EmailField db ->
  In t (tasks db) -> owner_id t = user_pk o ->
  In s (task_shares db) -> task_id s = task_pk t -> shared_with_id s = user_pk g ->
  user_pk g <> user_pk o ->
  let r := dispatch EmailField db now (Some o) (A_revoke_share (task_pk t) (user_pk g)) in
  snd r = {| status_code := 204; data := NoBody |}
  /\ task_shares (fst r) =
     filter (fun x => negb (share_of (task_pk t) (user_pk g) x)) (task_shares db)
  /\ tasks (fst r) = tasks db /\ users (fst r) = users db
  /\ (forall now' a,
        action_pk a = Some (task_pk t) ->
        dispatch EmailField (fst r) now' (Some g) a =
        (fst r, {| status_code := 404; data := ExceptionBody Http404 |})).
Proof.
  intros Hr Ht Ho Hs E1 E2 Hne r.
  pose proof (reachable_ok _ _ Hr) as Hok.
  assert (G : get (share_of (task_pk t) (user_pk g)) (task_shares db) = Ok s).
  { apply (get_key_In share_key _ (task_pk t, user_pk g)).
    - apply (ok_share_key _ Hok).
    - apply share_of_key.
    - exact Hs.
    - apply share_of_true. auto. }
  assert (R : r = (delete_share db s, {| status_code := 204; data := NoBody |})).
  { unfold r. rewrite (revoke_by_owner EmailField db now o t _ Hok Ht Ho), G.
    reflexivity. }
  assert (F : task_shares (delete_share db s) =
              filter (fun x => negb (share_of (task_pk t) (user_pk g) x)) (task_shares db)).
  { rewrite (delete_share_pair db s Hok Hs), E1, E2. reflexivity. }
  rewrite R. simpl fst. simpl snd.
  split; [reflexivity|]. split; [exact F|]. split; [reflexivity|].
  split; [reflexivity|].
  intros now' a Ha. apply (dispatch_hidden EmailField _ now' g t a); try assumption.
  - apply delete_share_ok. exact Hok.
  - rewrite Ho. intros E. apply Hne. symmetry. exact E.
  - intros (x & Hx & X1 & X2). rewrite F in Hx. apply filter_In in Hx as [_ N].
    apply negb_true_iff in N.
    assert (share_of (task_pk t) (user_pk g) x = true) by (apply share_of_true; auto).
    congruence.
Qed.

(** X3.  Revoking a share that is not there is answered 404 "Share not
    found" and changes nothing. *)
Theorem X3_revoke_absent (EmailField : string -> option string) db now o t user_id :
  reachable EmailField db ->
  In t (tasks db) -> owner_id t = user_pk o ->
  (forall s, In s (task_shares db) -> task_id s = task_pk t ->
             shared_with_id s <> user_id) ->
  dispatch EmailField db now (Some o) (A_revoke_share (task_pk t) user_id) =
  (db, {| status_code := 404; data := Detail "Share not found" [] |}).
Proof.
  intros Hr Ht Ho N. pose proof (reachable_ok _ _ Hr) as Hok.
  rewrite (revoke_by_owner EmailField db now o t _ Hok Ht Ho).
  assert (G : get (share_of (task_pk t) user_id) (task_shares db) = Raise DoesNotExist).
  { apply get_DoesNotExist. intros s Hs.
    destruct (share_of (task_pk t) user_id s) eqn:P; [|reflexivity].
    apply share_of_true in P as [P1 P2]. exfalso. exact (N s Hs P1 P2). }
  rewrite G. reflexivity.
Qed.

(** X4.  When the owner deletes a task, the answer is 204; the task row
    and every share row of the task are gone, the other rows stay; and
    afterwards every action on the key of the task, by anybody, is
    answered 404. *)
Theorem X4_destroy_cascades (EmailField : string -> option string) db now o t :
  reachable EmailField db ->
  In t (tasks db) -> owner_id t = user_pk o ->
  let r := dispatch EmailField db now (Some o) (A_destroy (task_pk t)) in
  snd r = {| status_code := 204; data := NoBody |}
  /\ tasks (fst r) = filter (fun x => negb (task_pk x =? task_pk t)) (tasks db)
  /\ task_shares (fst r) =
     filter (fun s => negb (task_id s =? task_pk t)) (task_shares db)
  /\ users (fst r) = users db
  /\ (forall u now' a,
        action_pk a = Some (task_pk t) ->
        dispatch EmailField (fst r) now' (Some u) a =
        (fst r, {| status_code := 404; data := ExceptionBody Http404 |})).
Proof.
  intros Hr Ht Ho r. pose proof (reachable_ok _ _ Hr) as Hok.
  assert (R : r = (delete_task db t, {| status_code := 204; data := NoBody |})).
  { unfold r. apply destroy_by_owner; assumption. }
  rewrite R. simpl fst. simpl snd. repeat split.
  intros u now' a Ha. apply (dispatch_not_found _ _ _ _ _ (task_pk t)); [|exact Ha].
  intros cs m. apply get_object_missing. intros x Hx. simpl in Hx.
  apply filter_In in Hx as [_ N]. apply negb_true_iff, Z.eqb_neq in N. exact N.
Qed.

(** X5.  The holder of a view share on somebody else's task retrieves it,
    and is refused with 403 on update, partial update, delete, share,
    list of shares and revoke; none of these changes the tables. *)
Theorem X5_view_grantee_read_only (EmailField : string -> option string) db now t g s :
  reachable EmailField db ->
  In t (tasks db) -> In s (task_shares db) ->
  task_id s = task_pk t -> shared_with_id s = user_pk g -> permission s = VIEW ->
  owner_id t <> user_pk g ->
  dispatch EmailField db now (Some g) (A_retrieve (task_pk t)) =
  (db, {| status_code := 200; data := TaskBody t |})
  /\ (forall a,
        action_pk a = Some (task_pk t) -> a <> A_retrieve (task_pk t) ->
        dispatch EmailField db now (Some g) a =
        (db, {| status_code := 403; data := ExceptionBody PermissionDenied |})).
Proof.
  intros Hr Ht Hs E1 E2 Ep Hno. pose proof (reachable_ok _ _ Hr) as Hok.
  assert (Hv : owner_id t = user_pk g \/ has_share db t g).
  { right. exists s. auto. }
  pose proof (fun m => view_share_permission db m t g s Hok Hs E1 E2 Ep Hno) as P.
  pose proof (proj2 (owned_by_false t g) Hno) as O.
  split.
  - unfold dispatch, retrieve. rewrite initial_Some. simpl bind.
    rewrite (get_object_default db GET g t Hok Ht Hv), P. reflexivity.
  - intros a Ha Hn. unfold dispatch.
    destruct a; try discriminate Ha; injection Ha as ->;
      try (exfalso; apply Hn; reflexivity);
      unfold update, partial_update, write_task, destroy, share, shares, revoke_share;
      rewrite initial_Some; simpl bind;
      try (rewrite (get_object_default db _ g t Hok Ht Hv), P; reflexivity);
      rewrite (get_object_share db _ g t Hok Ht Hv), O; reflexivity.
Qed.

(** X6.  After the owner has shared a task with another user, whatever
    share that user held before, the permission of this last call decides
    the user's update: with view it is refused with 403, with edit it goes
    to validation and saving. *)
Theorem X6_last_grant_decides
    (EmailField : string -> option string) db now now' o t g raw v p d :
  reachable EmailField db ->
  In t (tasks db) -> owner_id t = user_pk o ->
  In g (users db) -> user_pk g <> user_pk o ->
  EmailField raw = Some v -> email g = Str.lower v ->
  let db1 := fst (dispatch EmailField db now (Some o)
                    (A_share (task_pk t)
                       {| shared_with_email_in := Some raw;
                          permission_in := Some (Permission_value p) |})) in
  dispatch EmailField db1 now' (Some g) (A_update (task_pk t) d) =
  match p with
  | VIEW => (db1, {| status_code := 403; data := ExceptionBody PermissionDenied |})
  | EDIT =>
      match task_is_valid false d with
      | inl v' => (fst (task_update db1 now' t v'),
                   {| status_code := 200;
                      data := TaskBody (snd (task_update db1 now' t v')) |})
      | inr errors => (db1, validation_failed errors)
      end
  end.
Proof.
  intros Hr Ht Ho Hg Hne Hraw Hm db1.
  pose proof (reachable_ok _ _ Hr) as Hok.
  assert (Hr1 : reachable EmailField db1) by (apply reach_step; exact Hr).
  pose proof (reachable_ok _ _ Hr1) as Hok1.
  destruct (share_upsert EmailField db now o t g raw v p Hok Ht Ho Hg Hne Hraw Hm)
    as (db' & s & c & R & U).
  assert (E : db1 = db') by (unfold db1; rewrite R; reflexivity).
  destruct (upsert_spec _ _ _ _ _ _ _ _ Hok U) as (F & P & _ & _ & Ts).
  rewrite <- E in F, Ts.
  assert (Ht1 : In t (tasks db1)) by (rewrite Ts; exact Ht).
  assert (Hs : In s (task_shares db1)).
  { assert (I : In s (shares_of db1 t g)) by (rewrite F; left; reflexivity).
    apply filter_In in I. tauto. }
  assert (K : task_id s = task_pk t /\ shared_with_id s = user_pk g).
  { assert (I : In s (shares_of db1 t g)) by (rewrite F; left; reflexivity).
    apply filter_In in I as [_ I]. apply share_of_true in I. exact I. }
  destruct K as [K1 K2].
  assert (Hno : owner_id t <> user_pk g).
  { rewrite Ho. intros X. apply Hne. symmetry. exact X. }
  assert (Hv : owner_id t = user_pk g \/ has_share db1 t g).
  { right. exists s. auto. }
  unfold dispatch, update, write_task. rewrite initial_Some. simpl bind.
  rewrite (get_object_default db1 PUT g t Hok1 Ht1 Hv).
  destruct p.
  - rewrite (view_share_permission db1 PUT t g s Hok1 Hs K1 K2 P Hno). reflexivity.
  - rewrite (edit_share_permission db1 PUT t g s Hok1 Hs K1 K2 P). simpl bind.
    destruct (task_is_valid false d); reflexivity.
Qed.

(** X7.  In a reachable state, whoever the permission lets write a task
    (a method that is not safe) it lets through on every method; and
    whoever [CanShareTask] lets through, the permission of the task views
    lets through on every method. *)
Theorem X7_write_implies_read (EmailField : string -> option string) db t u m :
  reachable EmailField db ->
  (SAFE_METHODS m = false ->
   has_object_permission IsTaskOwnerOrSharedWith db m u t = Ok true ->
   forall m', has_object_permission IsTaskOwnerOrSharedWith db m' u t = Ok true)
  /\ (has_object_permission CanShareTask db m u t = Ok true ->
      forall m', has_object_permission IsTaskOwnerOrSharedWith db m' u t = Ok true).
Proof.
  intros Hr. pose proof (reachable_ok _ _ Hr) as Hok. simpl. split.
  - intros Sm P m'.
    destruct (shared_permission_cases db m u t Hok)
      as [[O Q] | [(O & F & Q) | (O & s & F & Q)]]; rewrite Q in P.
    + apply owner_permission. exact O.
    + discriminate P.
    + rewrite Sm in P. simpl in P. injection P as P.
      destruct (shared_permission_cases db m' u t Hok)
        as [[O' Q'] | [(O' & F' & Q') | (O' & s' & F' & Q')]]; rewrite Q'.
      * reflexivity.
      * rewrite F in F'. discriminate F'.
      * rewrite F in F'. injection F' as <-. rewrite P. apply f_equal, orb_true_r.
  - intros [= O] m'. apply owner_permission. apply owned_by_true. exact O.
Qed.

(** X8.  In every state the API reaches, each share row points to a task
    that exists and to a stored user, and that user is not the owner of
    the task: no task is shared with its own owner. *)
Theorem X8_share_rows_sound (EmailField : string -> option string) db s :
  reachable EmailField db -> In s (task_shares db) ->
  (exists t, In t (tasks db) /\ task_pk t = task_id s
             /\ owner_id t <> shared_with_id s)
  /\ (exists u, In u (users db) /\ user_pk u = shared_with_id s).
Proof.
  intros Hr Hs. pose proof (reachable_refs _ _ Hr) as [Rt Ru]. auto.
Qed.

(** X9.  Ownership never passes on: over any run of requests from a
    reachable state, a task that is still there under its key has the
    owner and the creation instant it had at the start; a key is not handed
    out twice. *)
Theorem X9_owner_is_fixed (EmailField : string -> option string) db reqs t t' :
  reachable EmailField db ->
  In t (tasks db) -> In t' (tasks (run EmailField db reqs)) ->
  task_pk t' = task_pk t ->
  owner_id t' = owner_id t /\ created_at t' = created_at t.
Proof.
  intros Hr Ht Ht' E. pose proof (reachable_ok _ _ Hr) as Hok.
  assert (L : task_pk t < task_seq db).
  { pose proof (ok_task_seq _ Hok) as F. rewrite Forall_forall in F.
    apply F. apply in_map. exact Ht. }
  destruct (run_tasks EmailField db reqs db Hok ltac:(lia)
              ltac:(intros x Hx _; exists x; auto) t' Ht' ltac:(lia))
    as (t0 & Ht0 & E0 & O & C).
  assert (t0 = t).
  { apply (NoDup_map_inj task_pk _ t0 t (ok_task_pk _ Hok) Ht0 Ht). congruence. }
  subst t0. auto.
Qed.

(** X10.  A user who is not the owner of a task and holds no edit share
    on it changes nothing of it, whatever the request: afterwards the task
    row is as it was and so are the share rows of the task. *)
Theorem X10_no_write_without_edit
    (EmailField : string -> option string) db now u a t :
  reachable EmailField db ->
  In t (tasks db) -> owner_id t <> user_pk u ->
  (forall s, In s (shares_of db t u) -> permission s = VIEW) ->
  let db' := fst (dispatch EmailField db now (Some u) a) in
  In t (tasks db') /\ task_shares_of db' t = task_shares_of db t.
Proof.
  intros Hr Ht O V db'. pose proof (reachable_ok _ _ Hr) as Hok.
  change (kept db db' t). unfold db', dispatch.
  match goal with
  | |- context [match ?r with Ok x => x | Raise e => _ end] =>
      destruct r as [[db1 resp] | e] eqn:H
  end; simpl fst; [|apply kept_same; auto].
  assert (Other : forall obj, In obj (tasks db) -> obj <> t -> task_pk obj <> task_pk t).
  { intros obj Ho N E. apply N.
    exact (NoDup_map_inj task_pk _ obj t (ok_task_pk _ Hok) Ho Ht E). }
  assert (Deny : forall m obj, SAFE_METHODS m = false ->
             check_object_permissions default_permission_classes db m u obj = Ok tt ->
             obj <> t).
  { intros m obj Sm C ->. apply check_default_permissions in C.
    rewrite (no_edit_denied db m u t Hok O V Sm) in C. discriminate C. }
  assert (Mine : forall m obj,
             check_object_permissions share_permission_classes db m u obj = Ok tt ->
             obj <> t).
  { intros m obj C ->. apply check_share_permissions in C. contradiction. }
  assert (W : forall m partial pk d, SAFE_METHODS m = false ->
             write_task m partial db now (Some u) pk d = Ok (db1, resp) -> kept db db1 t).
  { intros m partial pk d Sm X. unfold write_task in X.
    bind_inv X as w. rewrite initial_Some in Ew. injection Ew as <-.
    bind_inv X as instance.
    apply get_object_Ok in Einstance as (Hi & _ & _ & C).
    destruct (task_is_valid partial d) as [v | errors].
    - destruct (task_update db now instance v) as [db2 t2] eqn:U.
      injection X as <- _. change db2 with (fst (db2, t2)). rewrite <- U.
      apply kept_update; [exact Ht|]. apply Other; [exact Hi|].
      exact (Deny m instance Sm C).
    - injection X as <- _. apply kept_same; auto. }
  destruct a.
  - unfold list_ in H. bind_inv H as w. injection H as <- _. apply kept_same; auto.
  - unfold create in H. bind_inv H as w.
    destruct (task_is_valid false d) as [v | errors].
    + destruct (task_create db now w v) as [db2 t2] eqn:U.
      injection H as <- _. change db2 with (fst (db2, t2)). rewrite <- U.
      apply kept_create. exact Ht.
    + injection H as <- _. apply kept_same; auto.
  - unfold retrieve in H. bind_inv H as w. bind_inv H as x.
    injection H as <- _. apply kept_same; auto.
  - apply (W PUT false pk d eq_refl H).
  - apply (W PATCH true pk d eq_refl H).
  - unfold destroy in H. bind_inv H as w. rewrite initial_Some in Ew.
    injection Ew as <-. bind_inv H as x. apply get_object_Ok in Ex as (Hx & _ & _ & C).
    destruct (negb _); injection H as <- _; [apply kept_same; auto|].
    apply kept_delete_task; [exact Ht|]. apply Other; [exact Hx|].
    exact (Deny DELETE x eq_refl C).
  - unfold share in H. bind_inv H as w0. rewrite initial_Some in Ew0.
    injection Ew0 as <-. bind_inv H as task. bind_inv H as valid.
    apply get_object_Ok in Etask as (Hx & _ & _ & C).
    destruct valid as [v | errors]; [|injection H as <- _; apply kept_same; auto].
    destruct (get _ (users db)) as [w | e].
    + destruct (User_eq w u); [injection H as <- _; apply kept_same; auto|].
      bind_inv H as r. destruct r as [[db2 s] created]. injection H as <- _.
      apply (kept_upsert db now task w (permission_v v) db2 s created);
        try assumption.
      apply Other; [exact Hx|]. exact (Mine POST task C).
    + destruct e; try discriminate. injection H as <- _. apply kept_same; auto.
  - unfold shares in H. bind_inv H as w. bind_inv H as x.
    injection H as <- _. apply kept_same; auto.
  - unfold revoke_share in H. bind_inv H as w. rewrite initial_Some in Ew.
    injection Ew as <-. bind_inv H as x. apply get_object_Ok in Ex as (Hx & _ & _ & C).
    destruct (get _ _) as [s | e] eqn:G.
    + injection H as <- _. apply get_Ok in G as (Hs & P & _).
      apply share_of_true in P as [P _].
      apply kept_delete_share; try assumption. rewrite P.
      apply Other; [exact Hx|]. exact (Mine DELETE x C).
    + destruct e; try discriminate. injection H as <- _. apply kept_same; auto.
Qed.

(** X11.  Creating a task.  Without a title the answer is 400
    "required"; with a title that is empty once stripped it is 400 "may
    not be blank"; with a stripped title of more than 255 code points, or
    with a null character in it, it is 400 with what the validators of the
    field say; and nothing changes.  Otherwise the answer is 201 and one
    row is added: it has the next key, the caller as owner, the stripped
    title, the status and priority sent or else new and medium, and the
    instant of the request as creation time; it is in the queryset of its
    owner and of nobody else. *)
Theorem X11_create (EmailField : string -> option string) db now u d :
  reachable EmailField db ->
  let r := dispatch EmailField db now (Some u) (A_create d) in
  match title_in d with
  | None => r = (db, validation_failed [("title", [Required])])
  | Some s =>
      if negb (Str.truthy (Str.strip s)) then
        r = (db, validation_failed [("title", [Blank])])
      else if (255 <? Str.len (Str.strip s)) || Str.contains 0 (Str.strip s) then
        r = (db, validation_failed [("title", run_validators 255 (Str.strip s))])
        /\ run_validators 255 (Str.strip s) <> []
      else
        exists t,
          snd r = {| status_code := 201; data := TaskBody t |}
          /\ tasks (fst r) = (tasks db ++ [t])%list
          /\ task_shares (fst r) = task_shares db
          /\ task_pk t = task_seq db /\ owner_id t = user_pk u
          /\ title t = Str.strip s
          /\ status t = or_default (status_in d) NEW
          /\ priority t = or_default (priority_in d) MEDIUM
          /\ created_at t = now
          /\ (forall u', In t (get_queryset (fst r) u') <-> user_pk u' = user_pk u)
  end.
Proof.
  intros Hr r. pose proof (reachable_ok _ _ Hr) as Hok.
  pose proof (reachable_refs _ _ Hr) as [Rt _].
  unfold r, dispatch, create. rewrite initial_Some. simpl bind.
  rewrite task_is_valid_cases. destruct (title_in d) as [s|]; [|reflexivity].
  destruct (Str.truthy (Str.strip s)); [|reflexivity]. cbv beta iota delta [negb].
  change title_max_length with 255. unfold run_validators.
  destruct (255 <? Str.len (Str.strip s)); simpl orb.
  - split; [reflexivity | discriminate].
  - destruct (Str.contains 0 (Str.strip s)).
    + split; [reflexivity | discriminate].
    + eexists. simpl. repeat split.
      * intros H. apply get_queryset_In in H as [_ [O | (x & Hx & E & _)]].
        -- simpl in O. symmetry. exact O.
        -- exfalso. simpl in Hx, E. destruct (Rt x Hx) as (t0 & Ht0 & E0 & _).
           pose proof (ok_task_seq _ Hok) as F. rewrite Forall_forall in F.
           specialize (F (task_pk t0) (in_map task_pk _ _ Ht0)). lia.
      * intros E. apply get_queryset_In. split.
        -- simpl. apply in_app_iff. right. left. reflexivity.
        -- left. simpl. symmetry. exact E.
Qed.

(** X12.  [validate_title] refuses a text exactly when nothing is left
    of it once stripped; what it accepts it returns stripped, and accepts
    unchanged when validated again.  Inside the serializer it never
    refuses: the field class has stripped the text and refused a blank one
    before, so no answer carries "Title cannot be empty.". *)
Theorem X12_validate_title value :
  (validate_title value = inr (ValidationError "Title cannot be empty.")
   <-> Str.strip value = EmptyString)
  /\ (Str.strip value <> EmptyString ->
      validate_title value = inl (Str.strip value)
      /\ validate_title (Str.strip value) = inl (Str.strip value))
  /\ (forall max_length v, CharField max_length value = inl v ->
                           validate_title v = inl v)
  /\ (forall partial d errors field msgs,
        task_is_valid partial d = inr errors -> In (field, msgs) errors ->
        ~ In (ValidationError "Title cannot be empty.") msgs).
Proof.
  assert (T : Str.strip value <> EmptyString -> Str.truthy (Str.strip value) = true).
  { intros N. destruct (Str.truthy (Str.strip value)) eqn:E; [reflexivity|].
    apply truthy_false in E. contradiction. }
  split; [|split; [|split]].
  - rewrite validate_title_cases. destruct (Str.truthy (Str.strip value)) eqn:E.
    + split; [discriminate|]. intros X. rewrite X in E. discriminate E.
    + apply truthy_false in E. tauto.
  - intros N. rewrite !validate_title_cases, strip_idempotent, (T N). auto.
  - intros max_length v C. apply (CharField_validate_title _ _ _ C).
  - intros partial d errors field msgs V I M. rewrite task_is_valid_cases in V.
    destruct (title_in d) as [data|].
    + destruct (Str.truthy (Str.strip data)).
      * destruct (run_validators title_max_length (Str.strip data)) as [|e es] eqn:R;
          [discriminate V|]. injection V as <-. destruct I as [[= <- <-] | []].
        rewrite <- R in M. apply run_validators_errors in M as [M | M]; discriminate M.
      * injection V as <-. destruct I as [[= <- <-] | []].
        destruct M as [M | []]. discriminate M.
    + destruct partial; [discriminate V|]. injection V as <-.
      destruct I as [[= <- <-] | []]. destruct M as [M | []]. discriminate M.
Qed.

(** X14.  [is_overdue] is true exactly when the deadline is set, the
    status is not done and the deadline is before now.  A task is never
    overdue and due soon at once, whatever the window; at the deadline
    itself it is neither. *)
Theorem X14_is_overdue now t :
  (is_overdue now t = true <->
   exists d, deadline t = Some d /\ status t <> DONE /\ d < now)
  /\ (forall hours, is_overdue now t = true -> is_due_soon now hours t = false)
  /\ (forall hours, deadline t = Some now ->
                    is_overdue now t = false /\ is_due_soon now hours t = false).
Proof.
  assert (Main : is_overdue now t = true <->
                 exists d, deadline t = Some d /\ status t <> DONE /\ d < now).
  { unfold is_overdue. destruct (deadline t) as [d|].
    - destruct (negb (Status_eqb (status t) DONE)) eqn:S.
      + apply Status_neq_DONE in S. rewrite Z.ltb_lt. split.
        * intros L. exists d. auto.
        * intros (d' & [= <-] & _ & L). exact L.
      + split; [discriminate|]. intros (d' & _ & N & _).
        apply Status_neq_DONE in N. congruence.
    - split; [discriminate | intros (d' & [=] & _)]. }
  assert (Soon : forall hours d, deadline t = Some d -> d <= now ->
                                 is_due_soon now hours t = false).
  { intros hours d E L. unfold is_due_soon. rewrite E.
    destruct (negb _); [|reflexivity].
    apply andb_false_iff. left. apply not_true_is_false.
    rewrite total_seconds_positive. lia. }
  split; [exact Main|]. split.
  - intros hours O. apply Main in O as (d & E & _ & L). apply (Soon hours d E). lia.
  - intros hours E. split; [|apply (Soon hours now E); lia].
    apply not_true_is_false. rewrite Main. intros (d & E' & _ & L).
    rewrite E in E'. injection E' as <-. lia.
Qed.

(** X15.  For a candidate of the run at [now] the hours the reminder
    reports lie between 0 and 24, and they are 24 only for a deadline
    exactly 24 hours away. *)
Theorem X15_hours_between_0_and_24 db now t d :
  In t (tasks_due_soon db now) -> deadline t = Some d ->
  0 <= hours_remaining d now <= 24
  /\ (hours_remaining d now = 24 <-> d = now + 24 * 3600000000).
Proof.
  intros I Hd. apply tasks_due_soon_In in I as (_ & d' & E & W & _).
  rewrite Hd in E. injection E as <-.
  assert (H : hours_remaining d now = (d - now) / 3600000000).
  { unfold hours_remaining. apply FloatFacts.hours_floor. lia. }
  rewrite H. split; [|split; intros X]; Z.div_mod_to_equations; lia.
Qed.

(** X16.  A task whose deadline falls on the calendar day of its creation
    is a candidate of no run after its creation: it is never reminded. *)
Theorem X16_same_day_never_reminded db now (t : Task) d :
  deadline t = Some d -> same_day (created_at t) d -> created_at t <= now ->
  ~ In t (tasks_due_soon db now).
Proof.
  intros Hd S C I. apply tasks_due_soon_In in I as (_ & d' & E & W & _ & X).
  rewrite Hd in E. injection E as <-. apply X.
  unfold same_day, day in *. split; Z.div_mod_to_equations; lia.
Qed.

(** X17.  With a client that delivers every message, and every owner and
    grantee row stored, a run answers with a summary, never with a retry:
    it counts the candidates, and as sent one message per candidate plus
    one per share row of a candidate. *)
Theorem X17_scan_counts db now :
  NoDup (map user_pk (users db)) -> owners_stored db ->
  (forall s, In s (task_shares db) ->
     exists u, In u (users db) /\ user_pk u = shared_with_id s) ->
  check_task_deadlines deliver deliver_bulk db now =
  Summary (Z.of_nat (List.length (tasks_due_soon db now)))
          (recipients db (tasks_due_soon db now)) now.
Proof.
  intros Hu Ho Hg. unfold check_task_deadlines.
  rewrite (remind_all_deliver db now Hu Ho Hg).
  - reflexivity.
  - intros t. apply candidates_have_deadlines.
Qed.

(** X18.  With [FakeEmailClient] a run counts no message as sent, and it
    asks for a retry with [TypeError] as soon as one candidate has a share
    row: the client's methods return [None]. *)
Theorem X18_scan_with_fake_client db now :
  NoDup (map user_pk (users db)) -> owners_stored db ->
  (forall s, In s (task_shares db) ->
     exists u, In u (users db) /\ user_pk u = shared_with_id s) ->
  check_task_deadlines fake_send_email fake_send_bulk_email db now =
  if forallb (fun t => match task_shares_of db t with [] => true | _ :: _ => false end)
       (tasks_due_soon db now)
  then Summary (Z.of_nat (List.length (tasks_due_soon db now))) 0 now
  else RetryRequested TypeError.
Proof.
  intros Hu Ho Hg. unfold check_task_deadlines.
  rewrite (remind_all_fake db now Hu Ho Hg).
  - destruct (forallb _ _); reflexivity.
  - intros t. apply candidates_have_deadlines.
Qed.

(** X19.  [send_task_notification] reports success exactly when the task
    and its owner row are found and the client accepts the message built
    for the task; a missing task gives the error of the lookup; a reason
    outside the four known ones gets the generic subject and body. *)
Theorem X19_send_task_notification
    (send_email : string -> string -> string -> result bool)
    db task_id notification_type user_email :
  NoDup (map task_pk (tasks db)) -> NoDup (map user_pk (users db)) ->
  (send_task_notification send_email db task_id notification_type user_email
   = Sent task_id user_email
   <-> exists t o,
         In t (tasks db) /\ task_pk t = task_id
         /\ In o (users db) /\ user_pk o = owner_id t
         /\ send_email user_email
              (fst (_build_notification_email t (email o) notification_type))
              (snd (_build_notification_email t (email o) notification_type))
            = Ok true)
  /\ ((forall t, In t (tasks db) -> task_pk t <> task_id) ->
      send_task_notification send_email db task_id notification_type user_email
      = Failed DoesNotExist)
  /\ (forall t e,
        ~ In notification_type
            ["task_created"; "task_updated"; "task_shared"; "task_completed"] ->
        _build_notification_email t e notification_type =
        ("Task Notification: " ++ title t, "Task: " ++ title t)).
Proof.
  intros Ht Hu. split; [|split].
  - unfold send_task_notification. split.
    + destruct (get _ (tasks db)) as [t | e] eqn:G; simpl bind; [|discriminate].
      unfold related_user.
      destruct (get _ (users db)) as [o | e] eqn:Go; simpl bind; [|discriminate].
      destruct (_build_notification_email t (email o) notification_type)
        as [subject body] eqn:B.
      destruct (send_email user_email subject body) as [[|] | e] eqn:Se;
        try discriminate.
      intros _. apply get_Ok in G as (Hin & P & _). apply Z.eqb_eq in P.
      apply get_Ok in Go as (Ho & Po & _). apply Z.eqb_eq in Po.
      exists t, o. rewrite B. simpl. auto.
    + intros (t & o & Hin & P & Ho & Po & Se).
      rewrite (get_key_In task_pk _ task_id (tasks db) t Ht);
        [| intros y Q; apply Z.eqb_eq; exact Q | exact Hin | apply Z.eqb_eq; exact P].
      simpl bind. rewrite (related_user_found db _ o Hu Ho Po). simpl bind.
      destruct (_build_notification_email t (email o) notification_type)
        as [subject body]. simpl in Se. rewrite Se. reflexivity.
  - intros N. unfold send_task_notification.
    assert (G : get (fun t => task_pk t =? task_id) (tasks db) = Raise DoesNotExist).
    { apply get_DoesNotExist. intros t Hin. apply Z.eqb_neq. exact (N t Hin). }
    rewrite G. reflexivity.
  - intros t e N. unfold _build_notification_email.
    repeat match goal with
           | |- context [Str.eqb notification_type ?k] =>
               destruct (Str.eqb notification_type k) eqn:?E
           end; try reflexivity;
      exfalso; apply N;
      match goal with
      | H : Str.eqb _ _ = true |- _ => apply String.eqb_eq in H; rewrite H
      end; simpl; tauto.
Qed.

(** X21.  What [set] stores under a key, [get] gives back decoded when
    it is a JSON document and as it is otherwise: a [dict] or [list] comes
    back as stored (where [loads] undoes [dumps]), and a text comes back as
    text only if it is not itself a JSON document.  The server is any that
    answers [GET] with what it accepted at [SET]. *)
Theorem X21_cache_round_trip
    (S : Type)
    (redis_get : S -> string -> Cache.outcome (option string))
    (redis_set : S -> string -> string -> option Z -> Cache.outcome S)
    (J : Type) (json_loads : string -> option J) (json_dumps : J -> string)
    st key value expiry st' :
  (forall s k v ex s',
     redis_set s k v ex = Cache.Reply s' -> redis_get s' k = Cache.Reply (Some v)) ->
  Cache.cache_set S redis_set J json_dumps st key value expiry = Cache.Reply (st', true) ->
  Cache.cache_get S redis_get J json_loads st' key =
  Cache.Reply
    (Some match value with
          | Cache.Text _ s =>
              match json_loads s with
              | Some j => Cache.Decoded J j
              | None => Cache.Stored J s
              end
          | Cache.Container _ j =>
              match json_loads (json_dumps j) with
              | Some j' => Cache.Decoded J j'
              | None => Cache.Stored J (json_dumps j)
              end
          end).
Proof.
  intros Law. unfold Cache.cache_set, Cache.cache_get.
  destruct value as [s | j];
    (destruct (redis_set st key _ expiry) as [s1| |] eqn:E; try discriminate;
     intros [= <-]; rewrite (Law _ _ _ _ _ E);
     destruct (json_loads _); reflexivity).
Qed.

(** X22.  When the owner updates a task with a body that validates, the
    answer is 200 and the row of the task is replaced by one with the same
    key, owner and creation instant, each other field as sent or else as it
    was, and the instant of the request as update time; the other task
    rows, the share rows and the sequences stay. *)
Theorem X22_update_writes_what_is_sent
    (EmailField : string -> option string) db now o t d v :
  reachable EmailField db ->
  In t (tasks db) -> owner_id t = user_pk o ->
  task_is_valid true d = inl v ->
  let r := dispatch EmailField db now (Some o) (A_partial_update (task_pk t) d) in
  exists t',
    snd r = {| status_code := 200; data := TaskBody t' |}
    /\ tasks (fst r) = map (fun x => if task_pk x =? task_pk t then t' else x) (tasks db)
    /\ (forall x, In x (tasks db) -> x <> t -> In x (tasks (fst r)))
    /\ task_shares (fst r) = task_shares db
    /\ task_seq (fst r) = task_seq db
    /\ task_pk t' = task_pk t /\ owner_id t' = owner_id t
    /\ created_at t' = created_at t /\ updated_at t' = now
    /\ title t' = or_default (title_in v) (title t)
    /\ description t' = or_default (description_in d) (description t)
    /\ status t' = or_default (status_in d) (status t)
    /\ priority t' = or_default (priority_in d) (priority t)
    /\ deadline t' = or_default (deadline_in d) (deadline t).
Proof.
  intros Hr Ht Ho Hv r. pose proof (reachable_ok _ _ Hr) as Hok.
  assert (Same : description_in v = description_in d /\ status_in v = status_in d
                 /\ priority_in v = priority_in d /\ deadline_in v = deadline_in d).
  { rewrite task_is_valid_cases in Hv. destruct (title_in d) as [s|].
    - destruct (Str.truthy (Str.strip s)); [|discriminate].
      destruct (run_validators _ _); [|discriminate]. injection Hv as <-. simpl. auto.
    - injection Hv as <-. auto. }
  destruct Same as (S1 & S2 & S3 & S4).
  unfold r, dispatch, partial_update, write_task. rewrite initial_Some. simpl bind.
  rewrite (get_object_default db PATCH o t Hok Ht (or_introl Ho)).
  rewrite (owner_permission db PATCH o t Ho). simpl bind. rewrite Hv.
  eexists. simpl. rewrite <- S1, <- S2, <- S3, <- S4.
  repeat split.
  intros x Hx N. apply in_map_iff. exists x. split; [|exact Hx].
  destruct (task_pk x =? task_pk t) eqn:E; [|reflexivity].
  apply Z.eqb_eq in E. exfalso. apply N.
  exact (NoDup_map_inj task_pk _ x t (ok_task_pk _ Hok) Hx Ht E).
Qed.

(** X23.  Sharing again with a user who holds a share changes the
    permission of the row and nothing else of it: its key and its grant
    time stay, and no key is taken from the sequence.  A first share gets
    the next key and the instant of the request.  In both cases the rows of
    the other pairs are left as they were. *)
Theorem X23_upsert_keeps_the_row
    (EmailField : string -> option string) db now o t g raw v p :
  reachable EmailField db ->
  In t (tasks db) -> owner_id t = user_pk o ->
  In g (users db) -> user_pk g <> user_pk o ->
  EmailField raw = Some v -> email g = Str.lower v ->
  let r := dispatch EmailField db now (Some o)
             (A_share (task_pk t)
                {| shared_with_email_in := Some raw;
                   permission_in := Some (Permission_value p) |}) in
  exists s,
    data (snd r) = ShareBody s /\ permission s = p
    /\ match shares_of db t g with
       | s0 :: _ =>
           share_pk s = share_pk s0 /\ shared_at s = shared_at s0
           /\ share_seq (fst r) = share_seq db
       | [] =>
           share_pk s = share_seq db /\ shared_at s = now
           /\ share_seq (fst r) = share_seq db + 1
       end
    /\ filter (fun x => negb (share_of (task_pk t) (user_pk g) x)) (task_shares (fst r))
       = filter (fun x => negb (share_of (task_pk t) (user_pk g) x)) (task_shares db).
Proof.
  intros Hr Ht Ho Hg Hne Hraw Hm r. pose proof (reachable_ok _ _ Hr) as Hok.
  destruct (share_upsert EmailField db now o t g raw v p Hok Ht Ho Hg Hne Hraw Hm)
    as (db' & s & c & R & U).
  fold r in R. rewrite R. simpl fst. simpl snd. simpl data.
  exists s. split; [reflexivity|].
  destruct (upsert_spec _ _ _ _ _ _ _ _ Hok U) as (_ & P & _).
  split; [exact P|].
  revert U. unfold update_or_create, shares_of.
  destruct (get _ _) as [s0 | e] eqn:G.
  - intros [= <- <- _]. apply get_Ok in G as (Hin & Q & F). rewrite F. simpl.
    split; [auto|]. apply filter_map_frame.
    intros x Hx. destruct (share_pk x =? share_pk s0) eqn:E; [|left; reflexivity].
    right. apply Z.eqb_eq in E.
    rewrite (NoDup_map_inj share_pk _ x s0 (ok_share_pk _ Hok) Hx Hin E).
    unfold share_of in *. simpl. rewrite Q. auto.
  - destruct e; try discriminate. intros [= <- <- _].
    assert (F : filter (share_of (task_pk t) (user_pk g)) (task_shares db) = []).
    { unfold get in G. destruct (filter _ _) as [|a [|b l]]; [reflexivity | discriminate..]. }
    rewrite F. simpl. split; [auto|].
    rewrite filter_app. simpl. unfold share_of. simpl. rewrite !Z.eqb_refl. simpl.
    apply app_nil_r.
Qed.

(** X24.  When the owner asks for the shares of a task, the answer is
    200 with the share rows of that task, each of them once and no other
    row, the latest grant first. *)
Theorem X24_shares_latest_first (EmailField : string -> option string) db now o t :
  reachable EmailField db ->
  In t (tasks db) -> owner_id t = user_pk o ->
  exists rows,
    dispatch EmailField db now (Some o) (A_shares (task_pk t)) =
    (db, {| status_code := 200; data := ShareListBody rows |})
    /\ (forall s, In s rows <-> In s (task_shares db) /\ task_id s = task_pk t)
    /\ NoDup rows
    /\ latest_first shared_at rows.
Proof.
  intros Hr Ht Ho. pose proof (reachable_ok _ _ Hr) as Hok.
  eexists. split; [|split; [|split]].
  - unfold dispatch, shares. rewrite initial_Some. simpl bind.
    rewrite (get_object_share db GET o t Hok Ht (or_introl Ho)).
    rewrite (proj2 (owned_by_true t o) Ho). reflexivity.
  - intros s. rewrite order_by_desc_In, filter_In, Z.eqb_eq. reflexivity.
  - apply order_by_desc_NoDup, NoDup_filter.
    exact (NoDup_map_inv share_pk _ (ok_share_pk _ Hok)).
  - apply order_by_desc_sorted.
Qed.

(** X25.  The rows that [list] hands on to be paged and serialized are
    the tasks the caller owns or holds a share on, each of them once, the
    newest first. *)
Theorem X25_list_newest_first db u :
  let rows := filter_queryset (get_queryset db u) in
  (forall t, In t rows <->
             In t (tasks db) /\ (owner_id t = user_pk u \/ has_share db t u))
  /\ NoDup rows
  /\ latest_first (fun t : Task => created_at t) rows.
Proof.
  intros rows. unfold rows, filter_queryset. split; [|split].
  - intros t. rewrite order_by_desc_In. apply get_queryset_In.
  - apply order_by_desc_NoDup. unfold get_queryset, distinct. apply NoDup_nodup.
  - apply order_by_desc_sorted.
Qed.

(* ------------------------------------------------------------------ *)
(** ** The further properties on the example states *)

Lemma db2_reachable : reachable Example.any_email Example2.db2.
Proof.
  change Example2.db2 with (run Example.any_email Example.db0 (firstn 2 Example.history)).
  apply run_reachable, reach_init, users0_unique.
Qed.

Lemma db4_reachable : reachable Example.any_email Example2.db4.
Proof.
  change Example2.db4 with (run Example.any_email Example.db0 (firstn 4 Example.history)).
  apply run_reachable, reach_init, users0_unique.
Qed.

Lemma task1_in_db1 : In Example.task1 (tasks Example.db1).
Proof. vm_compute. left. reflexivity. Qed.

Lemma task1_in_db2 : In Example.task1 (tasks Example2.db2).
Proof. vm_compute. left. reflexivity. Qed.

Lemma task1_in_db4 : In Example.task1 (tasks Example2.db4).
Proof. vm_compute. left. reflexivity. Qed.

Lemma task1_in_db5 : In Example.task1 (tasks Example.db5).
Proof. vm_compute. left. reflexivity. Qed.

Lemma users0_pk : NoDup (map user_pk Example.users0).
Proof. exact (proj1 users0_unique). Qed.

Lemma X2_revoke_share_witness :
  In Example2.dan_view (task_shares Example2.db4)
  /\ dispatch Example.any_email Example2.db4 5000 (Some Example.ann) (A_revoke_share 1 4)
     = (Example.db5, {| status_code := 204; data := NoBody |})
  /\ dispatch Example.any_email Example.db5 6000 (Some Example.dan) (A_retrieve 1)
     = (Example.db5, {| status_code := 404; data := ExceptionBody Http404 |}).
Proof.
  assert (Hs : In Example2.dan_view (task_shares Example2.db4))
    by (vm_compute; right; left; reflexivity).
  assert (Hn : user_pk Example.dan <> user_pk Example.ann) by (simpl; lia).
  split; [exact Hs|].
  destruct (X2_revoke_share Example.any_email Example2.db4 5000 Example.ann
              Example.task1 Example.dan Example2.dan_view
              db4_reachable task1_in_db4 eq_refl Hs eq_refl eq_refl Hn)
    as (H1 & _ & _ & _ & H5).
  split.
  - apply injective_projections; [reflexivity | exact H1].
  - exact (H5 6000 (A_retrieve 1) eq_refl).
Defined.

Lemma X3_revoke_absent_witness :
  (forall s, In s (task_shares Example.db5) -> task_id s = 1 -> shared_with_id s <> 4)
  /\ dispatch Example.any_email Example.db5 6000 (Some Example.ann) (A_revoke_share 1 4)
     = (Example.db5, {| status_code := 404; data := Detail "Share not found" [] |}).
Proof.
  assert (N : forall s, In s (task_shares Example.db5) ->
                        task_id s = task_pk Example.task1 -> shared_with_id s <> 4).
  { intros s Hs _. vm_compute in Hs. destruct Hs as [<- | []]. simpl. lia. }
  split; [exact N|].
  exact (X3_revoke_absent Example.any_email Example.db5 6000 Example.ann
           Example.task1 4 db5_reachable task1_in_db5 eq_refl N).
Defined.

Lemma X4_destroy_cascades_witness :
  let r := dispatch Example.any_email Example.db5 6000 (Some Example.ann) (A_destroy 1) in
  In Example.task1 (tasks Example.db5)
  /\ snd r = {| status_code := 204; data := NoBody |}
  /\ tasks (fst r) = [] /\ task_shares (fst r) = []
  /\ dispatch Example.any_email (fst r) 7000 (Some Example.bob) (A_retrieve 1)
     = (fst r, {| status_code := 404; data := ExceptionBody Http404 |}).
Proof.
  intros r. split; [exact task1_in_db5|].
  destruct (X4_destroy_cascades Example.any_email Example.db5 6000 Example.ann
              Example.task1 db5_reachable task1_in_db5 eq_refl)
    as (H1 & H2 & H3 & _ & H5).
  split; [exact H1|]. split; [exact H2|]. split; [exact H3|].
  exact (H5 Example.bob 7000 (A_retrieve 1) eq_refl).
Defined.

Lemma X5_view_grantee_read_only_witness :
  In Example2.bob_view (task_shares Example2.db2)
  /\ dispatch Example.any_email Example2.db2 2500 (Some Example.bob) (A_retrieve 1)
     = (Example2.db2, {| status_code := 200; data := TaskBody Example.task1 |})
  /\ dispatch Example.any_email Example2.db2 2500 (Some Example.bob)
       (A_update 1 Example.report)
     = (Example2.db2, {| status_code := 403; data := ExceptionBody PermissionDenied |}).
Proof.
  assert (Hs : In Example2.bob_view (task_shares Example2.db2))
    by (vm_compute; left; reflexivity).
  assert (Hn : owner_id Example.task1 <> user_pk Example.bob) by (simpl; lia).
  split; [exact Hs|].
  destruct (X5_view_grantee_read_only Example.any_email Example2.db2 2500
              Example.task1 Example.bob Example2.bob_view
              db2_reachable task1_in_db2 Hs eq_refl eq_refl eq_refl Hn) as (H1 & H2).
  split; [exact H1|].
  apply (H2 (A_update 1 Example.report) eq_refl). discriminate.
Defined.

Lemma X6_last_grant_decides_witness :
  In Example.bob (users Example.db5)
  /\ (let db1 := fst (dispatch Example.any_email Example.db5 6000 (Some Example.ann)
                        (A_share 1 (Example.share_with "BOB@example.com" "view"))) in
      dispatch Example.any_email db1 7000 (Some Example.bob) (A_update 1 Example.report)
      = (db1, {| status_code := 403; data := ExceptionBody PermissionDenied |})).
Proof.
  assert (Hg : In Example.bob (users Example.db5)) by (vm_compute; right; left; reflexivity).
  assert (Hn : user_pk Example.bob <> user_pk Example.ann) by (simpl; lia).
  split; [exact Hg|].
  exact (X6_last_grant_decides Example.any_email Example.db5 6000 7000
           Example.ann Example.task1 Example.bob "BOB@example.com" "BOB@example.com"
           VIEW Example.report db5_reachable task1_in_db5 eq_refl Hg Hn eq_refl eq_refl).
Defined.

Lemma X7_write_implies_read_witness :
  has_object_permission IsTaskOwnerOrSharedWith
    Example.db5 PUT Example.bob Example.task1 = Ok true
  /\ (forall m', has_object_permission IsTaskOwnerOrSharedWith
                   Example.db5 m' Example.bob Example.task1 = Ok true).
Proof.
  assert (P : has_object_permission IsTaskOwnerOrSharedWith
                Example.db5 PUT Example.bob Example.task1 = Ok true) by reflexivity.
  split; [exact P|].
  exact (proj1 (X7_write_implies_read Example.any_email Example.db5 Example.task1
                  Example.bob PUT db5_reachable) eq_refl P).
Defined.

Lemma X8_share_rows_sound_witness :
  In Example2.dan_view (task_shares Example2.db4)
  /\ (exists t, In t (tasks Example2.db4) /\ task_pk t = 1 /\ owner_id t <> 4)
  /\ (exists u, In u (users Example2.db4) /\ user_pk u = 4).
Proof.
  assert (Hs : In Example2.dan_view (task_shares Example2.db4))
    by (vm_compute; right; left; reflexivity).
  split; [exact Hs|].
  exact (X8_share_rows_sound Example.any_email Example2.db4 Example2.dan_view
           db4_reachable Hs).
Defined.

Lemma X9_owner_is_fixed_witness :
  let reqs := (skipn 1 Example.history
               ++ [(6000, Some Example.bob, A_partial_update 1 Example2.mark_done)])%list in
  let t' := {| task_pk := 1;
               title := "Write the report";
               description := None;
               status := DONE;
               priority := HIGH;
               deadline := None;
               owner_id := 1;
               timestamps := {| created_at := 1000; updated_at := 6000 |} |} in
  In t' (tasks (run Example.any_email Example.db1 reqs))
  /\ owner_id t' = owner_id Example.task1
  /\ created_at t' = created_at Example.task1.
Proof.
  intros reqs t'.
  assert (Ht' : In t' (tasks (run Example.any_email Example.db1 reqs)))
    by (vm_compute; left; reflexivity).
  split; [exact Ht'|].
  exact (X9_owner_is_fixed Example.any_email Example.db1 reqs Example.task1 t'
           db1_reachable task1_in_db1 Ht' eq_refl).
Defined.

Lemma X10_no_write_without_edit_witness :
  let db' := fst (dispatch Example.any_email Example2.db4 4500 (Some Example.dan)
                    (A_partial_update 1 Example2.mark_done)) in
  (forall s, In s (shares_of Example2.db4 Example.task1 Example.dan) ->
             permission s = VIEW)
  /\ In Example.task1 (tasks db')
  /\ task_shares_of db' Example.task1 = task_shares_of Example2.db4 Example.task1.
Proof.
  intros db'.
  assert (V : forall s, In s (shares_of Example2.db4 Example.task1 Example.dan) ->
                        permission s = VIEW).
  { intros s Hs. vm_compute in Hs. destruct Hs as [<- | []]. reflexivity. }
  assert (Hn : owner_id Example.task1 <> user_pk Example.dan) by (simpl; lia).
  split; [exact V|].
  exact (X10_no_write_without_edit Example.any_email Example2.db4 4500 Example.dan
           (A_partial_update 1 Example2.mark_done) Example.task1
           db4_reachable task1_in_db4 Hn V).
Defined.

Lemma X11_create_witness :
  let r := dispatch Example.any_email Example.db5 6000 (Some Example.bob)
             (A_create Example.report) in
  exists t,
    snd r = {| status_code := 201; data := TaskBody t |}
    /\ task_pk t = 2 /\ owner_id t = 2 /\ title t = "Write the report"
    /\ (forall u', In t (get_queryset (fst r) u') <-> user_pk u' = 2).
Proof.
  intros r.
  destruct (X11_create Example.any_email Example.db5 6000 Example.bob Example.report
              db5_reachable)
    as (t & H1 & _ & _ & H4 & H5 & H6 & _ & _ & _ & H10).
  exists t. split; [exact H1|]. split; [exact H4|]. split; [exact H5|].
  split; [exact H6 | exact H10].
Defined.

Lemma X15_hours_between_0_and_24_witness :
  In Example.task2 (tasks_due_soon Example.scan_db Example.noon)
  /\ 0 <= hours_remaining (Example.noon + 12600000000) Example.noon <= 24.
Proof.
  assert (I : In Example.task2 (tasks_due_soon Example.scan_db Example.noon))
    by (vm_compute; left; reflexivity).
  split; [exact I|].
  exact (proj1 (X15_hours_between_0_and_24 Example.scan_db Example.noon Example.task2
                  (Example.noon + 12600000000) I eq_refl)).
Defined.

Lemma X16_same_day_never_reminded_witness :
  let t := Example.scan_task 11 NEW (Example.noon + 5 * 3600000000)
             (Example.noon - 1 * 3600000000) in
  same_day (created_at t) (Example.noon + 5 * 3600000000)
  /\ ~ In t (tasks_due_soon Example.four_tasks Example.noon).
Proof.
  intros t.
  assert (S : same_day (created_at t) (Example.noon + 5 * 3600000000))
    by (vm_compute; reflexivity).
  split; [exact S|].
  apply (X16_same_day_never_reminded Example.four_tasks Example.noon t
           (Example.noon + 5 * 3600000000) eq_refl S).
  vm_compute. discriminate.
Defined.

Lemma shared_scan_db_stored :
  owners_stored Example2.shared_scan_db
  /\ (forall s, In s (task_shares Example2.shared_scan_db) ->
        exists u, In u (users Example2.shared_scan_db) /\ user_pk u = shared_with_id s).
Proof.
  split.
  - intros t [<- | []]. exists Example.bob. split; [|reflexivity].
    simpl. auto.
  - intros s [<- | [<- | []]].
    + exists Example.ann. split; [|reflexivity]. simpl. auto.
    + exists Example.dan. split; [|reflexivity]. simpl. auto.
Qed.

Lemma X17_scan_counts_witness :
  check_task_deadlines deliver deliver_bulk Example2.shared_scan_db Example.noon
  = Summary 1 3 Example.noon.
Proof.
  exact (X17_scan_counts Example2.shared_scan_db Example.noon users0_pk
           (proj1 shared_scan_db_stored) (proj2 shared_scan_db_stored)).
Defined.

Lemma X18_scan_with_fake_client_witness :
  check_task_deadlines fake_send_email fake_send_bulk_email
    Example2.shared_scan_db Example.noon
  = RetryRequested TypeError.
Proof.
  exact (X18_scan_with_fake_client Example2.shared_scan_db Example.noon users0_pk
           (proj1 shared_scan_db_stored) (proj2 shared_scan_db_stored)).
Defined.

Lemma X19_send_task_notification_witness :
  send_task_notification Example2.accept_text Example.db5 1 "task_shared" "bob@example.com"
  = Sent 1 "bob@example.com"
  /\ send_task_notification Example2.accept_text Example.db5 9 "task_shared"
       "bob@example.com"
     = Failed DoesNotExist.
Proof.
  assert (Ht : NoDup (map task_pk (tasks Example.db5))).
  { exact (ok_task_pk _ (reachable_ok _ _ db5_reachable)). }
  destruct (X19_send_task_notification Example2.accept_text Example.db5 1
              "task_shared" "bob@example.com" Ht users0_pk) as (H1 & _ & _).
  destruct (X19_send_task_notification Example2.accept_text Example.db5 9
              "task_shared" "bob@example.com" Ht users0_pk) as (_ & H2 & _).
  split.
  - apply H1. exists Example.task1, Example.ann.
    split; [exact task1_in_db5|]. split; [reflexivity|].
    split; [vm_compute; left; reflexivity|]. split; reflexivity.
  - apply H2. intros t Hin. vm_compute in Hin. destruct Hin as [<- | []].
    simpl. lia.
Defined.

Lemma memory_answers st k v ex st' :
  Cache.memory_set st k v ex = Cache.Reply st' ->
  Cache.memory_get st' k = Cache.Reply (Some v).
Proof.
  unfold Cache.memory_set, Cache.memory_get. intros [= <-]. simpl.
  unfold Str.eqb. rewrite String.eqb_refl. reflexivity.
Qed.

Lemma X21_cache_round_trip_witness :
  Cache.cache_set Cache.memory Cache.memory_set unit Cache.empty_list_dumps
    [] "k" (Cache.Text unit "[]") None
  = Cache.Reply ([("k", "[]")], true)
  /\ Cache.cache_get Cache.memory Cache.memory_get unit Cache.empty_list_loads
       [("k", "[]")] "k"
     = Cache.Reply (Some (Cache.Decoded unit tt)).
Proof.
  assert (H : Cache.cache_set Cache.memory Cache.memory_set unit Cache.empty_list_dumps
                [] "k" (Cache.Text unit "[]") None
              = Cache.Reply ([("k", "[]")], true)) by reflexivity.
  split; [exact H|].
  exact (X21_cache_round_trip Cache.memory Cache.memory_get Cache.memory_set
           unit Cache.empty_list_loads Cache.empty_list_dumps
           [] "k" (Cache.Text unit "[]") None [("k", "[]")] memory_answers H).
Defined.

Lemma X22_update_writes_what_is_sent_witness :
  let r := dispatch Example.any_email Example.db5 6000 (Some Example.ann)
             (A_partial_update 1 Example2.mark_done) in
  exists t',
    snd r = {| status_code := 200; data := TaskBody t' |}
    /\ status t' = DONE /\ title t' = "Write the report" /\ priority t' = HIGH
    /\ owner_id t' = 1 /\ created_at t' = 1000 /\ updated_at t' = 6000
    /\ task_shares (fst r) = task_shares Example.db5.
Proof.
  intros r.
  destruct (X22_update_writes_what_is_sent Example.any_email Example.db5 6000
              Example.ann Example.task1 Example2.mark_done Example2.mark_done
              db5_reachable task1_in_db5 eq_refl eq_refl)
    as (t' & H1 & _ & _ & H4 & _ & _ & H7 & H8 & H9 & H10 & _ & H12 & H13 & _).
  exists t'. split; [exact H1|]. split; [exact H12|]. split; [exact H10|].
  split; [exact H13|]. split; [exact H7|]. split; [exact H8|].
  split; [exact H9 | exact H4].
Defined.

Lemma X23_upsert_keeps_the_row_witness :
  let r := dispatch Example.any_email Example2.db2 3000 (Some Example.ann)
             (A_share 1 (Example.share_with "bob@example.com" "edit")) in
  In Example.bob (users Example2.db2)
  /\ exists s,
       data (snd r) = ShareBody s /\ permission s = EDIT
       /\ share_pk s = 1 /\ shared_at s = 2000
       /\ share_seq (fst r) = share_seq Example2.db2.
Proof.
  intros r.
  assert (Hg : In Example.bob (users Example2.db2)) by (vm_compute; right; left; reflexivity).
  assert (Hn : user_pk Example.bob <> user_pk Example.ann) by (simpl; lia).
  split; [exact Hg|].
  destruct (X23_upsert_keeps_the_row Example.any_email Example2.db2 3000
              Example.ann Example.task1 Example.bob "bob@example.com" "bob@example.com"
              EDIT db2_reachable task1_in_db2 eq_refl Hg Hn eq_refl eq_refl)
    as (s & H1 & H2 & H3 & _).
  exists s. split; [exact H1|]. split; [exact H2|].
  change (shares_of Example2.db2 Example.task1 Example.bob) with [Example2.bob_view] in H3.
  exact H3.
Defined.

Lemma X24_shares_latest_first_witness :
  In Example.task1 (tasks Example2.db4)
  /\ exists rows,
       dispatch Example.any_email Example2.db4 4500 (Some Example.ann) (A_shares 1) =
       (Example2.db4, {| status_code := 200; data := ShareListBody rows |})
       /\ (forall s, In s rows <-> In s (task_shares Example2.db4) /\ task_id s = 1)
       /\ NoDup rows
       /\ latest_first shared_at rows.
Proof.
  split; [exact task1_in_db4|].
  exact (X24_shares_latest_first Example.any_email Example2.db4 4500 Example.ann
           Example.task1 db4_reachable task1_in_db4 eq_refl).
Defined.
